(** * Journal backend: access control, user service, journal service and feeds

    A shallow embedding of the Express handlers of the journal backend
    (middlewares/auth.middleware.js, controllers/user.js,
    controllers/journal.js, routes/user.js, routes/journal.js) over an
    explicit model of the relational store, followed by the properties
    the specification states about them.

    Conventions.
    - Request bodies and token claims are JSON objects, association lists
      of [jsval]: the handlers destructure them and trust their shape, so
      truthiness, [typeof], optional chaining and the type errors of
      JavaScript are modelled on [jsval].
    - Instants are milliseconds since the epoch, in [Z].
    - The store is a pair of tables (lists of rows, in table order); every
      Prisma call is a function of the store returning a [completion]:
      a value, or the exception the call throws. Roles and media types
      are the enumerations of the schema. The journal rows carry the
      [publish_at] column of the SQL schema, filled by its default; the
      Prisma schema does not declare it, so the client refuses every
      query that names it and returns no such key.
    - Strings are held in UTF-8. The upper-casing of a string with
      characters outside ASCII, the password hash, the encoding and
      signature of a token, [JSON.parse], the implementation defined
      part of [Date.parse] and the primitive value of an object are
      Section variables: the properties hold for every implementation
      of them. *)

From Stdlib Require Import ZArith List String Ascii Bool Lia Permutation.
Import ListNotations.

Local Open Scope string_scope.
Local Open Scope list_scope.

(* ------------------------------------------------------------------ *)
(** ** JavaScript values and the string operations the handlers use *)

Module JS.

#[warnings="-register-all"]
Inductive jsval : Type :=
| JUndefined
| JNull
| JBool (b : bool)
| JNum (n : Z)
| JStr (s : string)
| JArr (xs : list jsval)
| JObj (fields : list (string * jsval)).

(** What a JavaScript call does: return a value or throw. The payload
    of [Throw] is [error.message]. *)
Inductive completion (A : Type) : Type :=
| Normal (a : A)
| Throw (message : string).
Arguments Normal {A} a.
Arguments Throw {A} message.

Definition bind {A B} (c : completion A) (k : A -> completion B) : completion B :=
  match c with
  | Normal a => k a
  | Throw m => Throw m
  end.

(** ToBoolean. Numbers are the integers; [NaN] is not a body value. *)
Definition truthy (v : jsval) : bool :=
  match v with
  | JUndefined | JNull => false
  | JBool b => b
  | JNum n => negb (Z.eqb n 0)
  | JStr s => negb (String.eqb s EmptyString)
  | JArr _ | JObj _ => true
  end.

(** [a || b] *)
Definition js_or (a b : jsval) : jsval := if truthy a then a else b.

(** [v === w] where one side is a string: equal only to the same string.
    Two distinct objects are never strictly equal. *)
Definition strict_eq (v w : jsval) : bool :=
  match v, w with
  | JUndefined, JUndefined => true
  | JNull, JNull => true
  | JBool a, JBool b => Bool.eqb a b
  | JNum a, JNum b => Z.eqb a b
  | JStr a, JStr b => String.eqb a b
  | _, _ => false
  end.

Definition is_lower (c : ascii) : bool :=
  (Ascii.leb "a" c && Ascii.leb c "z")%bool.

Definition upper_char (c : ascii) : ascii :=
  if is_lower c then ascii_of_nat (nat_of_ascii c - 32) else c.

(** Every character of the string is an ASCII character. *)
Fixpoint is_ascii (s : string) : bool :=
  match s with
  | EmptyString => true
  | String c r => (Nat.ltb (nat_of_ascii c) 128 && is_ascii r)%bool
  end.

(** Upper-casing of an ASCII string: the letters a to z. *)
Fixpoint toUpperCase_ascii (s : string) : string :=
  match s with
  | EmptyString => EmptyString
  | String c r => String (upper_char c) (toUpperCase_ascii r)
  end.

(** [s.startsWith(p)] *)
Definition startsWith (s p : string) : bool := String.prefix p s.

(** [s.split(c)] for a one character separator. *)
Fixpoint split_acc (sep : ascii) (cur : string) (s : string) : list string :=
  match s with
  | EmptyString => [cur]
  | String c r =>
      if Ascii.eqb c sep then cur :: split_acc sep EmptyString r
      else split_acc sep (cur ++ String c EmptyString) r
  end.

Definition split_on (s : string) (sep : ascii) : list string := split_acc sep EmptyString s.

(** [xs.join(sep)] *)
Definition join (xs : list string) (sep : string) : string := String.concat sep xs.

(** [xs.includes(v)] for an array of strings. *)
Definition includes (xs : list string) (v : jsval) : bool :=
  existsb (fun x => strict_eq (JStr x) v) xs.

(** Property lookup on an object literal; a missing key reads [undefined]. *)
Fixpoint get_field (k : string) (fields : list (string * jsval)) : jsval :=
  match fields with
  | [] => JUndefined
  | (k', v) :: r => if String.eqb k k' then v else get_field k r
  end.

Definition field (k : string) (v : jsval) : jsval :=
  match v with
  | JObj fields => get_field k fields
  | _ => JUndefined
  end.

Definition keys (v : jsval) : list string :=
  match v with
  | JObj fields => map fst fields
  | _ => []
  end.

End JS.
Export JS.

(* ------------------------------------------------------------------ *)
(** ** Dates: [new Date(v)], [Date.prototype.toISOString] *)

Module JSDate.

Local Open Scope Z_scope.

Definition msPerDay : Z := 86400000.
Definition maxTime : Z := 8640000000000000.

(** TimeClip: a Date holds a time value within 100,000,000 days of the
    epoch, or is invalid ([None]). *)
Definition TimeClip (t : Z) : option Z :=
  if Z.abs t <=? maxTime then Some t else None.

Definition is_leap (y : Z) : bool :=
  ((y mod 4 =? 0) && negb (y mod 100 =? 0) || (y mod 400 =? 0))%bool.

Definition days_in_month (y m : Z) : Z :=
  if m =? 2 then (if is_leap y then 29 else 28)
  else if (m =? 4) || (m =? 6) || (m =? 9) || (m =? 11) then 30
  else 31.

(** Day number of the civil date [y]-[m]-[d] (proleptic Gregorian),
    day 0 being 1970-01-01. *)
Definition days_from_civil (y m d : Z) : Z :=
  let y' := if m <=? 2 then y - 1 else y in
  let era := y' / 400 in
  let yoe := y' - era * 400 in
  let mp := (m + 9) mod 12 in
  let doy := (153 * mp + 2) / 5 + d - 1 in
  let doe := yoe * 365 + yoe / 4 - yoe / 100 + doy in
  era * 146097 + doe - 719468.

(** The civil date of a day number. *)
Definition civil_from_days (z : Z) : Z * Z * Z :=
  let z' := z + 719468 in
  let era := z' / 146097 in
  let doe := z' - era * 146097 in
  let yoe := (doe - doe / 1460 + doe / 36524 - doe / 146096) / 365 in
  let y := yoe + era * 400 in
  let doy := doe - (365 * yoe + yoe / 4 - yoe / 100) in
  let mp := (5 * doy + 2) / 153 in
  let d := doy - (153 * mp + 2) / 5 + 1 in
  let m := if mp <? 10 then mp + 3 else mp - 9 in
  (if m <=? 2 then y + 1 else y, m, d).

Definition digit (d : Z) : ascii := ascii_of_nat (48 + Z.to_nat (d mod 10)).

(** Fixed width decimal rendering, most significant digit first. *)
Fixpoint pad (width : nat) (x : Z) : string :=
  match width with
  | O => EmptyString
  | S w => pad w (x / 10) ++ String (digit x) EmptyString
  end.

Definition year_string (y : Z) : string :=
  if (0 <=? y) && (y <=? 9999) then pad 4 y
  else (if y <? 0 then "-" else "+") ++ pad 6 (Z.abs y).

(** [date.toISOString()] of a valid Date with time value [t]:
    YYYY-MM-DDTHH:mm:ss.sssZ, the year extended to a sign and six digits
    outside 0..9999. *)
Definition toISOString (t : Z) : string :=
  let day := t / msPerDay in
  let r := t mod msPerDay in
  let '(y, m, d) := civil_from_days day in
  year_string y ++ "-" ++ pad 2 m ++ "-" ++ pad 2 d ++ "T" ++
  pad 2 (r / 3600000) ++ ":" ++ pad 2 ((r / 60000) mod 60) ++ ":" ++
  pad 2 ((r / 1000) mod 60) ++ "." ++ pad 3 (r mod 1000) ++ "Z".

(** *** Parsing the full date-time form *)

Definition digit_val (c : ascii) : option Z :=
  if (Ascii.leb "0" c && Ascii.leb c "9")%bool
  then Some (Z.of_nat (nat_of_ascii c - 48)) else None.

(** Read exactly [n] decimal digits. *)
Fixpoint take_digits (n : nat) (acc : Z) (cs : list ascii) : option (Z * list ascii) :=
  match n with
  | O => Some (acc, cs)
  | S n' =>
      match cs with
      | [] => None
      | c :: r =>
          match digit_val c with
          | Some v => take_digits n' (10 * acc + v) r
          | None => None
          end
      end
  end.

Definition expect (c : ascii) (cs : list ascii) : option (list ascii) :=
  match cs with
  | c' :: r => if Ascii.eqb c c' then Some r else None
  | [] => None
  end.

Definition take_year (cs : list ascii) : option (Z * list ascii) :=
  match cs with
  | c :: r =>
      if Ascii.eqb c "+" then take_digits 6 0 r
      else if Ascii.eqb c "-" then
        match take_digits 6 0 r with
        | Some (y, r') => if y =? 0 then None else Some (- y, r')
        | None => None
        end
      else take_digits 4 0 cs
  | [] => None
  end.

Notation "'do' x <- c ; k" :=
  (match c with Some x => k | None => None end)
  (at level 10, x pattern, c at level 100, k at level 200, only parsing).

(** The date-time string format with every field present and the zone
    [Z]: (+|-YY)YYYY-MM-DDTHH:mm:ss.sssZ with legal field values. *)
Definition parse_full (s : string) : option Z :=
  do (y, r) <- take_year (list_ascii_of_string s);
  do r <- expect "-" r;
  do (m, r) <- take_digits 2 0 r;
  do r <- expect "-" r;
  do (d, r) <- take_digits 2 0 r;
  do r <- expect "T" r;
  do (h, r) <- take_digits 2 0 r;
  do r <- expect ":" r;
  do (mi, r) <- take_digits 2 0 r;
  do r <- expect ":" r;
  do (sec, r) <- take_digits 2 0 r;
  do r <- expect "." r;
  do (ms, r) <- take_digits 3 0 r;
  do r <- expect "Z" r;
  match r with
  | [] =>
      if (1 <=? m) && (m <=? 12) && (1 <=? d) && (d <=? days_in_month y m)
         && (h <=? 23) && (mi <=? 59) && (sec <=? 59)
      then Some (days_from_civil y m d * msPerDay
                 + h * 3600000 + mi * 60000 + sec * 1000 + ms)
      else None
  | _ => None
  end.

End JSDate.

(* ------------------------------------------------------------------ *)
(** ** The store: users, journals, and the Prisma calls made on them *)

Module Prisma.

Local Open Scope Z_scope.

Inductive Role := STUDENT | TEACHER | ADMIN.
Inductive MediaType := IMAGE | VIDEO | AUDIO | PDF.

Definition Role_name (r : Role) : string :=
  match r with STUDENT => "STUDENT" | TEACHER => "TEACHER" | ADMIN => "ADMIN" end.

Definition Role_of_string (s : string) : option Role :=
  if String.eqb s "STUDENT" then Some STUDENT
  else if String.eqb s "TEACHER" then Some TEACHER
  else if String.eqb s "ADMIN" then Some ADMIN
  else None.

Definition MediaType_name (m : MediaType) : string :=
  match m with IMAGE => "IMAGE" | VIDEO => "VIDEO" | AUDIO => "AUDIO" | PDF => "PDF" end.

Definition MediaType_of_string (s : string) : option MediaType :=
  if String.eqb s "IMAGE" then Some IMAGE
  else if String.eqb s "VIDEO" then Some VIDEO
  else if String.eqb s "AUDIO" then Some AUDIO
  else if String.eqb s "PDF" then Some PDF
  else None.

Module User.
Record t := mk {
  id : string;
  name : option string;
  email : string;
  password : string;
  role : Role;
  created_at : Z;
  updated_at : Z
}.
End User.

Module Journal.
Record t := mk {
  id : string;
  title : string;
  content : string;
  media : list string;
  mediaType : option MediaType;
  teacherId : string;
  taggedStudents : list string;
  publish_at : option Z;
  created_at : Z;
  updated_at : Z
}.
End Journal.

Record Store := mkStore {
  users : list User.t;
  journals : list Journal.t
}.

(** What a request reads from outside the store: the application clock
    ([new Date()]), the instant the store stamps on rows it writes, the
    identifier [uuid()] draws, and the salt [bcrypt.genSalt] draws. *)
Record Env := mkEnv {
  clock : Z;
  store_clock : Z;
  uuid : string;
  salt : string
}.

(** Argument validation of the client: a string is required. *)
Definition as_string (arg : string) (v : jsval) : completion string :=
  match v with
  | JStr s => Normal s
  | _ => Throw ("Invalid value for argument " ++ arg)
  end.

(** A nullable string column: [undefined] and [null] store NULL. *)
Definition as_opt_string (arg : string) (v : jsval) : completion (option string) :=
  match v with
  | JStr s => Normal (Some s)
  | JUndefined | JNull => Normal None
  | _ => Throw ("Invalid value for argument " ++ arg)
  end.

(** A value for the [media] column: a list of strings. A single string
    is refused like any other value that is not a list. *)
Fixpoint strings_of (vs : list jsval) : completion (list string) :=
  match vs with
  | [] => Normal []
  | v :: r =>
      bind (as_string "media" v) (fun s =>
      bind (strings_of r) (fun ss => Normal (s :: ss)))
  end.

Definition media_arg (v : jsval) : completion (list string) :=
  match v with
  | JArr xs => strings_of xs
  | _ => Throw "Invalid value for argument media"
  end.

Definition find_user_by_email (db : Store) (e : string) : option User.t :=
  find (fun u => String.eqb (User.email u) e) (users db).

Definition find_user_by_id (db : Store) (i : string) : option User.t :=
  find (fun u => String.eqb (User.id u) i) (users db).

Definition find_journal (db : Store) (i : string) : option Journal.t :=
  find (fun j => String.eqb (Journal.id j) i) (journals db).

(** [prisma.user.findUnique({ where: { email } })] *)
Definition user_findUnique_email (db : Store) (email : jsval) : completion (option User.t) :=
  bind (as_string "email" email) (fun e => Normal (find_user_by_email db e)).

(** [prisma.user.findUnique({ where: { id } })] *)
Definition user_findUnique_id (db : Store) (id : jsval) : completion (option User.t) :=
  bind (as_string "id" id) (fun i => Normal (find_user_by_id db i)).

(** A value for a [Role] column: one of the enumerated names;
    [undefined] takes the column default. *)
Definition as_Role (v : jsval) : completion Role :=
  match v with
  | JUndefined => Normal STUDENT
  | JStr s =>
      match Role_of_string s with
      | Some r => Normal r
      | None => Throw "Invalid value for argument role. Expected Role."
      end
  | _ => Throw "Invalid value for argument role. Expected Role."
  end.

Definition as_MediaType (v : jsval) : completion (option MediaType) :=
  match v with
  | JUndefined | JNull => Normal None
  | JStr s =>
      match MediaType_of_string s with
      | Some m => Normal (Some m)
      | None => Throw "Invalid value for argument mediaType. Expected MediaType."
      end
  | _ => Throw "Invalid value for argument mediaType. Expected MediaType."
  end.

(** [prisma.user.create({ data: { name, email, password, role } })].
    The email is unique; the primary key is the drawn identifier. *)
Definition user_create (env : Env) (db : Store)
    (name email password role : jsval) : completion (User.t * Store) :=
  bind (as_opt_string "name" name) (fun n =>
  bind (as_string "email" email) (fun e =>
  bind (as_string "password" password) (fun p =>
  bind (as_Role role) (fun r =>
  match find_user_by_email db e, find_user_by_id db (uuid env) with
  | Some _, _ => Throw "Unique constraint failed on the fields: (email)"
  | None, Some _ => Throw "Unique constraint failed on the fields: (id)"
  | None, None =>
      let u := User.mk (uuid env) n e p r (store_clock env) (store_clock env) in
      Normal (u, mkStore (users db ++ [u]) (journals db))
  end)))).

(** The identifiers of a [connect] or [set] list: each entry names an
    existing user, or the call fails. The relation holds a student once. *)
Fixpoint related_ids (db : Store) (vs : list jsval) : completion (list string) :=
  match vs with
  | [] => Normal []
  | v :: r =>
      bind (as_string "id" v) (fun i =>
      match find_user_by_id db i with
      | None => Throw "Expected records to be connected, found fewer"
      | Some _ =>
          bind (related_ids db r) (fun ids =>
          Normal (if existsb (String.eqb i) ids then ids else i :: ids))
      end)
  end.

(** [prisma.journal.create({ data: { title, content, media, mediaType,
    teacherId, taggedStudents: { connect } } })]. The store gives
    [publish_at] its default, the current instant. *)
Definition journal_create (env : Env) (db : Store)
    (title content media mediaType teacherId : jsval)
    (connect : list jsval) : completion (Journal.t * Store) :=
  bind (as_string "title" title) (fun t =>
  bind (as_string "content" content) (fun c =>
  bind (media_arg media) (fun m =>
  bind (as_MediaType mediaType) (fun mt =>
  bind (as_string "teacherId" teacherId) (fun tid =>
  bind (related_ids db connect) (fun tagged =>
  match find_user_by_id db tid, find_journal db (uuid env) with
  | None, _ => Throw "Foreign key constraint failed on the field: teacherId"
  | Some _, Some _ => Throw "Unique constraint failed on the fields: (id)"
  | Some _, None =>
      let j := Journal.mk (uuid env) t c m mt tid tagged
                 (Some (store_clock env)) (store_clock env) (store_clock env) in
      Normal (j, mkStore (users db) (journals db ++ [j]))
  end)))))).

Definition replace_journal (j' : Journal.t) (js : list Journal.t) : list Journal.t :=
  map (fun j => if String.eqb (Journal.id j) (Journal.id j') then j' else j) js.

(** A column of an update: [undefined] leaves it as it is. *)
Definition upd_string (arg : string) (v : jsval) (old : string) : completion string :=
  match v with
  | JUndefined => Normal old
  | _ => as_string arg v
  end.

Definition upd_MediaType (v : jsval) (old : option MediaType) : completion (option MediaType) :=
  match v with
  | JUndefined => Normal old
  | _ => as_MediaType v
  end.

(** [prisma.journal.update({ where: { id }, data: { title, content,
    media, mediaType, taggedStudents: { set } } })]: fails when no row
    has the identifier. *)
Definition journal_update (env : Env) (db : Store) (id : jsval)
    (title content media mediaType : jsval)
    (set : list jsval) : completion (Journal.t * Store) :=
  bind (as_string "id" id) (fun i =>
  bind (media_arg media) (fun m =>
  match find_journal db i with
  | None => Throw "Record to update not found."
  | Some j =>
      bind (upd_string "title" title (Journal.title j)) (fun t =>
      bind (upd_string "content" content (Journal.content j)) (fun c =>
      bind (upd_MediaType mediaType (Journal.mediaType j)) (fun mt =>
      bind (related_ids db set) (fun tagged =>
      let j' := Journal.mk (Journal.id j) t c m mt (Journal.teacherId j)
                  tagged (Journal.publish_at j) (Journal.created_at j)
                  (store_clock env) in
      Normal (j', mkStore (users db) (replace_journal j' (journals db)))))))
  end)).

(** [prisma.journal.update({ where: { id }, data: { publish_at } })].
    The Journal model of the schema has no field [publish_at]: the client
    refuses the call before it reaches the store, whatever the
    identifier and the instant. *)
Definition journal_update_publish_at (env : Env) (db : Store) (id : jsval)
    (publish_at : Z) : completion (Journal.t * Store) :=
  Throw "Unknown argument `publish_at`.".

(** [prisma.journal.delete({ where: { id } })]: fails when no row has the
    identifier. The tag associations go with the row. *)
Definition journal_delete (db : Store) (id : jsval) : completion (Journal.t * Store) :=
  bind (as_string "id" id) (fun i =>
  match find_journal db i with
  | None => Throw "Record to delete does not exist."
  | Some j =>
      Normal (j, mkStore (users db)
                   (filter (fun x => negb (String.eqb (Journal.id x) i)) (journals db)))
  end).

(** [prisma.journal.findUnique({ where: { id } })] *)
Definition journal_findUnique (db : Store) (id : jsval) : completion (option Journal.t) :=
  bind (as_string "id" id) (fun i => Normal (find_journal db i)).

(** The [where] objects the handlers build. A key whose value is
    [undefined] constrains nothing. A filter on [publish_at], which the
    Journal model of the schema does not declare, is refused. *)
#[warnings="-register-all"]
Inductive where_journal : Type :=
| W_AND (ws : list where_journal)
| W_OR (ws : list where_journal)
| W_teacherId (v : jsval)
| W_taggedStudents_some_id (v : jsval)
| W_publish_at_null
| W_publish_at_lte (d : Z).

Definition id_filter_ok (v : jsval) : bool :=
  match v with
  | JUndefined | JStr _ => true
  | _ => false
  end.

Fixpoint where_valid (w : where_journal) : bool :=
  match w with
  | W_AND ws | W_OR ws => forallb where_valid ws
  | W_teacherId v | W_taggedStudents_some_id v => id_filter_ok v
  | W_publish_at_null | W_publish_at_lte _ => false
  end.

Fixpoint where_matches (w : where_journal) (j : Journal.t) : bool :=
  match w with
  | W_AND ws => forallb (fun w' => where_matches w' j) ws
  | W_OR ws => existsb (fun w' => where_matches w' j) ws
  | W_teacherId v =>
      match v with
      | JStr i => String.eqb (Journal.teacherId j) i
      | _ => true
      end
  | W_taggedStudents_some_id v =>
      match v with
      | JStr i => existsb (String.eqb i) (Journal.taggedStudents j)
      | _ => negb (Nat.eqb (List.length (Journal.taggedStudents j)) 0)
      end
  | W_publish_at_null =>
      match Journal.publish_at j with None => true | Some _ => false end
  | W_publish_at_lte d =>
      match Journal.publish_at j with None => false | Some p => p <=? d end
  end.

(** [orderBy: { created_at: 'desc' }]: newest first; rows of one instant
    keep their table order. *)
Fixpoint insert_desc (j : Journal.t) (l : list Journal.t) : list Journal.t :=
  match l with
  | [] => [j]
  | x :: r =>
      if Journal.created_at x <=? Journal.created_at j then j :: x :: r
      else x :: insert_desc j r
  end.

Definition orderBy_created_at_desc (l : list Journal.t) : list Journal.t :=
  fold_right insert_desc [] l.

(** [prisma.journal.findMany({ where, orderBy })] *)
Definition journal_findMany (db : Store) (w : option where_journal) (desc : bool)
  : completion (list Journal.t) :=
  let ok := match w with Some w => where_valid w | None => true end in
  if ok then
    let rows := match w with
                | Some w => filter (where_matches w) (journals db)
                | None => journals db
                end in
    Normal (if desc then orderBy_created_at_desc rows else rows)
  else Throw "Invalid `prisma.journal.findMany()` invocation".

(** *** Rows as the JSON the responses carry *)

Definition opt_str (o : option string) : jsval :=
  match o with Some s => JStr s | None => JNull end.

Definition date_json (t : Z) : jsval := JStr (JSDate.toISOString t).

Definition user_json (u : User.t) : jsval :=
  JObj [("id", JStr (User.id u));
        ("name", opt_str (User.name u));
        ("email", JStr (User.email u));
        ("password", JStr (User.password u));
        ("role", JStr (Role_name (User.role u)));
        ("created_at", date_json (User.created_at u));
        ("updated_at", date_json (User.updated_at u))].

(** The users a list of identifiers names, in the order of the list. *)
Fixpoint users_of (db : Store) (ids : list string) : list User.t :=
  match ids with
  | [] => []
  | i :: r =>
      match find_user_by_id db i with
      | Some u => u :: users_of db r
      | None => users_of db r
      end
  end.

(** A journal row with [include: { teacher: true, taggedStudents: true }]:
    the fields of the schema, which has no [publish_at]. *)
Definition journal_json (db : Store) (j : Journal.t) : jsval :=
  JObj [("id", JStr (Journal.id j));
        ("title", JStr (Journal.title j));
        ("content", JStr (Journal.content j));
        ("media", JArr (map JStr (Journal.media j)));
        ("mediaType", opt_str (option_map MediaType_name (Journal.mediaType j)));
        ("teacherId", JStr (Journal.teacherId j));
        ("created_at", date_json (Journal.created_at j));
        ("updated_at", date_json (Journal.updated_at j));
        ("teacher", match find_user_by_id db (Journal.teacherId j) with
                    | Some u => user_json u | None => JNull end);
        ("taggedStudents", JArr (map user_json (users_of db (Journal.taggedStudents j))))].

End Prisma.
Export Prisma.

(* ------------------------------------------------------------------ *)
(** ** Requests, responses and the middleware chain *)

Record Request := mkRequest {
  headers_authorization : option string;
  params_id : string;
  body : list (string * jsval);
  user : option (list (string * jsval))
}.

(** [res.status(status).json(json)] *)
Record Response := mkResponse {
  status : Z;
  json : jsval
}.

(** What a middleware does with a request: answer it, pass it on with
    [next()], or fail with [next(err)]. *)
Inductive step : Type :=
| Respond (res : Response)
| Next (req : Request)
| Raise (message : string).

Definition middleware := Request -> step.
Definition handler := Env -> Store -> Request -> Response * Store.

(** The error handling middleware registered last in app.js. *)
Definition error_handler (message : string) : Response :=
  mkResponse 500 (JObj [("success", JBool false);
                        ("message", JStr "Something went wrong!");
                        ("error", JStr message)]).

(** A route: its middlewares in declared order, then its handler. *)
Fixpoint run_route (mws : list middleware) (h : handler)
    (env : Env) (db : Store) (req : Request) : Response * Store :=
  match mws with
  | [] => h env db req
  | m :: rest =>
      match m req with
      | Respond res => (res, db)
      | Next req' => run_route rest h env db req'
      | Raise e => (error_handler e, db)
      end
  end.

(** Assignment to a property of an object. *)
Fixpoint set_field (k : string) (v : jsval) (fields : list (string * jsval))
  : list (string * jsval) :=
  match fields with
  | [] => [(k, v)]
  | (k', v') :: r =>
      if String.eqb k k' then (k, v) :: r else (k', v') :: set_field k v r
  end.

(** The body of a failure response: [{ success: false, message }]. *)
Definition failure (message : string) : jsval :=
  JObj [("success", JBool false); ("message", JStr message)].

(** The [catch] block of a handler: status 500 with the raw message; no
    handler writes to the store before a call that can throw. *)
Definition catch500 (message : string) (db : Store)
    (c : completion (Response * Store)) : Response * Store :=
  match c with
  | Normal r => r
  | Throw e =>
      (mkResponse 500 (JObj [("success", JBool false);
                             ("message", JStr message);
                             ("error", JStr e)]), db)
  end.

(** [const { ... } = req.user]: destructuring [undefined] throws. *)
Definition destructure_user (req : Request) : completion (list (string * jsval)) :=
  match user req with
  | Some u => Normal u
  | None => Throw "Cannot destructure property of req.user as it is undefined."
  end.

(** [xs.map(f)] needs an array. *)
Definition array_items (v : jsval) : completion (list jsval) :=
  match v with
  | JArr xs => Normal xs
  | JUndefined | JNull => Throw "Cannot read properties of undefined (reading 'map')"
  | _ => Throw "map is not a function"
  end.

(** *** middlewares/uploadMiddleware.js *)

(** The file multer leaves on the request as [req.file]. *)
Record File := mkFile {
  originalname : string;
  path : jsval;
  resource_type : jsval
}.

(** A regular expression ending in [suffix$] matches [s]. *)
Fixpoint ends_with (s suffix : string) : bool :=
  (String.eqb s suffix ||
   match s with
   | EmptyString => false
   | String _ r => ends_with r suffix
   end)%bool.

Definition upload_extensions : list string :=
  ["jpg"; "jpeg"; "png"; "gif"; "mp4"; "mov"].

(** [fileFilter]: the name has to match /\.(jpg|jpeg|png|gif|mp4|mov)$/,
    or the upload fails. *)
Definition fileFilter (file : File) : completion bool :=
  if existsb (fun ext => ends_with (originalname file) (String "." ext))
       upload_extensions
  then Normal true
  else Throw "Only image and video files are allowed!".

(** [uploadToCloudinary], with [req.file] as its first argument: the
    location and the kind of an uploaded file are written over the
    [media] and [mediaType] of the body. *)
Definition uploadToCloudinary (file : option File) : middleware := fun req =>
  match file with
  | None => Next req
  | Some f =>
      Next (mkRequest (headers_authorization req) (params_id req)
              (set_field "mediaType" (resource_type f)
                 (set_field "media" (path f) (body req)))
              (user req))
  end.

(** *** Integrity of the store *)

(** What the constraints of the schema say of a store: emails and
    identifiers are unique; the teacher and the tagged students of a
    journal are users; a student is tagged once on a journal. *)
Definition journal_ok (db : Store) (j : Journal.t) : Prop :=
  find_user_by_id db (Journal.teacherId j) <> None /\
  NoDup (Journal.taggedStudents j) /\
  Forall (fun i => find_user_by_id db i <> None) (Journal.taggedStudents j).

Definition store_ok (db : Store) : Prop :=
  NoDup (map User.email (users db)) /\
  NoDup (map User.id (users db)) /\
  NoDup (map Journal.id (journals db)) /\
  Forall (journal_ok db) (journals db).

(** The character occurs in the string. *)
Fixpoint has_char (c : ascii) (s : string) : bool :=
  match s with
  | EmptyString => false
  | String c' r => (Ascii.eqb c' c || has_char c r)%bool
  end.

(* ------------------------------------------------------------------ *)
(** ** A small school, and stand-ins for the libraries, on which the
    handlers are run in the examples *)

Module Sample.

Definition claims (id role : string) : list (string * jsval) :=
  [("userId", JStr id); ("name", JStr "Ann"); ("email", JStr "ann@school.org");
   ("role", JStr role)].

Definition secret : string := "s3cret".

Definition encode (payload : list (string * jsval)) (key : string) : string :=
  match get_field "userId" payload with
  | JStr i => "token-of-" ++ i
  | _ => "token"
  end.

(** An encoding that shows the names of the claims it is given. *)
Definition encode_names (payload : list (string * jsval)) (key : string) : string :=
  String.concat "," (map fst payload).

(** An upper-casing that leaves the strings outside ASCII as they are. *)
Definition upper_other (s : string) : string := s.

Definition verify (token key : string) : option (list (string * jsval)) :=
  if String.eqb token "token-of-t1" then Some (claims "t1" "TEACHER")
  else if String.eqb token "token-of-s1" then Some (claims "s1" "STUDENT")
  else if String.eqb token "token-of-s2" then Some (claims "s2" "student")
  else if String.eqb token "token-of-gone" then Some (claims "gone" "STUDENT")
  else if String.eqb token "token-of-a1" then Some (claims "a1" "STUDENT")
  else None.

Definition hash (data salt : string) : string := salt ++ "$" ++ data.
Definition compare (data encrypted : string) : bool :=
  String.eqb encrypted (hash data "salt0").

Definition parse (s : string) : completion jsval := Throw "Unexpected token".
Definition parse_other (s : string) : option Z := None.
Definition of_object (v : jsval) : option Z := None.

Definition teacher : User.t :=
  User.mk "t1" (Some "Tess") "tess@school.org" "salt0$pw-t" TEACHER 100 100.
Definition student1 : User.t :=
  User.mk "s1" (Some "Sam") "sam@school.org" "salt0$pw-1" STUDENT 200 200.
Definition student2 : User.t :=
  User.mk "s2" None "sue@school.org" "salt0$pw-2" STUDENT 300 300.
Definition admin : User.t :=
  User.mk "a1" (Some "Ada") "ada@school.org" "salt0$pw-a" ADMIN 400 400.

(** Three journals of the teacher: one published, one scheduled for
    later, one with no publish time. *)
Definition published : Journal.t :=
  Journal.mk "j1" "Week 1" "Fractions" [] None "t1" ["s1"] (Some 1000%Z) 1000 1000.
Definition scheduled : Journal.t :=
  Journal.mk "j2" "Week 2" "Decimals" [] (Some IMAGE) "t1" ["s1"; "s2"]
    (Some 5000%Z) 1100 1100.
Definition undated : Journal.t :=
  Journal.mk "j3" "Week 3" "Ratios" [] None "t1" ["s2"; "s1"] None 1200 1200.

Definition db : Store :=
  mkStore [teacher; student1; student2; admin] [published; scheduled; undated].

Definition env : Env := mkEnv 2000 2001 "new-id" "salt0".

Definition request (auth : option string) (id : string) (fields : list (string * jsval))
  : Request :=
  mkRequest auth id fields None.

Definition bearer (token : string) : option string :=
  Some ("Bearer " ++ token)%string.

(** A request as [authenticate] hands it on, with the claims attached. *)
Definition authenticated (token id role : string) (j : string)
    (fields : list (string * jsval)) : Request :=
  mkRequest (bearer token) j fields (Some (claims id role)).

(** An upload middleware that finds no file and passes the request on. *)
Definition no_upload : Request -> step := fun req => Next req.

Definition basic_auth : Request := request (Some "Basic dGVzczpwdw==") "j1" [].
Definition student_deletes : Request := request (bearer "token-of-s1") "j1" [].
Definition student_reads_feed : Request := request (bearer "token-of-s1") EmptyString [].
Definition teacher_deletes_missing : Request := request (bearer "token-of-t1") "j9" [].
Definition teacher_updates_missing : Request :=
  request (bearer "token-of-t1") "j9"
    [("title", JStr "Week 9"); ("content", JStr "Revision");
     ("taggedStudents", JArr [JStr "s1"])].

Definition login_sam : Request :=
  request None EmptyString
    [("email", JStr "sam@school.org"); ("password", JStr "pw-1")].

Definition register_nia (role : jsval) : Request :=
  request None EmptyString
    [("name", JStr "Nia"); ("email", JStr "nia@school.org");
     ("password", JStr "pw-n"); ("role", role)].

Definition publish_scheduled (publish_at : jsval) : Request :=
  request None "j2" [("publish_at", publish_at)].

Definition retag_undated : Request :=
  request None "j3" [("title", JStr "Week 3, again");
                     ("taggedStudents", JArr [JStr "s2"])].

Definition update_without_tags : Request :=
  request None "j3" [("title", JStr "Week 3, again"); ("content", JStr "Ratios")].

Definition create_without_tags : Request :=
  authenticated "token-of-t1" "t1" "TEACHER" EmptyString
    [("title", JStr "Week 4"); ("content", JStr "Percentages")].

(** A token library that also knows a second teacher, whose role claim
    is in lower case. *)
Definition verify_staff (token key : string) : option (list (string * jsval)) :=
  if String.eqb token "token-of-t2" then Some (claims "t2" "teacher")
  else verify token key.

Definition other_teacher_deletes : Request := request (bearer "token-of-t2") "j1" [].

Definition login_sam_wrong_password : Request :=
  request None EmptyString
    [("email", JStr "sam@school.org"); ("password", JStr "pw-2")].

Definition login_tess : Request :=
  request None EmptyString
    [("email", JStr "tess@school.org"); ("password", JStr "pw-t")].

Definition login_nia : Request :=
  request None EmptyString
    [("email", JStr "nia@school.org"); ("password", JStr "pw-n")].

Definition create_week4 (taggedStudents : jsval) : Request :=
  authenticated "token-of-t1" "t1" "TEACHER" EmptyString
    [("title", JStr "Week 4"); ("content", JStr "Percentages");
     ("taggedStudents", taggedStudents)].

(** The JSON text of the list of the one identifier s1, and a parser
    that reads this text and no other. *)
Definition tags_text : string :=
  ("[" ++ String "034" "s1" ++ String "034" "]")%string.

Definition parse_tags (s : string) : completion jsval :=
  if String.eqb s tags_text then Normal (JArr [JStr "s1"])
  else Throw "Unexpected token".

Definition lesson_photo : File :=
  mkFile "lesson.png" (JStr "https://res.cloudinary.com/demo/lesson.png")
    (JStr "image").

End Sample.

(* ------------------------------------------------------------------ *)
(** ** The handlers *)

Section Backend.

(** The signing secret and the token library: the encoding and signature
    of a set of claims under a key, and [jwt.verify(token, secret)],
    which yields the decoded claims or throws ([None]). *)
Variable JWT_SECRET : string.
Variable jwt_encode : list (string * jsval) -> string -> string.
Variable jwt_verify : string -> string -> option (list (string * jsval)).

(** [jwt.sign(payload, secretOrPrivateKey)] with no options, at the
    instant [now]: the library adds the issue time [iat], in seconds,
    unless the payload has one, and encodes and signs the claims. *)
Definition jwt_sign (now : Z) (payload : list (string * jsval))
    (secretOrPrivateKey : string) : string :=
  let timestamp := js_or (get_field "iat" payload) (JNum (now / 1000)) in
  jwt_encode (set_field "iat" timestamp payload) secretOrPrivateKey.

(** [s.toUpperCase()]. On an ASCII string it maps the letters a to z; on
    a string with other characters it is the upper-casing of Unicode,
    [toUpperCase_unicode]. *)
Variable toUpperCase_unicode : string -> string.

Definition toUpperCase (s : string) : string :=
  if is_ascii s then toUpperCase_ascii s else toUpperCase_unicode s.

(** [v?.toUpperCase()]: [undefined] for a nullish [v], the upper-cased
    string for a string, a TypeError for any other value (it has no such
    method). *)
Definition opt_toUpperCase (v : jsval) : completion jsval :=
  match v with
  | JUndefined | JNull => Normal JUndefined
  | JStr s => Normal (JStr (toUpperCase s))
  | _ => Throw "toUpperCase is not a function"
  end.

(** [bcrypt.hash(data, salt)] and [bcrypt.compare(data, encrypted)]. *)
Variable bcrypt_hash : string -> string -> string.
Variable bcrypt_compare : string -> string -> bool.

Variable JSON_parse : string -> completion jsval.

(** [Date.parse] outside the full date-time form, and the time value of
    [new Date(o)] for an array or object [o]. Both are implementation
    defined; [None] is NaN. *)
Variable Date_parse_other : string -> option Z.
Variable Date_of_object : jsval -> option Z.

(** *** Dates *)

Definition Date_parse (s : string) : option Z :=
  match JSDate.parse_full s with
  | Some t => Some t
  | None => Date_parse_other s
  end.

(** [new Date(v)]: the time value, or [None] for an invalid Date. *)
Definition new_Date (v : jsval) : option Z :=
  match v with
  | JUndefined => None
  | JNull => Some 0%Z
  | JBool b => Some (if b then 1 else 0)%Z
  | JNum n => JSDate.TimeClip n
  | JStr s => match Date_parse s with
              | Some t => JSDate.TimeClip t
              | None => None
              end
  | JArr _ | JObj _ => match Date_of_object v with
                       | Some t => JSDate.TimeClip t
                       | None => None
                       end
  end.

(** [date instanceof Date && !isNaN(date) && dateString === date.toISOString()] *)
Definition isValidISODate (dateString : jsval) : bool :=
  match new_Date dateString with
  | None => false
  | Some t => strict_eq dateString (JStr (JSDate.toISOString t))
  end.

(** *** middlewares/auth.middleware.js *)

Definition authenticate : middleware := fun req =>
  let unauthorized :=
    Respond (mkResponse 401 (JObj [("success", JBool false); ("message", JStr "Unauthorized - No token provided")])) in
  match headers_authorization req with
  | None => unauthorized
  | Some authHeader =>
      if (String.eqb authHeader EmptyString || negb (startsWith authHeader "Bearer "))%bool
      then unauthorized
      else
        let invalid := Respond (mkResponse 401 (JObj [("success", JBool false); ("message", JStr "Invalid Token")])) in
        match nth_error (split_on authHeader " ") 1 with
        | None => invalid
        | Some token =>
            match jwt_verify token JWT_SECRET with
            | None => invalid
            | Some decoded =>
                match opt_toUpperCase (get_field "role" decoded) with
                | Throw _ => invalid
                | Normal r =>
                    Next (mkRequest (headers_authorization req) (params_id req)
                            (body req) (Some (set_field "role" r decoded)))
                end
            end
        end
  end.

Definition restrictTo (allowedRoles : list string) : middleware := fun req =>
  match user req with
  | None => Respond (mkResponse 401 (JObj [("success", JBool false); ("message", JStr "User not authenticated")]))
  | Some u =>
      match opt_toUpperCase (get_field "role" u) with
      | Throw e => Raise e
      | Normal userRole =>
          let allowedRolesUpper := map toUpperCase allowedRoles in
          if negb (includes allowedRolesUpper userRole) then
            Respond (mkResponse 403
              (JObj [("success", JBool false);
                     ("message", JStr ("You do not have permission to perform this action. Required role: "
                                       ++ join allowedRoles " or "));
                     ("userRole", userRole)]))
          else Next req
      end
  end.

(** *** controllers/user.js *)

Definition bcrypt_hash_js (data : jsval) (salt : string) : completion string :=
  match data with
  | JStr p => Normal (bcrypt_hash p salt)
  | _ => Throw "data and salt arguments required"
  end.

Definition bcrypt_compare_js (data : jsval) (encrypted : string) : completion bool :=
  match data with
  | JStr p => Normal (bcrypt_compare p encrypted)
  | _ => Throw "data and hash arguments required"
  end.

(** The projection of a user the responses carry. *)
Definition sanitized (u : User.t) : jsval :=
  JObj [("id", JStr (User.id u));
        ("name", opt_str (User.name u));
        ("email", JStr (User.email u));
        ("role", JStr (Role_name (User.role u)))].

Definition registerUser : handler := fun env db req =>
  catch500 "User registration failed" db (
    let name := get_field "name" (body req) in
    let email := get_field "email" (body req) in
    let password := get_field "password" (body req) in
    let role := get_field "role" (body req) in
    bind (user_findUnique_email db email) (fun userExists =>
    match userExists with
    | Some _ => Normal (mkResponse 400 (JObj [("success", JBool false); ("message", JStr "User already exists")]), db)
    | None =>
        bind (bcrypt_hash_js password (salt env)) (fun hashedPassword =>
        bind (opt_toUpperCase role) (fun upper =>
        bind (user_create env db name email (JStr hashedPassword)
                (js_or upper (JStr "STUDENT"))) (fun '(u, db') =>
        Normal (mkResponse 201
                  (JObj [("success", JBool true);
                         ("message", JStr "User registered successfully");
                         ("user", sanitized u)]), db'))))
    end)).

(** The object handed to [jwt.sign] at login. *)
Definition token_payload (u : User.t) : list (string * jsval) :=
  [("userId", JStr (User.id u));
   ("name", opt_str (User.name u));
   ("email", JStr (User.email u));
   ("role", JStr (Role_name (User.role u)))].

Definition loginUser : handler := fun env db req =>
  catch500 "User login failed" db (
    let email := get_field "email" (body req) in
    let password := get_field "password" (body req) in
    bind (user_findUnique_email db email) (fun found =>
    match found with
    | None => Normal (mkResponse 400 (JObj [("success", JBool false); ("message", JStr "User not found")]), db)
    | Some u =>
        bind (bcrypt_compare_js password (User.password u)) (fun isPasswordValid =>
        if negb isPasswordValid
        then Normal (mkResponse 400 (JObj [("success", JBool false); ("message", JStr "Invalid password")]), db)
        else
          let token := jwt_sign (clock env) (token_payload u) JWT_SECRET in
          Normal (mkResponse 200
                    (JObj [("success", JBool true);
                           ("message", JStr "User logged in successfully");
                           ("user", sanitized u);
                           ("token", JStr token)]), db))
    end)).

(** *** controllers/journal.js *)

Definition createJournal : handler := fun env db req =>
  catch500 "Journal creation failed" db (
    bind (destructure_user req) (fun u =>
    let userId := get_field "userId" u in
    let title := get_field "title" (body req) in
    let content := get_field "content" (body req) in
    let media := get_field "media" (body req) in
    let mediaType := get_field "mediaType" (body req) in
    let taggedStudents := get_field "taggedStudents" (body req) in
    bind (match taggedStudents with
          | JStr s => JSON_parse s
          | _ => Normal taggedStudents
          end) (fun parsedTaggedStudents =>
    bind (opt_toUpperCase mediaType) (fun mt =>
    bind (array_items parsedTaggedStudents) (fun connect =>
    bind (journal_create env db title content (js_or media (JArr [])) mt userId connect)
      (fun '(j, db') =>
    Normal (mkResponse 201 (JObj [("success", JBool true);
              ("message", JStr "Journal created successfully");
              ("journal", journal_json db' j)]), db'))))))).

Definition getAllJournals : handler := fun env db req =>
  catch500 "Failed to fetch journals" db (
    bind (journal_findMany db None false) (fun journals =>
    Normal (mkResponse 200 (JObj [("success", JBool true);
              ("message", JStr "Journals fetched successfully");
              ("journals", JArr (map (journal_json db) journals))]), db))).

Definition getJournalById : handler := fun env db req =>
  catch500 "Failed to fetch journal" db (
    bind (journal_findUnique db (JStr (params_id req))) (fun found =>
    match found with
    | None => Normal (mkResponse 404 (JObj [("success", JBool false); ("message", JStr "Journal not found")]), db)
    | Some j => Normal (mkResponse 200 (JObj [("success", JBool true);
              ("message", JStr "Journal fetched successfully");
              ("journal", journal_json db j)]), db)
    end)).

Definition updateJournal : handler := fun env db req =>
  catch500 "Failed to update journal" db (
    let id := JStr (params_id req) in
    let title := get_field "title" (body req) in
    let content := get_field "content" (body req) in
    let media := get_field "media" (body req) in
    let mediaType := get_field "mediaType" (body req) in
    let taggedStudents := get_field "taggedStudents" (body req) in
    bind (opt_toUpperCase mediaType) (fun mt =>
    bind (array_items taggedStudents) (fun set =>
    bind (journal_update env db id title content (js_or media (JArr [])) mt set)
      (fun '(j, db') =>
    Normal (mkResponse 200 (JObj [("success", JBool true);
              ("message", JStr "Journal updated successfully");
              ("journal", journal_json db' j)]), db'))))).

Definition publishJournal : handler := fun env db req =>
  catch500 "Failed to publish journal" db (
    let id := JStr (params_id req) in
    let publish_at := get_field "publish_at" (body req) in
    if (truthy publish_at && negb (isValidISODate publish_at))%bool then
      Normal (mkResponse 400
                (JObj [("success", JBool false); ("message", JStr "Invalid publish_at date format. Must be ISO 8601")]), db)
    else
      bind (if truthy publish_at
            then match new_Date publish_at with
                 | Some t => Normal t
                 | None => Throw "Invalid value for argument publish_at: invalid Date"
                 end
            else Normal (clock env)) (fun date =>
      bind (journal_update_publish_at env db id date) (fun '(j, db') =>
      Normal (mkResponse 200 (JObj [("success", JBool true);
              ("message", JStr "Journal published successfully");
              ("journal", journal_json db' j)]), db')))).

Definition deleteJournal : handler := fun env db req =>
  catch500 "Failed to delete journal" db (
    bind (journal_delete db (JStr (params_id req))) (fun '(_, db') =>
    Normal (mkResponse 200 (JObj [("success", JBool true);
                                  ("message", JStr "Journal deleted successfully")]),
            db'))).

Definition getTeacherFeed : handler := fun env db req =>
  catch500 "Failed to get teacher feed" db (
    bind (destructure_user req) (fun u =>
    let userId := get_field "userId" u in
    bind (journal_findMany db (Some (W_teacherId userId)) false) (fun journals =>
    Normal (mkResponse 200 (JObj [("success", JBool true);
              ("message", JStr "Teacher feed fetched successfully");
              ("journals", JArr (map (journal_json db) journals))]), db)))).

(** The [where] object of the student feed. *)
Definition student_feed_where (userId : jsval) (now : Z) : where_journal :=
  W_AND [W_taggedStudents_some_id userId;
         W_OR [W_publish_at_null; W_publish_at_lte now]].

Definition getStudentFeed : handler := fun env db req =>
  catch500 "Failed to get student feed" db (
    bind (destructure_user req) (fun u =>
    let userId := get_field "userId" u in
    bind (journal_findMany db (Some (student_feed_where userId (clock env))) false)
      (fun journals =>
    Normal (mkResponse 200 (JObj [("success", JBool true);
              ("message", JStr "Student feed fetched successfully");
              ("journals", JArr (map (journal_json db) journals))]), db)))).

(** *** routes/user.js: the handler of GET /feed *)

Definition feed : handler := fun env db req =>
  catch500 "Failed to get feed" db (
    bind (destructure_user req) (fun u =>
    let userId := get_field "userId" u in
    bind (user_findUnique_id db userId) (fun found =>
    match found with
    | None => Normal (mkResponse 404 (JObj [("success", JBool false); ("message", JStr "User not found")]), db)
    | Some usr =>
        match User.role usr with
        | TEACHER =>
            bind (journal_findMany db (Some (W_teacherId userId)) true) (fun journals =>
            Normal (mkResponse 200 (JObj [("success", JBool true);
              ("message", JStr "Teacher feed fetched successfully");
              ("journals", JArr (map (journal_json db) journals))]), db))
        | STUDENT =>
            bind (journal_findMany db
                    (Some (student_feed_where userId (clock env))) true) (fun journals =>
            Normal (mkResponse 200 (JObj [("success", JBool true);
              ("message", JStr "Student feed fetched successfully");
              ("journals", JArr (map (journal_json db) journals))]), db))
        | other =>
            Normal (mkResponse 400
                      (JObj [("success", JBool false);
                             ("message", JStr "Invalid user role. Must be either 'teacher' or 'student'");
                             ("userRole", JStr (Role_name other))]), db)
        end
    end))).

(** *** The route tables of routes/user.js and routes/journal.js.
    The two upload middlewares of the multipart routes belong to the
    media adapter and are arguments here. *)

Definition route_user_feed := run_route [authenticate] feed.
Definition route_user_teacher := run_route [authenticate; restrictTo ["teacher"]] getTeacherFeed.
Definition route_user_student := run_route [authenticate; restrictTo ["student"]] getStudentFeed.
Definition route_journal_create (uploadMiddleware uploadToCloudinary : middleware) :=
  run_route [authenticate; restrictTo ["teacher"]; uploadMiddleware; uploadToCloudinary]
    createJournal.
Definition route_journal_list := run_route [authenticate] getAllJournals.
Definition route_journal_get := run_route [authenticate] getJournalById.
Definition route_journal_put (uploadMiddleware uploadToCloudinary : middleware) :=
  run_route [authenticate; restrictTo ["teacher"]; uploadMiddleware; uploadToCloudinary]
    updateJournal.
Definition route_journal_delete := run_route [authenticate; restrictTo ["teacher"]] deleteJournal.
Definition route_journal_publish := run_route [authenticate; restrictTo ["teacher"]] publishJournal.


(** *** Vocabulary of the specification *)

(** The request carries no header of the form [Bearer <token>]. *)
Definition no_bearer (req : Request) : Prop :=
  match headers_authorization req with
  | None => True
  | Some auth => startsWith auth "Bearer " = false
  end.

(** The token a request presents: what follows [Bearer] up to the next
    space. *)
Definition presented_token (req : Request) : option string :=
  match headers_authorization req with
  | Some auth => nth_error (split_on auth " ") 1
  | None => None
  end.

(** The header is absent or malformed, or the token does not verify. *)
Definition rejected (req : Request) : Prop :=
  no_bearer req \/
  (forall token, presented_token req = Some token -> jwt_verify token JWT_SECRET = None).

(** Membership of a role in a set of permitted roles, ignoring case. *)
Definition role_permitted (allowedRoles : list string) (role : jsval) : bool :=
  match role with
  | JStr r => existsb (fun a => String.eqb (toUpperCase a) (toUpperCase r)) allowedRoles
  | _ => false
  end.

(** The body of the 403 answer of the role guard. *)
Definition forbidden (allowedRoles : list string) (userRole : jsval) : Response :=
  mkResponse 403
    (JObj [("success", JBool false);
           ("message", JStr ("You do not have permission to perform this action. Required role: "
                             ++ join allowedRoles " or "));
           ("userRole", userRole)]).

(** Every route declared behind [authenticate]. *)
Definition protected_routes (uploadMiddleware uploadToCloudinary : middleware)
  : list (Env -> Store -> Request -> Response * Store) :=
  [route_user_feed; route_user_teacher; route_user_student;
   route_journal_create uploadMiddleware uploadToCloudinary;
   route_journal_list; route_journal_get;
   route_journal_put uploadMiddleware uploadToCloudinary;
   route_journal_delete; route_journal_publish].

(** The answer that carries the journal [j] as the store [db] renders it. *)
Definition journal_response (code : Z) (message : string) (db : Store) (j : Journal.t)
  : Response :=
  mkResponse code (JObj [("success", JBool true);
                         ("message", JStr message);
                         ("journal", journal_json db j)]).

(** The answer that lists the journals [js], in this order. *)
Definition journals_response (message : string) (db : Store) (js : list Journal.t)
  : Response :=
  mkResponse 200 (JObj [("success", JBool true);
                        ("message", JStr message);
                        ("journals", JArr (map (journal_json db) js))]).

(** The identifiers of the journals an answer lists, in its order. *)
Definition listed_ids (res : Response) : list jsval :=
  match field "journals" (json res) with
  | JArr items => map (field "id") items
  | _ => []
  end.

(** The student is among the tagged students of the journal. *)
Definition tagged (uid : string) (j : Journal.t) : Prop :=
  In uid (Journal.taggedStudents j).

(** The publish time of the journal is null or not after [now]. *)
Definition published_by (now : Z) (j : Journal.t) : Prop :=
  Journal.publish_at j = None \/
  exists p, Journal.publish_at j = Some p /\ (p <= now)%Z.

(** The journals the student feed is to show to the student [uid]. *)
Definition in_student_feed (uid : string) (now : Z) (j : Journal.t) : Prop :=
  tagged uid j /\ published_by now j.

Definition owned_by (uid : string) (j : Journal.t) : bool :=
  String.eqb (Journal.teacherId j) uid.

(** A list of journals is ordered newest first. *)
Inductive newest_first : list Journal.t -> Prop :=
| nf_nil : newest_first []
| nf_cons j l :
    Forall (fun x => (Journal.created_at x <= Journal.created_at j)%Z) l ->
    newest_first l -> newest_first (j :: l).

(** The answer of a successful login of the stored user [u] at the
    instant of [env]: the projection of the user, and the token of the
    four claims and the issue time. *)
Definition login_success (env : Env) (u : User.t) : Response :=
  let name := match User.name u with Some n => JStr n | None => JNull end in
  mkResponse 200
    (JObj [("success", JBool true);
           ("message", JStr "User logged in successfully");
           ("user", JObj [("id", JStr (User.id u));
                          ("name", name);
                          ("email", JStr (User.email u));
                          ("role", JStr (Role_name (User.role u)))]);
           ("token", JStr (jwt_encode
                             [("userId", JStr (User.id u));
                              ("name", name);
                              ("email", JStr (User.email u));
                              ("role", JStr (Role_name (User.role u)));
                              ("iat", JNum (clock env / 1000))]
                             JWT_SECRET))]).

(** The role a registration asks for: the upper-cased input when it names
    a role of the store, STUDENT when the input is absent or its upper
    case is empty. *)
Definition role_input (role : jsval) : option Role :=
  match role with
  | JUndefined | JNull => Some STUDENT
  | JStr s => if String.eqb (toUpperCase s) EmptyString then Some STUDENT
              else Role_of_string (toUpperCase s)
  | _ => None
  end.

(** The answer of a successful registration of the user [u]. *)
Definition register_success (u : User.t) : Response :=
  mkResponse 201
    (JObj [("success", JBool true);
           ("message", JStr "User registered successfully");
           ("user", JObj [("id", JStr (User.id u));
                          ("name", match User.name u with
                                   | Some n => JStr n
                                   | None => JNull
                                   end);
                          ("email", JStr (User.email u));
                          ("role", JStr (Role_name (User.role u)))])]).

(** The answer of a publish call whose [publish_at] fails the format
    check. *)
Definition publish_bad_request : Response :=
  mkResponse 400 (failure "Invalid publish_at date format. Must be ISO 8601").

(** The value is a string equal to the serialization of its own parse. *)
Definition round_trips (v : jsval) : Prop :=
  exists s t, v = JStr s /\ new_Date (JStr s) = Some t /\ JSDate.toISOString t = s.

(** The request with an empty body: [publish_at] omitted. *)
Definition without_body (req : Request) : Request :=
  mkRequest (headers_authorization req) (params_id req) [] (user req).

(** *** The handlers, by what they do to the store *)

Definition all_handlers : list handler :=
  [registerUser; loginUser; createJournal; getAllJournals; getJournalById;
   updateJournal; publishJournal; deleteJournal; getTeacherFeed;
   getStudentFeed; feed].

(** The handlers that make no write call. *)
Definition reading_handlers : list handler :=
  [loginUser; getAllJournals; getJournalById; getTeacherFeed; getStudentFeed; feed].

(** The request with another Authorization header. *)
Definition with_authorization (auth : string) (req : Request) : Request :=
  mkRequest (Some auth) (params_id req) (body req) (user req).

(** The request as [authenticate] hands it on with the claims [u]. *)
Definition with_user (u : list (string * jsval)) (req : Request) : Request :=
  mkRequest (headers_authorization req) (params_id req) (body req) (Some u).

(** Upper-casing is stable: an upper-cased string is its own upper case.
    It holds of the ASCII letters; for the other characters it is a
    property of the case mapping of Unicode. *)
Definition toUpperCase_stable : Prop :=
  forall s, toUpperCase (toUpperCase s) = toUpperCase s.

(** The role of the claims, as [authenticate] normalizes it. *)
Definition normalized_role (decoded : list (string * jsval)) : option jsval :=
  match get_field "role" decoded with
  | JStr r => Some (JStr (toUpperCase r))
  | JUndefined | JNull => Some JUndefined
  | _ => None
  end.

(* ------------------------------------------------------------------ *)
(** ** Properties *)

(** *** Objects and strings *)

Lemma get_field_set_field_same k v fields :
  get_field k (set_field k v fields) = v.
Proof.
  induction fields as [|[k' v'] r IH]; simpl.
  - now rewrite String.eqb_refl.
  - destruct (String.eqb k k') eqn:E; simpl.
    + now rewrite String.eqb_refl.
    + now rewrite E.
Qed.

Lemma get_field_set_field_other k k' v fields :
  k <> k' -> get_field k (set_field k' v fields) = get_field k fields.
Proof.
  intros Hk. induction fields as [|[k0 v0] r IH]; simpl.
  - apply String.eqb_neq in Hk. now rewrite Hk.
  - destruct (String.eqb k' k0) eqn:E; simpl.
    + apply String.eqb_eq in E. subst k0.
      apply String.eqb_neq in Hk. now rewrite Hk.
    + destruct (String.eqb k k0); auto.
Qed.

Lemma upper_char_idem c : upper_char (upper_char c) = upper_char c.
Proof.
  destruct c as [[] [] [] [] [] [] [] []]; reflexivity.
Qed.

Lemma toUpperCase_ascii_idem s :
  toUpperCase_ascii (toUpperCase_ascii s) = toUpperCase_ascii s.
Proof.
  induction s as [|c r IH]; simpl; [reflexivity|].
  now rewrite upper_char_idem, IH.
Qed.

Lemma upper_char_ascii c :
  Nat.ltb (nat_of_ascii (upper_char c)) 128 = Nat.ltb (nat_of_ascii c) 128.
Proof. destruct c as [[] [] [] [] [] [] [] []]; reflexivity. Qed.

Lemma is_ascii_toUpperCase_ascii s : is_ascii (toUpperCase_ascii s) = is_ascii s.
Proof.
  induction s as [|c r IH]; [reflexivity|].
  cbn [toUpperCase_ascii is_ascii]. now rewrite upper_char_ascii, IH.
Qed.

(** On ASCII strings upper-casing is stable. *)
Lemma toUpperCase_ascii_stable s :
  is_ascii s = true -> toUpperCase (toUpperCase s) = toUpperCase s.
Proof.
  intros E. unfold toUpperCase. rewrite E, is_ascii_toUpperCase_ascii, E.
  apply toUpperCase_ascii_idem.
Qed.

Lemma Role_name_upper r : toUpperCase (Role_name r) = Role_name r.
Proof. destruct r; reflexivity. Qed.

Lemma Role_of_string_name r : Role_of_string (Role_name r) = Some r.
Proof. destruct r; reflexivity. Qed.

Lemma Role_of_string_inv s r : Role_of_string s = Some r -> s = Role_name r.
Proof.
  unfold Role_of_string.
  destruct (String.eqb s "STUDENT") eqn:E1;
    [apply String.eqb_eq in E1; intros [= <-]; exact E1|].
  destruct (String.eqb s "TEACHER") eqn:E2;
    [apply String.eqb_eq in E2; intros [= <-]; exact E2|].
  destruct (String.eqb s "ADMIN") eqn:E3;
    [apply String.eqb_eq in E3; intros [= <-]; exact E3|].
  discriminate.
Qed.

(** [includes] on upper-cased roles is membership ignoring case. *)
Lemma includes_upper allowedRoles r :
  includes (map toUpperCase allowedRoles) (JStr (toUpperCase r))
  = role_permitted allowedRoles (JStr r).
Proof.
  induction allowedRoles as [|a l IH]; [reflexivity|].
  unfold includes in *. cbn [map existsb strict_eq role_permitted] in *.
  now rewrite IH.
Qed.

Lemma includes_undefined xs : includes xs JUndefined = false.
Proof. induction xs; simpl; auto. Qed.

(** *** The access control middleware *)

(** What [authenticate] leaves on a request it lets through: the decoded
    claims, their role upper-cased or undefined. *)
Lemma authenticate_next req req' :
  authenticate req = Next req' ->
  exists token decoded r,
    presented_token req = Some token /\
    jwt_verify token JWT_SECRET = Some decoded /\
    opt_toUpperCase (get_field "role" decoded) = Normal r /\
    req' = mkRequest (headers_authorization req) (params_id req) (body req)
             (Some (set_field "role" r decoded)).
Proof.
  unfold authenticate, presented_token.
  destruct (headers_authorization req) as [auth|]; [|discriminate].
  destruct (String.eqb auth EmptyString || negb (startsWith auth "Bearer "))%bool;
    [discriminate|].
  destruct (nth_error (split_on auth " ") 1) as [token|]; [|discriminate].
  destruct (jwt_verify token JWT_SECRET) as [decoded|] eqn:V; [|discriminate].
  destruct (opt_toUpperCase (get_field "role" decoded)) as [r|] eqn:U; [|discriminate].
  intros [= <-]. exists token, decoded, r. auto.
Qed.

(** C3. A request whose Authorization header is absent or does not start
    with "Bearer ", or whose token does not verify, is answered 401 by
    [authenticate]; whatever middlewares and handler follow it on the
    route are not run: the answer is the one of [authenticate] and the
    store is untouched. This holds on every protected route. *)
Theorem authenticate_rejects_before_handlers :
  forall req, rejected req ->
  exists message,
    (no_bearer req -> message = "Unauthorized - No token provided") /\
    (~ no_bearer req -> message = "Invalid Token") /\
    authenticate req = Respond (mkResponse 401 (failure message)) /\
    (forall rest h env db,
       run_route (authenticate :: rest) h env db req
       = (mkResponse 401 (failure message), db)) /\
    (forall uploadMiddleware uploadToCloudinary route env db,
       In route (protected_routes uploadMiddleware uploadToCloudinary) ->
       route env db req = (mkResponse 401 (failure message), db)).
Proof.
  intros req Hrej.
  assert (Hmsg : exists message,
    (no_bearer req -> message = "Unauthorized - No token provided") /\
    (~ no_bearer req -> message = "Invalid Token") /\
    authenticate req = Respond (mkResponse 401 (failure message))).
  { revert Hrej. unfold rejected, no_bearer, presented_token, authenticate.
    destruct (headers_authorization req) as [auth|].
    - destruct (startsWith auth "Bearer ") eqn:S.
      + intros [H|H]; [discriminate|].
        assert (E : String.eqb auth EmptyString = false).
        { destruct auth; [discriminate S|reflexivity]. }
        rewrite E. cbn [orb negb].
        exists "Invalid Token". split; [discriminate|]. split; [reflexivity|].
        destruct (nth_error (split_on auth " ") 1) as [token|]; [|reflexivity].
        now rewrite (H token eq_refl).
      + intros _. rewrite Bool.orb_true_r.
        exists "Unauthorized - No token provided".
        split; [reflexivity|]. split; [intros C; now elim C|reflexivity].
    - intros _. exists "Unauthorized - No token provided".
      split; [reflexivity|]. split; [intros C; now elim C|reflexivity]. }
  destruct Hmsg as (message & H1 & H2 & H3).
  exists message. repeat split; auto.
  - intros rest h env db. cbn [run_route]. now rewrite H3.
  - intros um uc route env db Hin.
    unfold protected_routes in Hin. simpl in Hin.
    repeat (destruct Hin as [<-|Hin];
            [unfold route_user_feed, route_user_teacher, route_user_student,
               route_journal_create, route_journal_list, route_journal_get,
               route_journal_put, route_journal_delete, route_journal_publish;
             simpl; now rewrite H3|]).
    contradiction.
Qed.

(** The role [restrictTo] reads on a request that passed [authenticate]
    is a string in upper case, or undefined. *)
Lemma authenticated_role req0 req :
  authenticate req0 = Next req ->
  exists u, user req = Some u /\
    (get_field "role" u = JUndefined \/
     exists r, get_field "role" u = JStr (toUpperCase r)).
Proof.
  intros H. apply authenticate_next in H.
  destruct H as (token & decoded & r & _ & _ & Hr & ->). simpl.
  exists (set_field "role" r decoded). split; [reflexivity|].
  rewrite get_field_set_field_same.
  destruct (get_field "role" decoded); cbn [opt_toUpperCase] in Hr;
    inversion Hr; eauto.
Qed.

Lemma restrictTo_string allowedRoles req u r :
  user req = Some u -> get_field "role" u = JStr r ->
  restrictTo allowedRoles req =
    if role_permitted allowedRoles (JStr r) then Next req
    else Respond (forbidden allowedRoles (JStr (toUpperCase r))).
Proof.
  intros Hu Hr. unfold restrictTo. rewrite Hu, Hr. cbn [opt_toUpperCase]. cbv iota.
  rewrite includes_upper.
  destruct (role_permitted allowedRoles (JStr r)); reflexivity.
Qed.

Lemma restrictTo_undefined allowedRoles req u :
  user req = Some u -> get_field "role" u = JUndefined ->
  restrictTo allowedRoles req = Respond (forbidden allowedRoles JUndefined).
Proof.
  intros Hu Hr. unfold restrictTo. rewrite Hu, Hr. cbn [opt_toUpperCase]. cbv iota.
  now rewrite includes_undefined.
Qed.

(** C4. The role guard answers 401 when no identity is attached. On a
    request that passed [authenticate] it compares the role ignoring
    case: a role outside the permitted set is answered 403 with a message
    naming the required roles and the role as the guard read it, a
    permitted role is passed on. A token of role STUDENT on a route
    restricted to "teacher" is answered 403, whatever follows the guard
    on the route. *)
Theorem restrictTo_guard :
  forall allowedRoles,
    (forall req, user req = None ->
       restrictTo allowedRoles req
       = Respond (mkResponse 401 (failure "User not authenticated"))) /\
    (forall req0 req, authenticate req0 = Next req ->
       exists u, user req = Some u /\
         (role_permitted allowedRoles (get_field "role" u) = false ->
          exists userRole,
            opt_toUpperCase (get_field "role" u) = Normal userRole /\
            restrictTo allowedRoles req
            = Respond (forbidden allowedRoles userRole) /\
            status (forbidden allowedRoles userRole) = 403%Z /\
            field "message" (json (forbidden allowedRoles userRole))
            = JStr ("You do not have permission to perform this action. Required role: "
                    ++ join allowedRoles " or ")) /\
         (role_permitted allowedRoles (get_field "role" u) = true ->
          restrictTo allowedRoles req = Next req)) /\
    (forall req0 req u, authenticate req0 = Next req ->
       user req = Some u -> get_field "role" u = JStr "STUDENT" ->
       forall rest h env db,
         run_route (authenticate :: restrictTo ["teacher"] :: rest) h env db req0
         = (mkResponse 403
              (JObj [("success", JBool false);
                     ("message", JStr "You do not have permission to perform this action. Required role: teacher");
                     ("userRole", JStr "STUDENT")]), db)).
Proof.
  intros allowedRoles. split; [|split].
  - intros req Hu. unfold restrictTo. now rewrite Hu.
  - intros req0 req Hauth.
    destruct (authenticated_role _ _ Hauth) as (u & Hu & Hrole).
    exists u. split; [exact Hu|]. split.
    + intros Hnot. destruct Hrole as [Hr|[r Hr]].
      * exists JUndefined. rewrite Hr. split; [reflexivity|].
        split; [now apply restrictTo_undefined with (u := u)|].
        split; reflexivity.
      * exists (JStr (toUpperCase (toUpperCase r))). rewrite Hr.
        split; [reflexivity|].
        rewrite (restrictTo_string allowedRoles req u _ Hu Hr).
        rewrite Hr in Hnot. rewrite Hnot. split; [reflexivity|].
        split; reflexivity.
    + intros Hin. destruct Hrole as [Hr|[r Hr]].
      * rewrite Hr in Hin. discriminate.
      * rewrite (restrictTo_string allowedRoles req u _ Hu Hr).
        rewrite Hr in Hin. now rewrite Hin.
  - intros req0 req u Hauth Hu Hr rest h env db.
    cbn [run_route]. rewrite Hauth.
    now rewrite (restrictTo_string ["teacher"] req u _ Hu Hr).
Qed.

(** *** Feeds *)

Lemma existsb_eqb_In (x : string) (l : list string) :
  existsb (String.eqb x) l = true <-> In x l.
Proof.
  rewrite existsb_exists. split.
  - intros (y & Hy & E). apply String.eqb_eq in E. now subst.
  - intros H. exists x. split; [exact H|apply String.eqb_refl].
Qed.

(** The query of the student feed names [publish_at]: the client refuses
    it, for every caller and every instant. *)
Lemma findMany_student_feed_refused db userId now desc :
  journal_findMany db (Some (student_feed_where userId now)) desc
  = Throw "Invalid `prisma.journal.findMany()` invocation".
Proof.
  unfold journal_findMany, student_feed_where. cbn [where_valid forallb].
  now rewrite !Bool.andb_false_r.
Qed.

(** So the handler of the student feed answers 500 on every request and
    lists nothing. *)
Lemma getStudentFeed_fails env db req :
  status (fst (getStudentFeed env db req)) = 500%Z /\
  field "message" (json (fst (getStudentFeed env db req)))
  = JStr "Failed to get student feed" /\
  field "journals" (json (fst (getStudentFeed env db req))) = JUndefined /\
  snd (getStudentFeed env db req) = db.
Proof.
  unfold getStudentFeed, destructure_user.
  destruct (user req) as [u|]; [|repeat split].
  cbn [bind]. rewrite findMany_student_feed_refused. repeat split.
Qed.

Lemma findMany_teacher_feed db uid desc :
  journal_findMany db (Some (W_teacherId (JStr uid))) desc
  = Normal (let rows := filter (owned_by uid) (journals db) in
            if desc then orderBy_created_at_desc rows else rows).
Proof. reflexivity. Qed.

Lemma insert_desc_perm j l : Permutation (insert_desc j l) (j :: l).
Proof.
  induction l as [|x r IH]; simpl; [apply Permutation_refl|].
  destruct (Journal.created_at x <=? Journal.created_at j)%Z.
  - apply Permutation_refl.
  - eapply Permutation_trans; [apply perm_skip, IH|apply perm_swap].
Qed.

Lemma orderBy_perm l : Permutation (orderBy_created_at_desc l) l.
Proof.
  induction l as [|x r IH]; simpl; [apply perm_nil|].
  eapply Permutation_trans; [apply insert_desc_perm|now apply perm_skip].
Qed.

Lemma insert_desc_sorted j l :
  newest_first l -> newest_first (insert_desc j l).
Proof.
  induction 1 as [|x r Hall Hs IH]; simpl.
  - repeat constructor.
  - destruct (Journal.created_at x <=? Journal.created_at j)%Z eqn:E.
    + apply Z.leb_le in E. constructor; [|now constructor].
      constructor; [exact E|].
      eapply Forall_impl; [|exact Hall]. simpl. intros; lia.
    + apply Z.leb_gt in E. constructor; [|exact IH].
      eapply Permutation_Forall; [apply Permutation_sym, insert_desc_perm|].
      constructor; [lia|exact Hall].
Qed.

Lemma orderBy_sorted l : newest_first (orderBy_created_at_desc l).
Proof.
  induction l; simpl; [constructor|now apply insert_desc_sorted].
Qed.

(** The handler of GET /feed, case by case on the stored user. *)
Lemma feed_cases env db req u uid :
  user req = Some u -> get_field "userId" u = JStr uid ->
  match find_user_by_id db uid with
  | None => feed env db req = (mkResponse 404 (failure "User not found"), db)
  | Some usr =>
      match User.role usr with
      | TEACHER =>
          feed env db req
          = (journals_response "Teacher feed fetched successfully" db
               (orderBy_created_at_desc (filter (owned_by uid) (journals db))), db)
      | STUDENT =>
          status (fst (feed env db req)) = 500%Z /\
          field "message" (json (fst (feed env db req))) = JStr "Failed to get feed" /\
          field "journals" (json (fst (feed env db req))) = JUndefined /\
          snd (feed env db req) = db
      | other =>
          feed env db req
          = (mkResponse 400
               (JObj [("success", JBool false);
                      ("message", JStr "Invalid user role. Must be either 'teacher' or 'student'");
                      ("userRole", JStr (Role_name other))]), db)
      end
  end.
Proof.
  intros Hu Hid. unfold feed, destructure_user.
  rewrite Hu. cbn [bind].
  rewrite Hid. unfold user_findUnique_id, as_string. cbn [bind].
  destruct (find_user_by_id db uid) as [usr|]; [|reflexivity].
  destruct (User.role usr);
    rewrite ?findMany_student_feed_refused, ?findMany_teacher_feed;
    [repeat split|reflexivity|reflexivity].
Qed.


(** *** The user service *)

Lemma find_user_by_email_some db e u :
  find_user_by_email db e = Some u -> In u (users db) /\ User.email u = e.
Proof.
  unfold find_user_by_email. intros H. apply find_some in H.
  destruct H as [H1 H2]. apply String.eqb_eq in H2. auto.
Qed.

Lemma find_user_by_email_app db e u :
  User.email u = e ->
  exists u', find_user_by_email (mkStore (users db ++ [u]) (journals db)) e = Some u'.
Proof.
  intros He. unfold find_user_by_email. simpl.
  destruct (find (fun x => String.eqb (User.email x) e) (users db ++ [u])) as [u'|] eqn:F.
  - now exists u'.
  - exfalso. eapply find_none with (x := u) in F.
    + rewrite He, String.eqb_refl in F. discriminate.
    + apply in_or_app. right. now left.
Qed.

(** A login of a stored user whose password verifies. *)
Lemma login_accepts env db req email password u :
  get_field "email" (body req) = JStr email ->
  get_field "password" (body req) = JStr password ->
  find_user_by_email db email = Some u ->
  bcrypt_compare password (User.password u) = true ->
  loginUser env db req = (login_success env u, db).
Proof.
  intros He Hp Hf Hc.
  unfold loginUser, user_findUnique_email, as_string, bcrypt_compare_js.
  rewrite He, Hp. cbn [bind]. rewrite Hf. cbn [bind]. rewrite Hc.
  cbn [negb catch500]. unfold login_success, jwt_sign, token_payload, sanitized.
  destruct (User.name u); reflexivity.
Qed.

(** C6, as the handler and the token library have it. A login answers
    200 exactly for a stored user whose password verifies. The token is
    the encoding, under the secret, of five claims: userId, name, email
    and role of that user, and the issue time [iat] that the library
    adds, in seconds; there is no expiry. The role claim is the stored
    role, which is its own upper case. The answer carries the projection
    id, name, email, role of the user and the token, and the store is
    left as it was. *)
Theorem login_token_amended :
  forall env db req,
    (forall email password u,
       get_field "email" (body req) = JStr email ->
       get_field "password" (body req) = JStr password ->
       find_user_by_email db email = Some u ->
       bcrypt_compare password (User.password u) = true ->
       loginUser env db req = (login_success env u, db)) /\
    (status (fst (loginUser env db req)) = 200%Z ->
     exists u claims,
       In u (users db) /\
       get_field "email" (body req) = JStr (User.email u) /\
       snd (loginUser env db req) = db /\
       json (fst (loginUser env db req))
       = JObj [("success", JBool true);
               ("message", JStr "User logged in successfully");
               ("user", JObj [("id", JStr (User.id u));
                              ("name", match User.name u with
                                       | Some n => JStr n
                                       | None => JNull
                                       end);
                              ("email", JStr (User.email u));
                              ("role", JStr (Role_name (User.role u)))]);
               ("token", JStr (jwt_encode claims JWT_SECRET))] /\
       claims = [("userId", JStr (User.id u));
                 ("name", match User.name u with
                          | Some n => JStr n
                          | None => JNull
                          end);
                 ("email", JStr (User.email u));
                 ("role", JStr (Role_name (User.role u)));
                 ("iat", JNum (clock env / 1000))] /\
       get_field "exp" claims = JUndefined /\
       exists role, get_field "role" claims = JStr role /\
                    toUpperCase role = Role_name (User.role u)).
Proof.
  intros env db req.
  assert (Hsuccess : forall email password u,
    get_field "email" (body req) = JStr email ->
    get_field "password" (body req) = JStr password ->
    find_user_by_email db email = Some u ->
    bcrypt_compare password (User.password u) = true ->
    loginUser env db req = (login_success env u, db)).
  { intros email password u. apply login_accepts. }
  split; [exact Hsuccess|].
  intros H200.
  destruct (get_field "email" (body req)) as [| |?|?|email|?|?] eqn:He;
    try (unfold loginUser in H200; rewrite He in H200; discriminate H200).
  destruct (find_user_by_email db email) as [u|] eqn:Hf;
    [|unfold loginUser, user_findUnique_email, as_string in H200;
      rewrite He in H200; cbn [bind] in H200; rewrite Hf in H200;
      discriminate H200].
  destruct (get_field "password" (body req)) as [| |?|?|password|?|?] eqn:Hp;
    try (unfold loginUser, user_findUnique_email, as_string, bcrypt_compare_js in H200;
         rewrite He, Hp in H200; cbn [bind] in H200; rewrite Hf in H200;
         discriminate H200).
  destruct (bcrypt_compare password (User.password u)) eqn:Hc;
    [|unfold loginUser, user_findUnique_email, as_string, bcrypt_compare_js in H200;
      rewrite He, Hp in H200; cbn [bind] in H200; rewrite Hf in H200;
      cbn [bind] in H200; rewrite Hc in H200; discriminate H200].
  rewrite (Hsuccess email password u eq_refl eq_refl Hf Hc).
  apply find_user_by_email_some in Hf. destruct Hf as [Hin Hmail].
  exists u. eexists. split; [exact Hin|]. split; [now rewrite Hmail|].
  split; [reflexivity|]. split; [reflexivity|]. split; [reflexivity|].
  split; [reflexivity|].
  exists (Role_name (User.role u)). split; [reflexivity|apply Role_name_upper].
Qed.

(** The role the handler hands to the store, for an input that asks for
    a role of the store or for none. *)
Lemma register_role v r :
  role_input v = Some r ->
  exists upper,
    opt_toUpperCase v = Normal upper /\
    as_Role (js_or upper (JStr "STUDENT")) = Normal r.
Proof.
  destruct v as [| |b|n|s|xs|fs]; cbn [role_input]; try discriminate.
  - intros [= <-]. exists JUndefined. auto.
  - intros [= <-]. exists JUndefined. auto.
  - exists (JStr (toUpperCase s)). split; [reflexivity|].
    unfold js_or, truthy.
    destruct (String.eqb (toUpperCase s) EmptyString) eqn:E; cbn [negb as_Role].
    + now injection H as <-.
    + now rewrite H.
Qed.

Lemma register_conflict env db req email u0 :
  get_field "email" (body req) = JStr email ->
  find_user_by_email db email = Some u0 ->
  registerUser env db req = (mkResponse 400 (failure "User already exists"), db).
Proof.
  intros He Hf. unfold registerUser, user_findUnique_email, as_string.
  rewrite He. cbn [bind]. now rewrite Hf.
Qed.

(** Whatever a registration answers, a user object in the answer has the
    keys id, name, email and role and no other. *)
Lemma register_answer_sanitized env db req :
  let answer := json (fst (registerUser env db req)) in
  field "user" answer = JUndefined \/
  keys (field "user" answer) = ["id"; "name"; "email"; "role"].
Proof.
  unfold registerUser.
  destruct (user_findUnique_email db (get_field "email" (body req))) as [[?|]|];
    cbn [bind]; try (left; reflexivity).
  destruct (bcrypt_hash_js (get_field "password" (body req)) (salt env));
    cbn [bind]; try (left; reflexivity).
  destruct (opt_toUpperCase (get_field "role" (body req)));
    cbn [bind]; try (left; reflexivity).
  destruct (user_create env db _ _ _ _) as [[u db']|];
    cbn [bind]; [right|left]; reflexivity.
Qed.

(** A registration that goes through, in full. *)
Lemma register_created env db req email password name r :
  get_field "email" (body req) = JStr email ->
  get_field "password" (body req) = JStr password ->
  as_opt_string "name" (get_field "name" (body req)) = Normal name ->
  role_input (get_field "role" (body req)) = Some r ->
  find_user_by_email db email = None ->
  find_user_by_id db (uuid env) = None ->
  let u := User.mk (uuid env) name email (bcrypt_hash password (salt env)) r
             (store_clock env) (store_clock env) in
  registerUser env db req
  = (register_success u, mkStore (users db ++ [u]) (journals db)).
Proof.
  intros He Hp Hn Hr Hnone Hid u.
  destruct (register_role _ _ Hr) as (upper & Hup & Hrole).
  unfold registerUser, user_findUnique_email, as_string, bcrypt_hash_js.
  rewrite He, Hp. cbn [bind]. rewrite Hnone. cbn [bind]. rewrite Hup. cbn [bind].
  unfold user_create. rewrite Hn. cbn [bind as_string]. rewrite Hrole. cbn [bind].
  rewrite Hnone, Hid. cbn [catch500]. unfold register_success, sanitized, u.
  cbn [User.id User.name User.email User.role]. destruct name; reflexivity.
Qed.

(** C5, as the handler has it. A registration with the email of a stored
    user answers 400 "User already exists". With a new email, a password,
    and a role that is absent or whose upper case is empty or names
    STUDENT, TEACHER or ADMIN, a user is added with the upper-cased role,
    STUDENT when absent or empty. The answer is 201 and holds the keys
    id, name, email and role of the user and nothing else of the user:
    it is the same whatever the password; a later registration with that
    email answers 400. A role whose upper case names no role of the
    store, or that is not a string, is answered 500 and nothing is
    stored. Of the text of the error a 500 answer carries nothing is
    stated. *)
Theorem register_user_amended :
  forall env db req email,
    get_field "email" (body req) = JStr email ->
    (forall u0, find_user_by_email db email = Some u0 ->
       registerUser env db req
       = (mkResponse 400 (failure "User already exists"), db)) /\
    (find_user_by_email db email = None ->
     forall password name r,
       get_field "password" (body req) = JStr password ->
       as_opt_string "name" (get_field "name" (body req)) = Normal name ->
       role_input (get_field "role" (body req)) = Some r ->
       find_user_by_id db (uuid env) = None ->
       let u := User.mk (uuid env) name email (bcrypt_hash password (salt env)) r
                  (store_clock env) (store_clock env) in
       let db' := mkStore (users db ++ [u]) (journals db) in
       registerUser env db req = (register_success u, db') /\
       json (register_success u)
       = JObj [("success", JBool true);
               ("message", JStr "User registered successfully");
               ("user", JObj [("id", JStr (uuid env));
                              ("name", match name with
                                       | Some n => JStr n
                                       | None => JNull
                                       end);
                              ("email", JStr email);
                              ("role", JStr (Role_name r))])] /\
       (forall req2 password2,
          get_field "password" (body req2) = JStr password2 ->
          (forall k, k <> "password" ->
             get_field k (body req2) = get_field k (body req)) ->
          fst (registerUser env db req2) = fst (registerUser env db req)) /\
       (forall s, get_field "role" (body req) = JStr s ->
          toUpperCase s <> EmptyString -> Role_name r = toUpperCase s) /\
       (forall env' req', get_field "email" (body req') = JStr email ->
          registerUser env' db' req'
          = (mkResponse 400 (failure "User already exists"), db'))) /\
    (find_user_by_email db email = None ->
     forall password,
       get_field "password" (body req) = JStr password ->
       role_input (get_field "role" (body req)) = None ->
       status (fst (registerUser env db req)) = 500%Z /\
       snd (registerUser env db req) = db) /\
    (field "user" (json (fst (registerUser env db req))) = JUndefined \/
     keys (field "user" (json (fst (registerUser env db req))))
     = ["id"; "name"; "email"; "role"]).
Proof.
  intros env db req email He. split; [|split; [|split]].
  - intros u0 Hf. now apply register_conflict with (email := email) (u0 := u0).
  - intros Hnone password name r Hp Hn Hr Hid u db'.
    assert (Hreg := register_created env db req email password name r
                      He Hp Hn Hr Hnone Hid).
    cbv zeta in Hreg. fold u in Hreg. fold db' in Hreg.
    split; [exact Hreg|]. split; [reflexivity|]. split; [|split].
    + intros req2 password2 Hp2 Hsame.
      assert (Hreg2 := register_created env db req2 email password2 name r).
      rewrite (Hsame "email"), (Hsame "name"), (Hsame "role") in Hreg2
        by discriminate.
      rewrite (Hreg2 He Hp2 Hn Hr Hnone Hid), Hreg. reflexivity.
    + intros s Hs Hne. rewrite Hs in Hr. cbn [role_input] in Hr.
      destruct (String.eqb (toUpperCase s) EmptyString) eqn:E.
      * apply String.eqb_eq in E. now elim Hne.
      * symmetry. now apply Role_of_string_inv.
    + intros env' req' He'.
      destruct (find_user_by_email_app db email u eq_refl) as (u' & Hu').
      now apply register_conflict with (email := email) (u0 := u').
  - intros Hnone password Hp Hr.
    unfold registerUser, user_findUnique_email, as_string, bcrypt_hash_js.
    rewrite He, Hp. cbn [bind]. rewrite Hnone. cbn [bind].
    destruct (get_field "role" (body req)) as [| |b|n|s|xs|fs];
      try discriminate Hr; try (split; reflexivity).
    cbn [role_input] in Hr.
    destruct (String.eqb (toUpperCase s) EmptyString) eqn:E; [discriminate|].
    cbn [opt_toUpperCase bind]. unfold js_or, truthy.
    rewrite E. cbn [negb].
    unfold user_create.
    destruct (as_opt_string "name" (get_field "name" (body req)));
      cbn [bind as_string as_Role]; [|split; reflexivity].
    rewrite Hr. split; reflexivity.
  - apply register_answer_sanitized.
Qed.

(** *** Dates: the serialization of an instant parses back to it *)

Section Calendar.
Import JSDate.
Local Open Scope string_scope.
Local Open Scope Z_scope.

Lemma days_in_month_31 y m :
  m = 1 \/ m = 3 \/ m = 5 \/ m = 7 \/ m = 8 \/ m = 10 \/ m = 12 ->
  days_in_month y m = 31.
Proof. intros [->|[->|[->|[->|[->|[->| ->]]]]]]; reflexivity. Qed.

Lemma days_in_month_30 y m :
  m = 4 \/ m = 6 \/ m = 9 \/ m = 11 -> days_in_month y m = 30.
Proof. intros [->|[->|[->| ->]]]; reflexivity. Qed.

Lemma days_in_month_february y m :
  m = 2 -> days_in_month y m = if is_leap y then 29 else 28.
Proof. intros ->. reflexivity. Qed.

(** The civil date of a day number is a legal date, and it is the date of
    that day number. *)
Lemma civil_from_days_spec z :
  let '(y, m, d) := civil_from_days z in
  days_from_civil y m d = z /\
  1 <= m <= 12 /\ 1 <= d <= days_in_month y m /\
  (z + 719468) / 146097 * 400 <= y <= (z + 719468) / 146097 * 400 + 400.
Proof.
  unfold civil_from_days. cbv zeta.
  set (z' := z + 719468).
  set (era := z' / 146097).
  set (doe := z' - era * 146097).
  set (yoe := (doe - doe / 1460 + doe / 36524 - doe / 146096) / 365).
  set (doy := doe - (365 * yoe + yoe / 4 - yoe / 100)).
  set (mp := (5 * doy + 2) / 153).
  set (d := doy - (153 * mp + 2) / 5 + 1).
  assert (Hdoe : 0 <= doe <= 146096)
    by (subst doe era; Z.div_mod_to_equations'; lia).
  assert (Hy : 0 <= yoe <= 399 /\ 0 <= doy <= 365)
    by (subst doy yoe; clearbody doe; clear -Hdoe; Z.div_mod_to_equations'; lia).
  assert (Hleap : doy <= 364 \/
            ((yoe + 1) mod 4 = 0 /\
             ((yoe + 1) mod 100 <> 0 \/ (yoe + 1) mod 400 = 0)))
    by (subst doy yoe; clearbody doe; clear -Hdoe; Z.div_mod_to_equations'; lia).
  assert (Hmp : 0 <= mp <= 11) by (subst mp; Z.div_mod_to_equations'; lia).
  assert (Hd : d = doy - (153 * mp + 2) / 5 + 1) by reflexivity.
  assert (Hmpdef : mp = (5 * doy + 2) / 153) by reflexivity.
  assert (Hdoy : doy = doe - (365 * yoe + yoe / 4 - yoe / 100)) by reflexivity.
  clearbody d mp doy yoe. clear Hdoe.
  destruct (Z.ltb_spec mp 10) as [Hlt|Hge].
  - (* March to December *)
    assert (E2 : (mp + 3 <=? 2) = false) by (apply Z.leb_gt; lia).
    rewrite E2.
    split; [|split; [lia|split; [split|subst era; lia]]].
    + unfold days_from_civil. rewrite E2.
      replace ((mp + 3 + 9) mod 12) with mp by (Z.div_mod_to_equations'; lia).
      replace ((yoe + era * 400) / 400) with era by (Z.div_mod_to_equations'; lia).
      subst d doe z'. Z.div_mod_to_equations'. lia.
    + subst d. Z.div_mod_to_equations'. lia.
    + assert (Hm : mp = 0 \/ mp = 1 \/ mp = 2 \/ mp = 3 \/ mp = 4 \/ mp = 5 \/
                   mp = 6 \/ mp = 7 \/ mp = 8 \/ mp = 9) by lia.
      subst d.
      destruct Hm as [->|[->|[->|[->|[->|[->|[->|[->|[->| ->]]]]]]]]];
        first [rewrite days_in_month_31 by lia | rewrite days_in_month_30 by lia];
        Z.div_mod_to_equations'; lia.
  - (* January and February *)
    assert (E2 : (mp - 9 <=? 2) = true) by (apply Z.leb_le; lia).
    rewrite E2.
    split; [|split; [lia|split; [split|subst era; lia]]].
    + unfold days_from_civil. rewrite E2.
      replace ((mp - 9 + 9) mod 12) with mp by (Z.div_mod_to_equations'; lia).
      replace ((yoe + era * 400 + 1 - 1) / 400) with era
        by (Z.div_mod_to_equations'; lia).
      subst d doe z'. Z.div_mod_to_equations'. lia.
    + subst d. Z.div_mod_to_equations'. lia.
    + assert (Hm : mp = 10 \/ mp = 11) by lia.
      subst d. destruct Hm as [->| ->].
      * rewrite days_in_month_31 by lia. Z.div_mod_to_equations'. lia.
      * rewrite days_in_month_february by lia. unfold is_leap.
        destruct (Z.eqb_spec ((yoe + era * 400 + 1) mod 4) 0);
          destruct (Z.eqb_spec ((yoe + era * 400 + 1) mod 100) 0);
          destruct (Z.eqb_spec ((yoe + era * 400 + 1) mod 400) 0);
          cbn [andb orb negb]; Z.div_mod_to_equations'; lia.
Qed.

Lemma chars_app (a b : string) :
  list_ascii_of_string (a ++ b)
  = (list_ascii_of_string a ++ list_ascii_of_string b)%list.
Proof. induction a as [|c a IH]; simpl; [reflexivity|now rewrite IH]. Qed.

Lemma digit_cases x :
  exists k, x mod 10 = Z.of_nat k /\ (k < 10)%nat.
Proof.
  exists (Z.to_nat (x mod 10)).
  assert (0 <= x mod 10 < 10) by (apply Z.mod_pos_bound; lia).
  split; lia.
Qed.

Lemma digit_val_digit x : digit_val (digit x) = Some (x mod 10).
Proof.
  unfold digit. destruct (digit_cases x) as (k & -> & Hk).
  rewrite Nat2Z.id.
  do 10 (destruct k as [|k]; [reflexivity|]). lia.
Qed.

Lemma digit_not_sign x :
  Ascii.eqb (digit x) "+" = false /\ Ascii.eqb (digit x) "-" = false.
Proof.
  unfold digit. destruct (digit_cases x) as (k & -> & Hk).
  rewrite Nat2Z.id.
  do 10 (destruct k as [|k]; [split; reflexivity|]). lia.
Qed.

(** Reading one more digit. *)
Lemma take_digits_last w : forall acc cs,
  take_digits (S w) acc cs =
  match take_digits w acc cs with
  | Some (v, c :: r) =>
      match digit_val c with
      | Some dv => Some (10 * v + dv, r)
      | None => None
      end
  | _ => None
  end.
Proof.
  induction w as [|w IH]; intros acc cs.
  - simpl. destruct cs as [|c r]; [reflexivity|].
    destruct (digit_val c); reflexivity.
  - change (take_digits (S (S w)) acc cs) with
      (match cs with
       | [] => None
       | c :: r => match digit_val c with
                   | Some v => take_digits (S w) (10 * acc + v) r
                   | None => None
                   end
       end).
    destruct cs as [|c r]; [reflexivity|].
    cbn [take_digits]. destruct (digit_val c) as [v|]; [|reflexivity].
    apply IH.
Qed.

(** Reading back a number rendered at fixed width. *)
Lemma take_digits_pad w : forall x acc rest,
  take_digits w acc (list_ascii_of_string (pad w x) ++ rest)%list
  = Some (acc * 10 ^ Z.of_nat w + x mod 10 ^ Z.of_nat w, rest).
Proof.
  induction w as [|w IH]; intros x acc rest.
  - simpl. rewrite Z.mod_1_r. f_equal. f_equal. lia.
  - rewrite take_digits_last. cbn [pad].
    rewrite chars_app, <- app_assoc. rewrite IH.
    cbn [list_ascii_of_string app].
    rewrite digit_val_digit. f_equal. f_equal.
    rewrite Nat2Z.inj_succ, Z.pow_succ_r by lia.
    rewrite (Z.rem_mul_r x 10 (10 ^ Z.of_nat w)) by lia.
    lia.
Qed.

Lemma pad_head w x :
  exists r, list_ascii_of_string (pad (S w) x) = digit (x / 10 ^ Z.of_nat w) :: r.
Proof.
  revert x. induction w as [|w IH]; intros x.
  - exists []. simpl. now rewrite Z.div_1_r.
  - destruct (IH (x / 10)) as [r Hr].
    exists (r ++ [digit x])%list.
    change (pad (S (S w)) x) with (pad (S w) (x / 10) ++ String (digit x) EmptyString).
    rewrite chars_app, Hr. cbn [app list_ascii_of_string].
    rewrite Nat2Z.inj_succ, Z.pow_succ_r by lia.
    now rewrite Z.div_div by lia.
Qed.

Lemma take_year_string y rest :
  -999999 <= y <= 999999 ->
  take_year (list_ascii_of_string (year_string y) ++ rest)%list = Some (y, rest).
Proof.
  intros Hy. unfold year_string.
  destruct ((0 <=? y) && (y <=? 9999)) eqn:E.
  - apply andb_true_iff in E. destruct E as [E1 E2].
    apply Z.leb_le in E1, E2.
    destruct (pad_head 3 y) as [r Hr].
    unfold take_year.
    assert (Hd := take_digits_pad 4 y 0 rest).
    rewrite Hr in *. cbn [app] in *.
    destruct (digit_not_sign (y / 10 ^ Z.of_nat 3)) as [-> ->].
    rewrite Hd. f_equal. f_equal.
    change (10 ^ Z.of_nat 4) with 10000. rewrite Z.mod_small; lia.
  - assert (Hout : y < 0 \/ 9999 < y).
    { apply andb_false_iff in E. destruct E as [E|E];
        [apply Z.leb_gt in E|apply Z.leb_gt in E]; lia. }
    destruct (Z.ltb_spec y 0) as [Hneg|Hpos].
    + rewrite chars_app. cbn [list_ascii_of_string app]. unfold take_year.
      change (Ascii.eqb "-" "+") with false. change (Ascii.eqb "-" "-") with true.
      cbv iota. rewrite take_digits_pad.
      change (10 ^ Z.of_nat 6) with 1000000.
      rewrite Z.mod_small by lia.
      destruct (Z.eqb_spec (0 * 1000000 + Z.abs y) 0) as [E0|E0]; [lia|].
      f_equal. f_equal. lia.
    + rewrite chars_app. cbn [list_ascii_of_string app]. unfold take_year.
      change (Ascii.eqb "+" "+") with true.
      cbv iota. rewrite take_digits_pad.
      change (10 ^ Z.of_nat 6) with 1000000.
      rewrite Z.mod_small by lia. f_equal. f_equal. lia.
Qed.

Lemma take_digits_pad_small w x rest :
  0 <= x < 10 ^ Z.of_nat w ->
  take_digits w 0 (list_ascii_of_string (pad w x) ++ rest)%list = Some (x, rest).
Proof.
  intros H. rewrite take_digits_pad, Z.mod_small by exact H.
  now rewrite Z.mul_0_l.
Qed.

Lemma expect_head c rest : expect c (c :: rest) = Some rest.
Proof. unfold expect. now rewrite Ascii.eqb_refl. Qed.

(** Parsing a string rendered field by field gives the fields back. *)
Lemma parse_full_rendered y m d h mi sec ms :
  -999999 <= y <= 999999 ->
  0 <= m < 100 -> 0 <= d < 100 -> 0 <= h < 100 ->
  0 <= mi < 100 -> 0 <= sec < 100 -> 0 <= ms < 1000 ->
  parse_full (year_string y ++ "-" ++ pad 2 m ++ "-" ++ pad 2 d ++ "T" ++
              pad 2 h ++ ":" ++ pad 2 mi ++ ":" ++ pad 2 sec ++ "." ++
              pad 3 ms ++ "Z")
  = if (1 <=? m) && (m <=? 12) && (1 <=? d) && (d <=? days_in_month y m)
       && (h <=? 23) && (mi <=? 59) && (sec <=? 59)
    then Some (days_from_civil y m d * msPerDay
               + h * 3600000 + mi * 60000 + sec * 1000 + ms)
    else None.
Proof.
  intros Hy Hm Hd Hh Hmi Hsec Hms. unfold parse_full.
  repeat rewrite chars_app. cbn [list_ascii_of_string app].
  rewrite take_year_string by exact Hy.
  rewrite expect_head, (take_digits_pad_small 2 m) by exact Hm.
  rewrite expect_head, (take_digits_pad_small 2 d) by exact Hd.
  rewrite expect_head, (take_digits_pad_small 2 h) by exact Hh.
  rewrite expect_head, (take_digits_pad_small 2 mi) by exact Hmi.
  rewrite expect_head, (take_digits_pad_small 2 sec) by exact Hsec.
  rewrite expect_head, (take_digits_pad_small 3 ms) by exact Hms.
  rewrite expect_head. reflexivity.
Qed.

(** The serialization of an instant a Date can hold parses back to that
    instant. *)
Theorem parse_full_toISOString t :
  Z.abs t <= maxTime -> parse_full (toISOString t) = Some t.
Proof.
  intros Ht. unfold toISOString.
  assert (Hspec := civil_from_days_spec (t / msPerDay)).
  destruct (civil_from_days (t / msPerDay)) as [[y m] d].
  destruct Hspec as (Hdays & Hm & Hd & Hyear).
  set (r := t mod msPerDay) in *.
  assert (Hr : 0 <= r < msPerDay) by (apply Z.mod_pos_bound; reflexivity).
  assert (Ht' : t = t / msPerDay * msPerDay + r)
    by (subst r; unfold msPerDay; Z.div_mod_to_equations'; lia).
  unfold msPerDay, maxTime in *.
  assert (Hdim : days_in_month y m <= 31).
  { unfold days_in_month.
    destruct (m =? 2); [destruct (is_leap y); lia|].
    destruct ((m =? 4) || (m =? 6) || (m =? 9) || (m =? 11)); lia. }
  rewrite parse_full_rendered;
    try (clear Hdays; Z.div_mod_to_equations'; lia).
  assert (E : (1 <=? m) && (m <=? 12) && (1 <=? d) && (d <=? days_in_month y m)
              && (r / 3600000 <=? 23) && ((r / 60000) mod 60 <=? 59)
              && ((r / 1000) mod 60 <=? 59) = true).
  { repeat (apply andb_true_iff; split); apply Z.leb_le;
      try lia; clear Hdays; Z.div_mod_to_equations'; lia. }
  rewrite E, Hdays. f_equal. unfold msPerDay.
  clear E Hdays Hd Hdim Hyear. Z.div_mod_to_equations'. lia.
Qed.

End Calendar.

(** *** Publishing *)

Lemma isValidISODate_spec v : isValidISODate v = true <-> round_trips v.
Proof.
  unfold isValidISODate, round_trips. split.
  - destruct (new_Date v) as [t|] eqn:D; [|discriminate].
    destruct v; simpl; try discriminate.
    intros E. apply String.eqb_eq in E. eauto.
  - intros (s & t & -> & D & E). rewrite D. simpl.
    rewrite E. apply String.eqb_refl.
Qed.

Lemma not_string_not_valid v :
  (forall s, v <> JStr s) -> isValidISODate v = false.
Proof.
  intros H. unfold isValidISODate.
  destruct (new_Date v); [|reflexivity].
  destruct v; simpl; auto. now elim (H s).
Qed.

Lemma string_length_app (a b : string) :
  String.length (a ++ b) = (String.length a + String.length b)%nat.
Proof. induction a; simpl; auto. Qed.

Lemma pad_length w x : String.length (JSDate.pad w x) = w.
Proof.
  revert x. induction w as [|w IH]; intros x; simpl; [reflexivity|].
  rewrite string_length_app, IH. simpl. lia.
Qed.

(** A serialized instant has 24 characters, 27 with an extended year. *)
Lemma toISOString_length t :
  String.length (JSDate.toISOString t) = 24%nat \/
  String.length (JSDate.toISOString t) = 27%nat.
Proof.
  unfold JSDate.toISOString.
  destruct (JSDate.civil_from_days (t / JSDate.msPerDay)) as [[y m] d].
  repeat rewrite string_length_app. repeat rewrite pad_length.
  unfold JSDate.year_string.
  destruct ((0 <=? y)%Z && (y <=? 9999)%Z)%bool.
  - rewrite pad_length. left. reflexivity.
  - rewrite string_length_app, pad_length. right.
    destruct (y <? 0)%Z; reflexivity.
Qed.

(** A string of another length is no serialization, however the
    implementation parses it. *)
Lemma wrong_length_not_valid s :
  String.length s <> 24%nat -> String.length s <> 27%nat ->
  isValidISODate (JStr s) = false.
Proof.
  intros H24 H27. destruct (isValidISODate (JStr s)) eqn:E; [|reflexivity].
  apply isValidISODate_spec in E. destruct E as (s' & t & [= <-] & _ & E).
  destruct (toISOString_length t) as [L|L]; rewrite E in L; contradiction.
Qed.

Example next_tuesday_rejected : isValidISODate (JStr "next tuesday") = false.
Proof. apply wrong_length_not_valid; simpl; discriminate. Qed.

Example new_year_2024_accepted :
  isValidISODate (JStr "2024-01-01T00:00:00.000Z") = true.
Proof. reflexivity. Qed.

Lemma TimeClip_some t t' :
  JSDate.TimeClip t = Some t' -> t' = t /\ (Z.abs t <= JSDate.maxTime)%Z.
Proof.
  unfold JSDate.TimeClip.
  destruct (Z.leb_spec (Z.abs t) JSDate.maxTime); [|discriminate].
  intros [= <-]. auto.
Qed.

(** The Date of a serialized instant is that instant, whatever the
    implementation does with other strings. *)
Lemma new_Date_toISOString t :
  (Z.abs t <= JSDate.maxTime)%Z ->
  new_Date (JStr (JSDate.toISOString t)) = Some t.
Proof.
  intros Ht. unfold new_Date, Date_parse.
  rewrite (parse_full_toISOString t Ht). unfold JSDate.TimeClip.
  destruct (Z.leb_spec (Z.abs t) JSDate.maxTime); [reflexivity|lia].
Qed.

(** The values that pass the format check are the serializations of the
    instants a Date can hold. *)
Lemma round_trips_canonical v :
  round_trips v <->
  exists t, (Z.abs t <= JSDate.maxTime)%Z /\ v = JStr (JSDate.toISOString t).
Proof.
  unfold round_trips. split.
  - intros (s & t & -> & Hd & <-). exists t. split; [|reflexivity].
    unfold new_Date in Hd.
    destruct (Date_parse (JSDate.toISOString t)) as [t0|]; [|discriminate].
    apply TimeClip_some in Hd. destruct Hd as [-> Hd]. exact Hd.
  - intros (t & Ht & ->). exists (JSDate.toISOString t), t.
    split; [reflexivity|]. split; [|reflexivity].
    now apply new_Date_toISOString.
Qed.

Lemma find_journal_id db i j : find_journal db i = Some j -> Journal.id j = i.
Proof.
  unfold find_journal. intros H. apply find_some in H.
  now apply String.eqb_eq.
Qed.

Lemma find_journal_replace db i j j' :
  find_journal db i = Some j -> Journal.id j' = Journal.id j ->
  find_journal (mkStore (users db) (replace_journal j' (journals db))) i = Some j'.
Proof.
  intros Hf Hid. assert (Hi := find_journal_id _ _ _ Hf).
  revert Hf. unfold find_journal, replace_journal. simpl.
  induction (journals db) as [|x r IH]; simpl; [discriminate|].
  rewrite Hid, Hi.
  destruct (String.eqb (Journal.id x) i) eqn:E.
  - intros _. simpl. now rewrite Hid, Hi, String.eqb_refl.
  - intros Hf. simpl. rewrite E. rewrite Hid, Hi in IH. now apply IH.
Qed.

Lemma valid_has_date v :
  isValidISODate v = true -> exists t, new_Date v = Some t.
Proof.
  unfold isValidISODate. destruct (new_Date v) as [t|]; [eauto|discriminate].
Qed.

Lemma not_round_trips_invalid v : ~ round_trips v -> isValidISODate v = false.
Proof.
  intros Hn. destruct (isValidISODate v) eqn:Hv; [|reflexivity].
  elim Hn. now apply isValidISODate_spec.
Qed.

(** The publish handler, case by case: the format check answers 400; a
    call that passes or skips it reaches the store call, which the
    client refuses, and is answered 500. *)
Lemma publishJournal_cases env db req :
  let v := get_field "publish_at" (body req) in
  (truthy v = true -> isValidISODate v = false ->
   publishJournal env db req = (publish_bad_request, db)) /\
  (truthy v = false \/ isValidISODate v = true ->
   exists e,
     publishJournal env db req
     = (mkResponse 500 (JObj [("success", JBool false);
                              ("message", JStr "Failed to publish journal");
                              ("error", JStr e)]), db)).
Proof.
  intros v. unfold publishJournal. fold v. split.
  - intros Ht Hv. now rewrite Ht, Hv.
  - intros H. destruct (truthy v) eqn:Ht.
    + destruct H as [H|Hv]; [discriminate|]. rewrite Hv.
      destruct (valid_has_date v Hv) as [t Hd]. rewrite Hd.
      cbn [andb negb bind]. eexists. reflexivity.
    + cbn [andb bind]. eexists. reflexivity.
Qed.

Lemma publishJournal_status_400 env db req :
  let v := get_field "publish_at" (body req) in
  status (fst (publishJournal env db req)) = 400%Z <->
  truthy v = true /\ isValidISODate v = false.
Proof.
  intros v. destruct (publishJournal_cases env db req) as [Hbad Hok].
  fold v in Hbad, Hok. split.
  - intros H400. destruct (truthy v) eqn:Ht.
    + destruct (isValidISODate v) eqn:Hv; [|auto].
      destruct Hok as [e He]; [now right|]. rewrite He in H400. discriminate.
    + destruct Hok as [e He]; [now left|]. rewrite He in H400. discriminate.
  - intros [Ht Hv]. now rewrite (Hbad Ht Hv).
Qed.

(** C2, as the handler has it. The values that round-trip are the
    serializations YYYY-MM-DDTHH:mm:ss.sssZ of the instants a Date can
    hold. When [publish_at] is supplied and truthy, so not the empty
    string, a value that does not round-trip is answered 400 with the
    message naming the format, and the store is left as it was; a call
    is answered 400 in no other case: not for a string that round-trips,
    and not for a [publish_at] that is supplied but falsy. What becomes
    of a call that is not answered 400 is not stated here. *)
Theorem publish_round_trip_amended :
  forall env db req,
    let v := get_field "publish_at" (body req) in
    (round_trips v <->
     exists t, (Z.abs t <= JSDate.maxTime)%Z /\ v = JStr (JSDate.toISOString t)) /\
    (truthy v = true -> ~ round_trips v ->
       publishJournal env db req
       = (mkResponse 400
            (JObj [("success", JBool false);
                   ("message",
                    JStr "Invalid publish_at date format. Must be ISO 8601")]),
          db)) /\
    (status (fst (publishJournal env db req)) = 400%Z ->
       truthy v = true /\ ~ round_trips v) /\
    (round_trips v -> status (fst (publishJournal env db req)) <> 400%Z) /\
    (truthy v = false -> status (fst (publishJournal env db req)) <> 400%Z).
Proof.
  intros env db req v.
  assert (H400 : status (fst (publishJournal env db req)) = 400%Z ->
                 truthy v = true /\ ~ round_trips v).
  { intros H. apply publishJournal_status_400 in H. fold v in H.
    destruct H as [Ht Hv]. split; [exact Ht|].
    intros Hr. apply isValidISODate_spec in Hr. congruence. }
  split; [apply round_trips_canonical|]. split; [|split; [exact H400|split]].
  - intros Ht Hn.
    destruct (publishJournal_cases env db req) as [Hbad _].
    apply Hbad; [exact Ht|]. now apply not_round_trips_invalid.
  - intros Hr H. now destruct (H400 H).
  - intros Hf H. destruct (H400 H). congruence.
Qed.

Lemma get_field_nil k : get_field k [] = JUndefined.
Proof. reflexivity. Qed.

(** C10, as the handler has it. A [publish_at] that is present but falsy
    (the empty string, null, false, 0) skips the format check: the call
    is not answered 400 and does exactly what it does when [publish_at]
    is omitted. The 400 branch is taken exactly for the truthy values
    that do not round-trip: the truthy strings that differ from the
    serialization of their parse, and every truthy value that is not a
    string. What the call does when [publish_at] is omitted is not
    stated here. *)
Theorem publish_falsy_amended :
  forall env db req,
    let v := get_field "publish_at" (body req) in
    (truthy v = false ->
       publishJournal env db req = publishJournal env db (without_body req) /\
       status (fst (publishJournal env db req)) <> 400%Z) /\
    (status (fst (publishJournal env db req)) = 400%Z <->
     truthy v = true /\ ~ round_trips v) /\
    (truthy v = true -> (forall s, v <> JStr s) ->
     publishJournal env db req
     = (mkResponse 400
          (JObj [("success", JBool false);
                 ("message",
                  JStr "Invalid publish_at date format. Must be ISO 8601")]),
        db)).
Proof.
  intros env db req v. split; [|split].
  - intros Hf. split.
    + unfold publishJournal, without_body. cbn [body params_id].
      fold v. rewrite get_field_nil, Hf. reflexivity.
    + intros H400. apply publishJournal_status_400 in H400.
      fold v in H400. destruct H400 as [Ht _]. congruence.
  - rewrite publishJournal_status_400. fold v. split.
    + intros [Ht Hv]. split; [exact Ht|].
      intros Hr. apply isValidISODate_spec in Hr. congruence.
    + intros [Ht Hn]. split; [exact Ht|]. now apply not_round_trips_invalid.
  - intros Ht Hns.
    destruct (publishJournal_cases env db req) as [Hbad _].
    apply Hbad; [exact Ht|]. now apply not_string_not_valid.
Qed.

(** *** Tagged students on create and update *)

(** The relation a [connect] or [set] list leaves: the identifiers the
    list names, each once. *)
Lemma related_ids_spec db vs ids :
  related_ids db vs = Normal ids ->
  (forall i, In i ids <-> In (JStr i) vs) /\ NoDup ids.
Proof.
  revert ids. induction vs as [|v r IH]; simpl; intros ids.
  - intros [= <-]. split; [intros i; split; intros []|constructor].
  - destruct v as [| |?|?|i|?|?]; simpl; try discriminate.
    destruct (find_user_by_id db i); [|discriminate].
    destruct (related_ids db r) as [ids'|]; [|discriminate].
    simpl. intros [= <-]. destruct (IH ids' eq_refl) as [Hin Hnd].
    destruct (existsb (String.eqb i) ids') eqn:E.
    + split; [|exact Hnd]. intros k. rewrite Hin. split; [intros H; now right|].
      intros [[= <-]|H]; [|exact H].
      apply Hin. now apply existsb_eqb_In.
    + split.
      * intros k. simpl. rewrite Hin. split.
        -- intros [->|H]; auto.
        -- intros [[= ->]|H]; auto.
      * constructor; [|exact Hnd]. intros H.
        apply existsb_eqb_In in H. congruence.
Qed.

Lemma related_ids_total db ids :
  (forall i, In i ids -> find_user_by_id db i <> None) ->
  exists ids', related_ids db (map JStr ids) = Normal ids'.
Proof.
  induction ids as [|i r IH]; simpl; intros H; [eauto|].
  destruct (find_user_by_id db i) eqn:F; [|now elim (H i (or_introl eq_refl))].
  destruct IH as [ids' E]; [intros k Hk; apply H; now right|].
  rewrite E. simpl. eauto.
Qed.

Lemma journal_update_inv env db i title content media mediaType set j' db' :
  journal_update env db (JStr i) title content media mediaType set = Normal (j', db') ->
  exists j,
    find_journal db i = Some j /\
    related_ids db set = Normal (Journal.taggedStudents j') /\
    Journal.id j' = Journal.id j /\
    db' = mkStore (users db) (replace_journal j' (journals db)).
Proof.
  unfold journal_update. cbn [as_string bind].
  destruct (media_arg media); [|discriminate]. cbn [bind].
  destruct (find_journal db i) as [j|]; [|discriminate].
  destruct (upd_string "title" title (Journal.title j)); [|discriminate].
  destruct (upd_string "content" content (Journal.content j)); [|discriminate].
  destruct (upd_MediaType mediaType (Journal.mediaType j)); [|discriminate].
  destruct (related_ids db set) as [ids|]; [|discriminate].
  cbn [bind]. intros [= <- <-]. exists j. auto.
Qed.

Lemma updateJournal_ok env db req :
  status (fst (updateJournal env db req)) = 200%Z ->
  exists items j',
    get_field "taggedStudents" (body req) = JArr items /\
    find_journal (snd (updateJournal env db req)) (params_id req) = Some j' /\
    (forall i, In i (Journal.taggedStudents j') <-> In (JStr i) items) /\
    NoDup (Journal.taggedStudents j').
Proof.
  unfold updateJournal.
  destruct (opt_toUpperCase (get_field "mediaType" (body req))) as [mt|];
    [|simpl; discriminate].
  cbn [bind].
  destruct (get_field "taggedStudents" (body req)) as [| |?|?|?|items|?];
    try (simpl; discriminate).
  cbn [array_items bind].
  destruct (journal_update env db _ _ _ _ _ items) as [[j' db']|] eqn:U;
    [|simpl; discriminate].
  intros _. simpl. apply journal_update_inv in U.
  destruct U as (j & Hj & Hrel & Hid & ->).
  exists items, j'. split; [reflexivity|]. split.
  - now apply find_journal_replace with (j := j).
  - now apply related_ids_spec with (db := db).
Qed.

Lemma updateJournal_succeeds env db req j ids :
  find_journal db (params_id req) = Some j ->
  get_field "taggedStudents" (body req) = JArr (map JStr ids) ->
  (forall i, In i ids -> find_user_by_id db i <> None) ->
  (forall k, In k ["title"; "content"] ->
     get_field k (body req) = JUndefined \/ exists s, get_field k (body req) = JStr s) ->
  get_field "media" (body req) = JUndefined ->
  get_field "mediaType" (body req) = JUndefined ->
  status (fst (updateJournal env db req)) = 200%Z.
Proof.
  intros Hj Htags Hids Hstr Hmedia Hmt.
  unfold updateJournal. rewrite Hmt, Htags, Hmedia. cbn [opt_toUpperCase bind array_items].
  unfold journal_update. cbn [as_string bind js_or truthy media_arg strings_of].
  rewrite Hj.
  destruct (related_ids_total db ids Hids) as [ids' E]. rewrite E.
  assert (Ht := Hstr "title" (or_introl eq_refl)).
  assert (Hc := Hstr "content" (or_intror (or_introl eq_refl))).
  destruct Ht as [Ht|[t Ht]]; rewrite Ht;
    destruct Hc as [Hc|[c Hc]]; rewrite Hc; reflexivity.
Qed.

(** C7, as the handlers have it. An update that answers 200 got a list
    of tagged students, and the journal then holds exactly the students
    of that list, whatever it held before; such an update exists for a
    stored journal and a list of stored users. An update with no
    [taggedStudents] answers 500 and leaves the store as it was, and so
    does a create with no [taggedStudents]. *)
Theorem update_replaces_tags_amended :
  forall env db req,
    let id := params_id req in
    let tags := get_field "taggedStudents" (body req) in
    (status (fst (updateJournal env db req)) = 200%Z ->
     exists items j',
       tags = JArr items /\
       find_journal (snd (updateJournal env db req)) id = Some j' /\
       (forall i, In i (Journal.taggedStudents j') <-> In (JStr i) items) /\
       NoDup (Journal.taggedStudents j')) /\
    (forall j ids,
       find_journal db id = Some j ->
       tags = JArr (map JStr ids) ->
       (forall i, In i ids -> find_user_by_id db i <> None) ->
       (forall k, In k ["title"; "content"] ->
          get_field k (body req) = JUndefined \/
          exists s, get_field k (body req) = JStr s) ->
       get_field "media" (body req) = JUndefined ->
       get_field "mediaType" (body req) = JUndefined ->
       status (fst (updateJournal env db req)) = 200%Z) /\
    (tags = JUndefined ->
     status (fst (updateJournal env db req)) = 500%Z /\
     snd (updateJournal env db req) = db /\
     status (fst (createJournal env db req)) = 500%Z /\
     snd (createJournal env db req) = db).
Proof.
  intros env db req id tags. split; [|split].
  - apply updateJournal_ok.
  - intros j ids. apply updateJournal_succeeds.
  - intros Hu. unfold tags in Hu.
    assert (Hupd : status (fst (updateJournal env db req)) = 500%Z /\
                   snd (updateJournal env db req) = db).
    { unfold updateJournal. rewrite Hu.
      destruct (opt_toUpperCase (get_field "mediaType" (body req)));
        split; reflexivity. }
    assert (Hcre : status (fst (createJournal env db req)) = 500%Z /\
                   snd (createJournal env db req) = db).
    { unfold createJournal, destructure_user. rewrite Hu.
      destruct (user req) as [u|]; [|split; reflexivity].
      destruct (opt_toUpperCase (get_field "mediaType" (body req)));
        split; reflexivity. }
    destruct Hupd as [H1 H2]. destruct Hcre as [H3 H4]. auto.
Qed.

(** *** A journal that is not there *)

(** With no journal of that identifier, reading answers 404, while
    updating and deleting answer 500 and leave the store as it was. *)
Lemma missing_journal_answers env db req :
  find_journal db (params_id req) = None ->
  getJournalById env db req = (mkResponse 404 (failure "Journal not found"), db) /\
  (status (fst (updateJournal env db req)) = 500%Z /\
   snd (updateJournal env db req) = db) /\
  deleteJournal env db req
  = (mkResponse 500 (JObj [("success", JBool false);
                           ("message", JStr "Failed to delete journal");
                           ("error", JStr "Record to delete does not exist.")]), db).
Proof.
  intros Hnone. split; [|split].
  - unfold getJournalById, journal_findUnique. cbn [as_string bind]. now rewrite Hnone.
  - unfold updateJournal.
    destruct (opt_toUpperCase (get_field "mediaType" (body req))); cbn [bind];
      [|split; reflexivity].
    destruct (array_items (get_field "taggedStudents" (body req))); cbn [bind];
      [|split; reflexivity].
    unfold journal_update. cbn [as_string bind].
    destruct (media_arg _); cbn [bind]; [|split; reflexivity].
    rewrite Hnone. split; reflexivity.
  - unfold deleteJournal, journal_delete. cbn [as_string bind]. now rewrite Hnone.
Qed.

(* ------------------------------------------------------------------ *)
(** ** Further properties of the handlers *)

(** *** The format check *)

(** X1. [isValidISODate] accepts exactly the serializations of the instants
    a Date can hold, whatever the implementation parses besides; no
    value that is not a string passes. *)
Theorem isValidISODate_serializations :
  forall v,
    isValidISODate v = true <->
    exists t, (Z.abs t <= JSDate.maxTime)%Z /\ v = JStr (JSDate.toISOString t).
Proof.
  intros v. rewrite isValidISODate_spec. apply round_trips_canonical.
Qed.

(** *** The access control middleware, when it lets a request through *)

Lemma string_app_assoc (a b c : string) : ((a ++ b) ++ c = a ++ (b ++ c))%string.
Proof. induction a as [|x a IH]; simpl; [reflexivity|now rewrite IH]. Qed.

Lemma has_char_app c (a b : string) :
  has_char c (a ++ b)%string = (has_char c a || has_char c b)%bool.
Proof.
  induction a as [|x a IH]; simpl; [reflexivity|].
  now rewrite IH, Bool.orb_assoc.
Qed.

(** Splitting reads a stretch without separator into the current word. *)
Lemma split_acc_word sep (s : string) : forall cur rest,
  has_char sep s = false ->
  split_acc sep cur (s ++ rest)%string = split_acc sep (cur ++ s)%string rest.
Proof.
  induction s as [|c r IH]; intros cur rest H; simpl in *.
  - f_equal. clear. induction cur; simpl; [reflexivity|now f_equal].
  - apply Bool.orb_false_iff in H. destruct H as [Hc Hr].
    rewrite Hc. rewrite IH by exact Hr.
    now rewrite string_app_assoc.
Qed.

Lemma split_acc_single sep (s : string) : forall cur,
  has_char sep s = false -> split_acc sep cur s = [(cur ++ s)%string].
Proof.
  induction s as [|c r IH]; intros cur H; simpl in *.
  - f_equal. clear. induction cur; simpl; [reflexivity|now f_equal].
  - apply Bool.orb_false_iff in H. destruct H as [Hc Hr].
    rewrite Hc, IH by exact Hr. now rewrite string_app_assoc.
Qed.

Lemma split_bearer (tail : string) :
  split_on ("Bearer " ++ tail) " " = "Bearer" :: split_acc " " EmptyString tail.
Proof. reflexivity. Qed.

Lemma starts_with_bearer (tail : string) :
  startsWith ("Bearer " ++ tail) "Bearer " = true.
Proof. destruct tail; reflexivity. Qed.

(** No word of a split holds the separator. *)
Lemma split_acc_words sep (s : string) : forall cur w,
  has_char sep cur = false ->
  In w (split_acc sep cur s) -> has_char sep w = false.
Proof.
  induction s as [|c r IH]; intros cur w Hcur; simpl.
  - intros [<-|[]]. exact Hcur.
  - destruct (Ascii.eqb c sep) eqn:E.
    + intros [<-|Hin]; [exact Hcur|]. now apply (IH EmptyString).
    + apply IH. rewrite has_char_app, Hcur. simpl. now rewrite E.
Qed.

(** X2. The token handed to [jwt.verify] is the first word after [Bearer]:
    it never holds a space, and whatever follows a second space in the
    header is ignored. *)
Theorem presented_token_first_word :
  (forall req token, presented_token req = Some token -> has_char " " token = false) /\
  (forall req token junk,
     has_char " " token = false ->
     presented_token (with_authorization ("Bearer " ++ token) req) = Some token /\
     presented_token (with_authorization ("Bearer " ++ token ++ " " ++ junk) req)
     = Some token /\
     (forall res,
        authenticate (with_authorization ("Bearer " ++ token ++ " " ++ junk) req)
        = Respond res <->
        authenticate (with_authorization ("Bearer " ++ token) req) = Respond res) /\
     (forall u,
        (exists req', authenticate
           (with_authorization ("Bearer " ++ token ++ " " ++ junk) req) = Next req'
           /\ user req' = Some u) <->
        (exists req', authenticate (with_authorization ("Bearer " ++ token) req)
           = Next req' /\ user req' = Some u))).
Proof.
  split.
  - intros req token. unfold presented_token.
    destruct (headers_authorization req) as [auth|]; [|discriminate].
    intros H. apply nth_error_In in H.
    now apply (split_acc_words " " auth EmptyString).
  - intros req token junk Htok.
    assert (H1 : nth_error (split_on ("Bearer " ++ token) " ") 1 = Some token).
    { rewrite split_bearer. cbn [nth_error].
      now rewrite (split_acc_single " " token EmptyString Htok). }
    assert (H2 : nth_error (split_on ("Bearer " ++ token ++ " " ++ junk) " ") 1
                 = Some token).
    { rewrite split_bearer. cbn [nth_error].
      rewrite (split_acc_word " " token EmptyString (" " ++ junk)%string Htok).
      reflexivity. }
    assert (Hauth : forall tail,
      authenticate (with_authorization ("Bearer " ++ tail) req) =
      match nth_error (split_on ("Bearer " ++ tail) " ") 1 with
      | None => Respond (mkResponse 401 (failure "Invalid Token"))
      | Some t =>
          match jwt_verify t JWT_SECRET with
          | None => Respond (mkResponse 401 (failure "Invalid Token"))
          | Some decoded =>
              match opt_toUpperCase (get_field "role" decoded) with
              | Throw _ => Respond (mkResponse 401 (failure "Invalid Token"))
              | Normal r =>
                  Next (mkRequest (Some ("Bearer " ++ tail)%string) (params_id req)
                          (body req) (Some (set_field "role" r decoded)))
              end
          end
      end).
    { intros tail. unfold authenticate, with_authorization.
      cbn [headers_authorization params_id body user].
      change (String.eqb ("Bearer " ++ tail) EmptyString) with false.
      rewrite starts_with_bearer. reflexivity. }
    split; [exact H1|]. split; [exact H2|].
    rewrite (Hauth token), (Hauth (token ++ " " ++ junk)%string), H1, H2.
    destruct (jwt_verify token JWT_SECRET) as [decoded|];
      [|split; [intros res; split; intros H; exact H|]].
    + destruct (opt_toUpperCase (get_field "role" decoded)) as [r|].
      * split; [split; discriminate|].
        intros u. split; intros (q & [= <-] & Hu); eexists; split;
          try reflexivity; exact Hu.
      * split; [intros res; split; intros H; exact H|].
        intros u. split; intros (q & Hq & _); discriminate.
    + intros u. split; intros (q & Hq & _); discriminate.
Qed.

(** X3. On a header of the right form whose token verifies, [authenticate]
    hands the request on with the decoded claims attached, the role in
    upper case (undefined when the token has none) and every other claim
    as decoded; a role claim that is not a string is answered 401
    "Invalid Token". *)
Theorem authenticate_attaches_claims :
  forall req auth token decoded,
    headers_authorization req = Some auth ->
    startsWith auth "Bearer " = true ->
    presented_token req = Some token ->
    jwt_verify token JWT_SECRET = Some decoded ->
    match normalized_role decoded with
    | Some r =>
        authenticate req = Next (with_user (set_field "role" r decoded) req) /\
        get_field "role" (set_field "role" r decoded) = r /\
        (forall k, k <> "role" ->
           get_field k (set_field "role" r decoded) = get_field k decoded)
    | None =>
        authenticate req = Respond (mkResponse 401 (failure "Invalid Token"))
    end.
Proof.
  intros req auth token decoded Hh Hs Ht Hv.
  assert (He : String.eqb auth EmptyString = false)
    by (destruct auth; [discriminate Hs|reflexivity]).
  unfold presented_token in Ht. rewrite Hh in Ht.
  assert (Ha : authenticate req =
    match opt_toUpperCase (get_field "role" decoded) with
    | Throw _ => Respond (mkResponse 401 (failure "Invalid Token"))
    | Normal r => Next (with_user (set_field "role" r decoded) req)
    end).
  { unfold authenticate, with_user. rewrite Hh, He, Hs. cbn [orb negb].
    rewrite Ht, Hv. reflexivity. }
  rewrite Ha. unfold normalized_role.
  destruct (get_field "role" decoded) as [| |b|n|r|xs|fs]; cbn [opt_toUpperCase];
    try reflexivity;
    (split; [reflexivity|split;
       [apply get_field_set_field_same
       |intros k Hk; now apply get_field_set_field_other]]).
Qed.

(** X4. The role guard lets a request through only with an identity whose
    role is a string of the permitted set, ignoring case, and hands it on
    as it came; it raises an error only for a role that is neither a
    string nor missing; with no permitted role it lets nothing through. *)
Theorem restrictTo_passes_only :
  forall allowedRoles req,
    (forall req', restrictTo allowedRoles req = Next req' ->
       req' = req /\ allowedRoles <> [] /\
       exists u r, user req = Some u /\ get_field "role" u = JStr r /\
                   role_permitted allowedRoles (JStr r) = true) /\
    (forall e, restrictTo allowedRoles req = Raise e ->
       exists u, user req = Some u /\ normalized_role u = None).
Proof.
  intros allowedRoles req. unfold restrictTo, normalized_role.
  destruct (user req) as [u|]; [|split; intros; discriminate].
  destruct (get_field "role" u) as [| |b|n|r|xs|fs] eqn:Hr;
    cbn [opt_toUpperCase]; cbv zeta;
    try (split; [discriminate
                |intros e _; exists u; split; [reflexivity|now rewrite Hr]]).
  - rewrite includes_undefined. split; intros; discriminate.
  - rewrite includes_undefined. split; intros; discriminate.
  - rewrite includes_upper. split; [|intros; destruct (role_permitted _ _); discriminate].
    intros req'. destruct (role_permitted allowedRoles (JStr r)) eqn:Hp;
      [|discriminate].
    intros [= <-]. split; [reflexivity|]. split.
    + intros ->. discriminate Hp.
    + exists u, r. auto.
Qed.

(** *** Logging in *)

(** X5. A login never writes to the store. It answers 400 "User not found"
    for an email no user has and 400 "Invalid password" when the password
    does not verify, 500 when the email is not a string, and carries a
    token in no answer but the 200. *)
Theorem login_refusals :
  forall env db req,
    snd (loginUser env db req) = db /\
    (forall email,
       get_field "email" (body req) = JStr email ->
       find_user_by_email db email = None ->
       loginUser env db req = (mkResponse 400 (failure "User not found"), db)) /\
    (forall email password u,
       get_field "email" (body req) = JStr email ->
       find_user_by_email db email = Some u ->
       get_field "password" (body req) = JStr password ->
       bcrypt_compare password (User.password u) = false ->
       loginUser env db req = (mkResponse 400 (failure "Invalid password"), db)) /\
    ((forall email, get_field "email" (body req) <> JStr email) ->
       status (fst (loginUser env db req)) = 500%Z) /\
    (field "token" (json (fst (loginUser env db req))) <> JUndefined ->
       status (fst (loginUser env db req)) = 200%Z).
Proof.
  intros env db req.
  unfold loginUser, user_findUnique_email, as_string, bcrypt_compare_js.
  split; [|split; [|split; [|split]]].
  - destruct (get_field "email" (body req)); try reflexivity. cbn [bind].
    destruct (find_user_by_email db s); [|reflexivity].
    destruct (get_field "password" (body req)); try reflexivity. cbn [bind].
    destruct (bcrypt_compare _ _); reflexivity.
  - intros email He Hf. rewrite He. cbn [bind]. now rewrite Hf.
  - intros email password u He Hf Hp Hc. rewrite He. cbn [bind].
    rewrite Hf, Hp. cbn [bind]. now rewrite Hc.
  - intros Hne. destruct (get_field "email" (body req)); try reflexivity.
    now elim (Hne s).
  - destruct (get_field "email" (body req)); try (intros H; now elim H).
    cbn [bind]. destruct (find_user_by_email db s); [|intros H; now elim H].
    destruct (get_field "password" (body req)); try (intros H; now elim H).
    cbn [bind]. destruct (bcrypt_compare _ _); [reflexivity|intros H; now elim H].
Qed.

Lemma find_user_by_email_new db u :
  find_user_by_email db (User.email u) = None ->
  find_user_by_email (mkStore (users db ++ [u]) (journals db)) (User.email u) = Some u.
Proof.
  unfold find_user_by_email. simpl. induction (users db) as [|x r IH]; simpl.
  - now rewrite String.eqb_refl.
  - destruct (String.eqb (User.email x) (User.email u)); [discriminate|exact IH].
Qed.

(** X6. Registering and then logging in. After a registration that succeeds,
    the stored password is the hash of the one given, and a login with
    the same email is answered 200 with the projection of the new user
    exactly when [bcrypt.compare] accepts the candidate password against
    that hash; otherwise it is answered 400 "Invalid password". *)
Theorem register_then_login :
  forall env db req email password name r,
    get_field "email" (body req) = JStr email ->
    get_field "password" (body req) = JStr password ->
    as_opt_string "name" (get_field "name" (body req)) = Normal name ->
    role_input (get_field "role" (body req)) = Some r ->
    find_user_by_email db email = None ->
    find_user_by_id db (uuid env) = None ->
    let u := User.mk (uuid env) name email (bcrypt_hash password (salt env)) r
               (store_clock env) (store_clock env) in
    let db' := snd (registerUser env db req) in
    find_user_by_email db' email = Some u /\
    forall env' req' candidate,
      get_field "email" (body req') = JStr email ->
      get_field "password" (body req') = JStr candidate ->
      loginUser env' db' req' =
        if bcrypt_compare candidate (bcrypt_hash password (salt env))
        then (login_success env' u, db')
        else (mkResponse 400 (failure "Invalid password"), db').
Proof.
  intros env db req email password name r He Hp Hn Hr Hnone Hid u db'.
  assert (Hreg := register_created env db req email password name r
                    He Hp Hn Hr Hnone Hid).
  cbv zeta in Hreg. fold u in Hreg.
  assert (Hfind : find_user_by_email db' email = Some u).
  { unfold db'. rewrite Hreg. cbn [snd].
    apply (find_user_by_email_new db u). exact Hnone. }
  split; [exact Hfind|].
  intros env' req' candidate He' Hp'.
  destruct (bcrypt_compare candidate (bcrypt_hash password (salt env))) eqn:Hc.
  - now apply login_accepts with (email := email) (password := candidate).
  - unfold loginUser, user_findUnique_email, as_string, bcrypt_compare_js.
    rewrite He', Hp'. cbn [bind]. rewrite Hfind. cbn [bind].
    change (User.password u) with (bcrypt_hash password (salt env)).
    now rewrite Hc.
Qed.

(** *** Creating a journal *)

Lemma strings_of_map (xs : list string) : strings_of (map JStr xs) = Normal xs.
Proof.
  induction xs as [|x r IH]; simpl; [reflexivity|]. now rewrite IH.
Qed.

Lemma journal_create_inv env db title content media mediaType teacherId connect j db' :
  journal_create env db title content media mediaType teacherId connect
  = Normal (j, db') ->
  exists t c m mt tid,
    title = JStr t /\ content = JStr c /\ media_arg media = Normal m /\
    as_MediaType mediaType = Normal mt /\ teacherId = JStr tid /\
    find_user_by_id db tid <> None /\ find_journal db (uuid env) = None /\
    related_ids db connect = Normal (Journal.taggedStudents j) /\
    j = Journal.mk (uuid env) t c m mt tid (Journal.taggedStudents j)
          (Some (store_clock env)) (store_clock env) (store_clock env) /\
    db' = mkStore (users db) (journals db ++ [j]).
Proof.
  unfold journal_create.
  destruct title as [| |?|?|t|?|?]; cbn [as_string bind]; try discriminate.
  destruct content as [| |?|?|c|?|?]; cbn [as_string bind]; try discriminate.
  destruct (media_arg media) as [m|]; cbn [bind]; [|discriminate].
  destruct (as_MediaType mediaType) as [mt|]; cbn [bind]; [|discriminate].
  destruct teacherId as [| |?|?|tid|?|?]; cbn [as_string bind]; try discriminate.
  destruct (related_ids db connect) as [tagged|]; cbn [bind]; [|discriminate].
  destruct (find_user_by_id db tid) eqn:Ht; [|discriminate].
  destruct (find_journal db (uuid env)) eqn:Hj; [discriminate|].
  intros [= <- <-]. exists t, c, m, mt, tid. cbn [Journal.taggedStudents].
  repeat split; auto; congruence.
Qed.

(** What a create that answers 201 has done: one journal is added at
    the end of the table, under the drawn identifier; its teacher is the
    caller of the token, its tagged students are those of the decoded
    list, each once, and its publish time is the instant of the store,
    whatever else the body holds. *)
Lemma createJournal_created env db req :
  status (fst (createJournal env db req)) = 201%Z ->
  exists j u tid items,
    createJournal env db req
    = (journal_response 201 "Journal created successfully"
         (mkStore (users db) (journals db ++ [j])) j,
       mkStore (users db) (journals db ++ [j])) /\
    user req = Some u /\ get_field "userId" u = JStr tid /\
    Journal.teacherId j = tid /\ find_user_by_id db tid <> None /\
    Journal.id j = uuid env /\ find_journal db (uuid env) = None /\
    Journal.publish_at j = Some (store_clock env) /\
    Journal.created_at j = store_clock env /\
    (match get_field "taggedStudents" (body req) with
     | JStr s => JSON_parse s = Normal (JArr items)
     | v => v = JArr items
     end) /\
    related_ids db items = Normal (Journal.taggedStudents j).
Proof.
  unfold createJournal, destructure_user.
  destruct (user req) as [u|]; [|simpl; discriminate]. cbn [bind].
  set (parsed := match get_field "taggedStudents" (body req) with
                 | JStr s => JSON_parse s
                 | _ => Normal (get_field "taggedStudents" (body req))
                 end).
  destruct parsed as [v|] eqn:Hparsed; [|simpl; discriminate]. cbn [bind].
  destruct (opt_toUpperCase (get_field "mediaType" (body req))) as [mt|];
    [|simpl; discriminate]. cbn [bind].
  destruct v as [| |?|?|?|items|?]; try (simpl; discriminate).
  cbn [array_items bind].
  destruct (journal_create env db _ _ _ _ _ items) as [[j db']|] eqn:C;
    [|simpl; discriminate].
  intros _. apply journal_create_inv in C.
  destruct C as (t & c & m & mt' & tid & _ & _ & _ & _ & Htid & Hu & Hfresh & Hrel & Hj & ->).
  exists j, u, tid, items.
  split; [reflexivity|]. split; [reflexivity|]. split; [exact Htid|].
  split; [rewrite Hj; reflexivity|]. split; [exact Hu|].
  split; [rewrite Hj; reflexivity|]. split; [exact Hfresh|].
  split; [rewrite Hj; reflexivity|]. split; [rewrite Hj; reflexivity|].
  split; [|exact Hrel].
  unfold parsed in Hparsed.
  destruct (get_field "taggedStudents" (body req)); try exact Hparsed;
    now inversion Hparsed.
Qed.

(** X7. A create succeeds for a stored teacher, a title, a content and a list
    of stored students, when the drawn identifier is new: the journal
    holds those students, is owned by the caller and is published at the
    instant of the store. A [publish_at] or a [teacherId] in the body has
    no effect. *)
Theorem create_journal_result :
  forall env db req u tid title content ids,
    user req = Some u -> get_field "userId" u = JStr tid ->
    find_user_by_id db tid <> None ->
    get_field "title" (body req) = JStr title ->
    get_field "content" (body req) = JStr content ->
    get_field "media" (body req) = JUndefined ->
    get_field "mediaType" (body req) = JUndefined ->
    get_field "taggedStudents" (body req) = JArr (map JStr ids) ->
    (forall i, In i ids -> find_user_by_id db i <> None) ->
    find_journal db (uuid env) = None ->
    exists tagged,
      (forall i, In i tagged <-> In i ids) /\ NoDup tagged /\
      let j := Journal.mk (uuid env) title content [] None tid tagged
                 (Some (store_clock env)) (store_clock env) (store_clock env) in
      let db' := mkStore (users db) (journals db ++ [j]) in
      createJournal env db req
      = (journal_response 201 "Journal created successfully" db' j, db').
Proof.
  intros env db req u tid title content ids Hu Hid Hteacher Ht Hc Hm Hmt Htags Hids Hfresh.
  destruct (related_ids_total db ids Hids) as [tagged Hrel].
  exists tagged.
  destruct (related_ids_spec db _ _ Hrel) as [Hin Hnd].
  split; [|split; [exact Hnd|]].
  - intros i. rewrite Hin. rewrite in_map_iff. split.
    + intros (x & [= ->] & Hx). exact Hx.
    + intros Hi. now exists i.
  - intros j db'. unfold createJournal, destructure_user.
    rewrite Hu. cbn [bind]. rewrite Hid, Ht, Hc, Hm, Hmt, Htags.
    cbn [opt_toUpperCase bind array_items].
    unfold journal_create. cbn [as_string bind js_or truthy media_arg strings_of as_MediaType].
    rewrite Hrel. cbn [bind].
    destruct (find_user_by_id db tid); [|now elim Hteacher].
    rewrite Hfresh. reflexivity.
Qed.

(** X8. A tag list sent as a JSON string is decoded first: the create does
    what it does with the decoded list; a string that does not parse is
    answered 500 with the parse error. *)
Theorem create_decodes_tag_string :
  forall env db req req' s,
    user req' = user req ->
    (forall k, k <> "taggedStudents" ->
       get_field k (body req') = get_field k (body req)) ->
    get_field "taggedStudents" (body req) = JStr s ->
    (forall v, JSON_parse s = Normal v ->
       (forall s', v <> JStr s') ->
       get_field "taggedStudents" (body req') = v ->
       createJournal env db req = createJournal env db req') /\
    (forall e, JSON_parse s = Throw e -> user req <> None ->
       createJournal env db req
       = (mkResponse 500 (JObj [("success", JBool false);
                                ("message", JStr "Journal creation failed");
                                ("error", JStr e)]), db)).
Proof.
  intros env db req req' s Huser Hsame Htags. split.
  - intros v Hparse Hnot Hv. unfold createJournal, destructure_user.
    rewrite Huser, Htags, Hv, Hparse.
    rewrite !Hsame by discriminate.
    destruct v; try reflexivity. now elim (Hnot s0).
  - intros e Hparse Hsome. unfold createJournal, destructure_user.
    destruct (user req); [|now elim Hsome].
    cbn [bind]. rewrite Htags, Hparse. reflexivity.
Qed.

Lemma listed_ids_journals_response message db rows :
  listed_ids (journals_response message db rows)
  = map (fun j => JStr (Journal.id j)) rows.
Proof.
  change (listed_ids (journals_response message db rows))
    with (map (field "id") (map (journal_json db) rows)).
  induction rows as [|j r IH]; [reflexivity|].
  cbn [map]. now rewrite IH.
Qed.

Lemma find_journal_new db j :
  find_journal db (Journal.id j) = None ->
  find_journal (mkStore (users db) (journals db ++ [j])) (Journal.id j) = Some j.
Proof.
  unfold find_journal. cbn [journals].
  induction (journals db) as [|x r IH]; cbn [app find].
  - now rewrite String.eqb_refl.
  - destruct (String.eqb (Journal.id x) (Journal.id j)); [discriminate|exact IH].
Qed.

(** X9. Creating and then reading back. After a create that answers 201
    the journal is stored under the drawn identifier: a read of that
    identifier answers 200 with it, and the feed of its teacher lists
    it. *)
Theorem create_then_read_back :
  forall env db req,
    status (fst (createJournal env db req)) = 201%Z ->
    exists j,
      let db' := snd (createJournal env db req) in
      In j (journals db') /\ Journal.id j = uuid env /\
      (forall env' req',
         params_id req' = uuid env ->
         getJournalById env' db' req'
         = (journal_response 200 "Journal fetched successfully" db' j, db')) /\
      (forall env' req' u,
         user req' = Some u ->
         get_field "userId" u = JStr (Journal.teacherId j) ->
         exists rows,
           getTeacherFeed env' db' req'
           = (journals_response "Teacher feed fetched successfully" db' rows, db') /\
           In j rows /\
           In (JStr (uuid env)) (listed_ids (fst (getTeacherFeed env' db' req')))).
Proof.
  intros env db req H201.
  destruct (createJournal_created env db req H201)
    as (j & u0 & tid & items & Hc & _ & _ & Htid & _ & Hid & Hfresh & _).
  exists j. rewrite Hc. cbn [snd].
  set (db' := mkStore (users db) (journals db ++ [j])).
  assert (Hin : In j (journals db')) by (apply in_or_app; right; now left).
  split; [exact Hin|]. split; [exact Hid|]. split.
  - intros env' req' Hp.
    unfold getJournalById, journal_findUnique. cbn [as_string bind].
    rewrite Hp, <- Hid. unfold db'. rewrite find_journal_new; [reflexivity|].
    now rewrite Hid.
  - intros env' req' u Hu Huid.
    assert (Hfeed : getTeacherFeed env' db' req'
      = (journals_response "Teacher feed fetched successfully" db'
           (filter (owned_by (Journal.teacherId j)) (journals db')), db')).
    { unfold getTeacherFeed, destructure_user. rewrite Hu. cbn [bind].
      rewrite Huid, findMany_teacher_feed. reflexivity. }
    assert (Hrow : In j (filter (owned_by (Journal.teacherId j)) (journals db'))).
    { apply filter_In. split; [exact Hin|]. unfold owned_by. apply String.eqb_refl. }
    eexists. split; [exact Hfeed|]. split; [exact Hrow|].
    rewrite Hfeed. cbn [fst]. rewrite listed_ids_journals_response, <- Hid.
    apply (in_map (fun x => JStr (Journal.id x))). exact Hrow.
Qed.

(** *** Updating, publishing and deleting a journal *)

Lemma replace_journal_other j' js j0 :
  Journal.id j0 <> Journal.id j' ->
  (In j0 (replace_journal j' js) <-> In j0 js).
Proof.
  intros Hne. unfold replace_journal. rewrite in_map_iff. split.
  - intros (x & Hx & Hin).
    destruct (String.eqb (Journal.id x) (Journal.id j')) eqn:E.
    + subst j0. now elim Hne.
    + now subst x.
  - intros Hin. exists j0. split; [|exact Hin].
    apply String.eqb_neq in Hne. now rewrite Hne.
Qed.

Lemma replace_journal_self j' js j :
  In j js -> Journal.id j = Journal.id j' -> In j' (replace_journal j' js).
Proof.
  intros Hin Hid. unfold replace_journal. apply in_map_iff.
  exists j. split; [|exact Hin]. now rewrite Hid, String.eqb_refl.
Qed.

Lemma replace_journal_ids j' js :
  map Journal.id (replace_journal j' js) = map Journal.id js.
Proof.
  unfold replace_journal. rewrite map_map. apply map_ext.
  intros x. destruct (String.eqb (Journal.id x) (Journal.id j')) eqn:E;
    [|reflexivity].
  apply String.eqb_eq in E. now symmetry.
Qed.

Lemma find_journal_In db i j : find_journal db i = Some j -> In j (journals db).
Proof. unfold find_journal. intros H. now apply find_some in H. Qed.

Lemma journal_update_full env db i title content media mediaType set j' db' :
  journal_update env db (JStr i) title content media mediaType set = Normal (j', db') ->
  exists j m t c mt,
    find_journal db i = Some j /\
    media_arg media = Normal m /\
    upd_string "title" title (Journal.title j) = Normal t /\
    upd_string "content" content (Journal.content j) = Normal c /\
    upd_MediaType mediaType (Journal.mediaType j) = Normal mt /\
    j' = Journal.mk (Journal.id j) t c m mt (Journal.teacherId j)
           (Journal.taggedStudents j') (Journal.publish_at j)
           (Journal.created_at j) (store_clock env) /\
    db' = mkStore (users db) (replace_journal j' (journals db)).
Proof.
  unfold journal_update. cbn [as_string bind].
  destruct (media_arg media) as [m|] eqn:Hm; cbn [bind]; [|discriminate].
  destruct (find_journal db i) as [j|]; [|discriminate].
  destruct (upd_string "title" title (Journal.title j)) as [t|] eqn:Ht;
    cbn [bind]; [|discriminate].
  destruct (upd_string "content" content (Journal.content j)) as [c|] eqn:Hc;
    cbn [bind]; [|discriminate].
  destruct (upd_MediaType mediaType (Journal.mediaType j)) as [mt|] eqn:Hmt;
    cbn [bind]; [|discriminate].
  destruct (related_ids db set) as [ids|]; cbn [bind]; [|discriminate].
  intros [= <- <-]. exists j, m, t, c, mt. cbn [Journal.taggedStudents].
  repeat split; auto.
Qed.

(** X10. What an update that answers 200 changes and what it keeps. The
    journal keeps its identifier, teacher, publish time and creation
    time, and is stamped by the store; a title or content that is left
    out is kept, one that is given is stored; a [media] that is left out
    empties the media list. The users and every other journal are as
    before. *)
Theorem update_effect :
  forall env db req,
    status (fst (updateJournal env db req)) = 200%Z ->
    exists j j',
      find_journal db (params_id req) = Some j /\
      snd (updateJournal env db req)
      = mkStore (users db) (replace_journal j' (journals db)) /\
      Journal.id j' = Journal.id j /\
      Journal.teacherId j' = Journal.teacherId j /\
      Journal.publish_at j' = Journal.publish_at j /\
      Journal.created_at j' = Journal.created_at j /\
      Journal.updated_at j' = store_clock env /\
      (truthy (get_field "media" (body req)) = false -> Journal.media j' = []) /\
      (forall k old new,
         In (k, old, new) [("title", Journal.title j, Journal.title j');
                           ("content", Journal.content j, Journal.content j')] ->
         (get_field k (body req) = JUndefined -> new = old) /\
         (forall s, get_field k (body req) = JStr s -> new = s)) /\
      (forall j0, Journal.id j0 <> params_id req ->
         (In j0 (journals (snd (updateJournal env db req))) <-> In j0 (journals db))).
Proof.
  intros env db req. unfold updateJournal.
  destruct (opt_toUpperCase (get_field "mediaType" (body req))) as [mt|];
    [|simpl; discriminate].
  cbn [bind].
  destruct (array_items (get_field "taggedStudents" (body req))) as [items|];
    [|simpl; discriminate].
  cbn [bind].
  destruct (journal_update env db _ _ _ _ _ items) as [[j' db']|] eqn:U;
    [|simpl; discriminate].
  intros _. cbn [catch500 snd].
  apply journal_update_full in U.
  destruct U as (j & m & t & c & mt' & Hj & Hm & Ht & Hc & _ & Hj' & ->).
  assert (Hid : Journal.id j = params_id req) by now apply find_journal_id in Hj.
  exists j, j'. split; [exact Hj|]. split; [reflexivity|].
  split; [rewrite Hj'; reflexivity|]. split; [rewrite Hj'; reflexivity|].
  split; [rewrite Hj'; reflexivity|]. split; [rewrite Hj'; reflexivity|].
  split; [rewrite Hj'; reflexivity|]. split; [|split].
  - intros Hfalsy. unfold js_or in Hm. rewrite Hfalsy in Hm.
    cbn [media_arg strings_of] in Hm. injection Hm as Hm.
    rewrite Hj'. cbn [Journal.media]. now symmetry.
  - intros k old new [[= <- <- <-]|[[= <- <- <-]|[]]]; rewrite Hj'; cbn.
    + split.
      * intros E. rewrite E in Ht. injection Ht as Ht. now symmetry.
      * intros s E. rewrite E in Ht. injection Ht as Ht. now symmetry.
    + split.
      * intros E. rewrite E in Hc. injection Hc as Hc. now symmetry.
      * intros s E. rewrite E in Hc. injection Hc as Hc. now symmetry.
  - intros j0 Hne. cbn [journals]. apply replace_journal_other.
    rewrite Hj'. cbn [Journal.id]. now rewrite Hid.
Qed.

(** X11. Publishing a journal that is not stored. The format check comes
    first: a truthy [publish_at] that does not round-trip is answered
    400; every other call is answered 500 "Failed to publish journal",
    where the route documents 404. The store is left as it was. *)
Theorem publish_missing_journal :
  forall env db req,
    find_journal db (params_id req) = None ->
    let v := get_field "publish_at" (body req) in
    snd (publishJournal env db req) = db /\
    (truthy v = true /\ ~ round_trips v ->
       publishJournal env db req = (publish_bad_request, db)) /\
    (truthy v = false \/ round_trips v ->
       status (fst (publishJournal env db req)) = 500%Z /\
       field "message" (json (fst (publishJournal env db req)))
       = JStr "Failed to publish journal").
Proof.
  intros env db req Hnone v.
  destruct (publishJournal_cases env db req) as [Hbad Hok].
  fold v in Hbad, Hok.
  assert (Hbad' : truthy v = true /\ ~ round_trips v ->
    publishJournal env db req = (publish_bad_request, db)).
  { intros [Ht Hn]. apply Hbad; [exact Ht|]. now apply not_round_trips_invalid. }
  assert (Hok' : truthy v = false \/ round_trips v ->
    exists e,
      publishJournal env db req
      = (mkResponse 500 (JObj [("success", JBool false);
                               ("message", JStr "Failed to publish journal");
                               ("error", JStr e)]), db)).
  { intros [Hf|Hr]; apply Hok; [now left|right; now apply isValidISODate_spec]. }
  split; [|split; [exact Hbad'|]].
  - destruct (truthy v) eqn:Ht.
    + destruct (isValidISODate v) eqn:Hv.
      * destruct Hok' as [e He]; [right; now apply isValidISODate_spec|].
        now rewrite He.
      * rewrite Hbad'; [reflexivity|]. split; [reflexivity|].
        intros Hr. apply isValidISODate_spec in Hr. congruence.
    + destruct Hok' as [e He]; [now left|]. now rewrite He.
  - intros H. destruct (Hok' H) as [e He]. rewrite He. split; reflexivity.
Qed.

(** X12. No publish goes through. The update the handler sends names
    [publish_at], which the Journal model of the schema does not declare:
    every call that is not answered 400 by the format check is answered
    500 "Failed to publish journal", for a stored journal and a well
    formed date too, and no call changes the store. *)
Theorem publish_never_goes_through :
  forall env db req,
    let v := get_field "publish_at" (body req) in
    snd (publishJournal env db req) = db /\
    (status (fst (publishJournal env db req)) = 400%Z \/
     status (fst (publishJournal env db req)) = 500%Z) /\
    (status (fst (publishJournal env db req)) = 500%Z <->
     truthy v = false \/ round_trips v) /\
    (status (fst (publishJournal env db req)) = 500%Z ->
     field "message" (json (fst (publishJournal env db req)))
     = JStr "Failed to publish journal" /\
     field "journal" (json (fst (publishJournal env db req))) = JUndefined) /\
    (forall j t,
       find_journal db (params_id req) = Some j ->
       (Z.abs t <= JSDate.maxTime)%Z -> v = JStr (JSDate.toISOString t) ->
       status (fst (publishJournal env db req)) = 500%Z).
Proof.
  intros env db req v.
  destruct (publishJournal_cases env db req) as [Hbad Hok].
  fold v in Hbad, Hok.
  assert (Hcases :
    (truthy v = true /\ isValidISODate v = false /\
     publishJournal env db req = (publish_bad_request, db)) \/
    ((truthy v = false \/ isValidISODate v = true) /\
     exists e,
       publishJournal env db req
       = (mkResponse 500 (JObj [("success", JBool false);
                                ("message", JStr "Failed to publish journal");
                                ("error", JStr e)]), db))).
  { destruct (truthy v) eqn:Ht.
    - destruct (isValidISODate v) eqn:Hv.
      + right. split; [now right|]. apply Hok. now right.
      + left. split; [reflexivity|]. split; [reflexivity|]. now apply Hbad.
    - right. split; [now left|]. apply Hok. now left. }
  assert (H500 : status (fst (publishJournal env db req)) = 500%Z <->
                 truthy v = false \/ round_trips v).
  { destruct Hcases as [(Ht & Hv & He)|([Hf|Hv] & e & He)]; rewrite He; cbn [fst status].
    - split; [discriminate|].
      intros [Hf|Hr]; [congruence|]. apply isValidISODate_spec in Hr. congruence.
    - split; [now left|reflexivity].
    - split; [intros _; right; now apply isValidISODate_spec|reflexivity]. }
  split; [|split; [|split; [exact H500|split]]].
  - destruct Hcases as [(_ & _ & He)|(_ & e & He)]; now rewrite He.
  - destruct Hcases as [(_ & _ & He)|(_ & e & He)]; rewrite He; [now left|now right].
  - destruct Hcases as [(_ & _ & He)|(_ & e & He)]; rewrite He.
    + discriminate.
    + intros _. split; reflexivity.
  - intros j t _ Hrange Hs. apply H500. right.
    apply round_trips_canonical. now exists t.
Qed.

(** X13. Deleting a stored journal answers 200 and removes it: the users and
    every other journal stay; afterwards the journal is in no list the
    store gives, a read of its identifier is answered 404 and a second
    delete 500. *)
Theorem delete_effect :
  forall env db req j,
    find_journal db (params_id req) = Some j ->
    let db' := snd (deleteJournal env db req) in
    deleteJournal env db req
    = (mkResponse 200 (JObj [("success", JBool true);
                             ("message", JStr "Journal deleted successfully")]),
       mkStore (users db)
         (filter (fun x => negb (String.eqb (Journal.id x) (params_id req)))
            (journals db))) /\
    (forall j0, In j0 (journals db') <->
                In j0 (journals db) /\ Journal.id j0 <> params_id req) /\
    find_journal db' (params_id req) = None /\
    (forall env' req', params_id req' = params_id req ->
       status (fst (getJournalById env' db' req')) = 404%Z /\
       status (fst (deleteJournal env' db' req')) = 500%Z /\
       snd (deleteJournal env' db' req') = db').
Proof.
  intros env db req j Hj db'.
  assert (Hd : deleteJournal env db req
    = (mkResponse 200 (JObj [("success", JBool true);
                             ("message", JStr "Journal deleted successfully")]),
       mkStore (users db)
         (filter (fun x => negb (String.eqb (Journal.id x) (params_id req)))
            (journals db)))).
  { unfold deleteJournal, journal_delete. cbn [as_string bind]. now rewrite Hj. }
  unfold db'. rewrite Hd. cbn [snd journals].
  assert (Hin : forall j0,
    In j0 (filter (fun x => negb (String.eqb (Journal.id x) (params_id req)))
             (journals db)) <->
    In j0 (journals db) /\ Journal.id j0 <> params_id req).
  { intros j0. rewrite filter_In, Bool.negb_true_iff, String.eqb_neq. reflexivity. }
  assert (Hnone : find_journal
    (mkStore (users db)
       (filter (fun x => negb (String.eqb (Journal.id x) (params_id req)))
          (journals db))) (params_id req) = None).
  { unfold find_journal. cbn [journals].
    destruct (find _ _) as [x|] eqn:F; [|reflexivity].
    apply find_some in F. destruct F as [F1 F2].
    apply Hin in F1. apply String.eqb_eq in F2. now elim (proj2 F1). }
  split; [reflexivity|]. split; [exact Hin|]. split; [exact Hnone|].
  intros env' req' Hsame.
  unfold getJournalById, journal_findUnique, deleteJournal, journal_delete.
  cbn [as_string bind]. rewrite Hsame, Hnone. repeat split; reflexivity.
Qed.

(* ------------------------------------------------------------------ *)
(** ** Listings and feeds *)

(** X14. The teacher feed is the caller's own journals and nothing else:
    the answer is 200 and lists exactly the journals whose [teacherId] is
    the [userId] of the token, whatever their publish time, in the order
    of the table. Without a decoded token the handler answers 500. *)
Theorem teacher_feed_exact :
  forall env db req,
    (forall u uid,
       user req = Some u -> get_field "userId" u = JStr uid ->
       let rows := filter (owned_by uid) (journals db) in
       let answer := fst (getTeacherFeed env db req) in
       snd (getTeacherFeed env db req) = db /\
       status answer = 200%Z /\
       json answer
       = JObj [("success", JBool true);
               ("message", JStr "Teacher feed fetched successfully");
               ("journals", JArr (map (journal_json db) rows))] /\
       listed_ids answer = map (fun j => JStr (Journal.id j)) rows /\
       (forall j, In j rows <-> In j (journals db) /\ Journal.teacherId j = uid)) /\
    (user req = None ->
       status (fst (getTeacherFeed env db req)) = 500%Z /\
       snd (getTeacherFeed env db req) = db).
Proof.
  intros env db req. split.
  - intros u uid Hu Hid rows answer.
    assert (Hfeed : getTeacherFeed env db req
      = (journals_response "Teacher feed fetched successfully" db rows, db)).
    { unfold getTeacherFeed, destructure_user. rewrite Hu. cbn [bind].
      rewrite Hid, findMany_teacher_feed. reflexivity. }
    unfold answer. rewrite Hfeed. cbn [fst snd].
    split; [reflexivity|]. split; [reflexivity|]. split; [reflexivity|].
    split; [apply listed_ids_journals_response|].
    intros j. unfold rows, owned_by. rewrite filter_In, String.eqb_eq. reflexivity.
  - intros Hu. unfold getTeacherFeed, destructure_user. rewrite Hu.
    split; reflexivity.
Qed.

(** X15. GET /feed and the teacher feed give a stored teacher the same
    journals, the caller's own; GET /feed gives them newest first. *)
Theorem feed_agrees_with_role_feeds :
  forall env db req u uid usr,
    user req = Some u -> get_field "userId" u = JStr uid ->
    find_user_by_id db uid = Some usr -> User.role usr = TEACHER ->
    let legacy := filter (owned_by uid) (journals db) in
    let rows := orderBy_created_at_desc legacy in
    feed env db req
    = (mkResponse 200
         (JObj [("success", JBool true);
                ("message", JStr "Teacher feed fetched successfully");
                ("journals", JArr (map (journal_json db) rows))]), db) /\
    getTeacherFeed env db req
    = (mkResponse 200
         (JObj [("success", JBool true);
                ("message", JStr "Teacher feed fetched successfully");
                ("journals", JArr (map (journal_json db) legacy))]), db) /\
    listed_ids (fst (feed env db req)) = map (fun j => JStr (Journal.id j)) rows /\
    newest_first rows /\
    Permutation rows legacy /\
    (forall j, In j rows <-> In j (journals db) /\ Journal.teacherId j = uid).
Proof.
  intros env db req u uid usr Hu Hid Hf Hrole legacy rows.
  assert (Hfeed := feed_cases env db req u uid Hu Hid).
  rewrite Hf, Hrole in Hfeed. fold legacy in Hfeed. fold rows in Hfeed.
  split; [exact Hfeed|]. split.
  { unfold getTeacherFeed, destructure_user. rewrite Hu. cbn [bind].
    rewrite Hid, findMany_teacher_feed. reflexivity. }
  split; [rewrite Hfeed; apply listed_ids_journals_response|].
  split; [apply orderBy_sorted|]. split; [apply orderBy_perm|].
  intros j. split.
  - intros Hin. apply (Permutation_in j (orderBy_perm legacy)) in Hin.
    unfold legacy, owned_by in Hin. rewrite filter_In, String.eqb_eq in Hin.
    exact Hin.
  - intros Hin. apply (Permutation_in j (Permutation_sym (orderBy_perm legacy))).
    unfold legacy, owned_by. rewrite filter_In, String.eqb_eq. exact Hin.
Qed.

(** X16. GET /journals behind [authenticate] answers 200 to any caller
    with a valid token and lists every stored journal, whoever its
    teacher and whoever is tagged on it, in the order of the table. *)
Theorem list_shows_every_journal :
  forall env db req0 req,
    authenticate req0 = Next req ->
    let answer := fst (route_journal_list env db req0) in
    snd (route_journal_list env db req0) = db /\
    status answer = 200%Z /\
    json answer
    = JObj [("success", JBool true);
            ("message", JStr "Journals fetched successfully");
            ("journals", JArr (map (journal_json db) (journals db)))] /\
    listed_ids answer = map (fun j => JStr (Journal.id j)) (journals db) /\
    (forall j, In j (journals db) -> In (JStr (Journal.id j)) (listed_ids answer)).
Proof.
  intros env db req0 req Hauth answer.
  assert (Hlist : route_journal_list env db req0
    = (journals_response "Journals fetched successfully" db (journals db), db)).
  { unfold route_journal_list. cbn [run_route]. rewrite Hauth. reflexivity. }
  assert (Hids : listed_ids answer = map (fun j => JStr (Journal.id j)) (journals db)).
  { unfold answer. rewrite Hlist. apply listed_ids_journals_response. }
  unfold answer in *. rewrite Hlist in *. cbn [fst snd] in *.
  split; [reflexivity|]. split; [reflexivity|]. split; [reflexivity|].
  split; [exact Hids|].
  intros j Hin. rewrite Hids. now apply (in_map (fun x => JStr (Journal.id x))).
Qed.

(** X17. The journal answers carry the stored password hash of the teacher
    and of every tagged student, which the answers of registration and
    login leave out. *)
Theorem journal_answers_carry_password_hashes :
  forall env db req j,
    find_journal db (params_id req) = Some j ->
    let answer := field "journal" (json (fst (getJournalById env db req))) in
    (forall t, find_user_by_id db (Journal.teacherId j) = Some t ->
       field "password" (field "teacher" answer) = JStr (User.password t) /\
       field "password" (sanitized t) = JUndefined) /\
    (forall i s, In i (Journal.taggedStudents j) -> find_user_by_id db i = Some s ->
       exists shown,
         field "taggedStudents" answer = JArr shown /\
         In (user_json s) shown /\
         field "password" (user_json s) = JStr (User.password s)).
Proof.
  intros env db req j Hj answer.
  assert (Ha : answer = journal_json db j).
  { unfold answer, getJournalById, journal_findUnique. cbn [as_string bind].
    rewrite Hj. reflexivity. }
  rewrite Ha. split.
  - intros t Ht. split; [|reflexivity].
    unfold journal_json. cbn. rewrite Ht. reflexivity.
  - intros i s Hi Hs. eexists. split; [reflexivity|]. split; [|reflexivity].
    apply in_map. clear Hj Ha answer.
    induction (Journal.taggedStudents j) as [|x r IH]; [contradiction|].
    cbn [users_of]. destruct Hi as [->|Hi].
    + rewrite Hs. now left.
    + destruct (find_user_by_id db x); [right|]; now apply IH.
Qed.

(* ------------------------------------------------------------------ *)
(** ** What the handlers do to the store *)

Ltac handler_step :=
  match goal with
  | |- context [catch500 _ _ (bind ?c _)] =>
      destruct c eqn:?; cbn [bind catch500 fst snd status]
  | |- context [catch500 _ _ (match ?x with _ => _ end)] =>
      destruct x eqn:?; cbn [bind catch500 fst snd status]
  end.

Ltac handler_cases :=
  cbv zeta;
  repeat first
    [ left; reflexivity
    | right; left; reflexivity
    | right; right; reflexivity
    | handler_step ].

Lemma readers_keep_store h :
  In h reading_handlers -> forall env db req, snd (h env db req) = db.
Proof.
  intros Hin env db req.
  assert (H : snd (h env db req) = db \/ False \/ False);
    [|destruct H as [H|[[]|[]]]; exact H].
  unfold reading_handlers in Hin. cbn [In] in Hin.
  destruct Hin as [<-|[<-|[<-|[<-|[<-|[<-|[]]]]]]].
  - unfold loginUser. handler_cases.
  - unfold getAllJournals. handler_cases.
  - unfold getJournalById. handler_cases.
  - unfold getTeacherFeed. handler_cases.
  - unfold getStudentFeed. handler_cases.
  - unfold feed. handler_cases.
Qed.

Lemma run_route_reads mws h :
  (forall env db req, snd (h env db req) = db) ->
  forall env db req, snd (run_route mws h env db req) = db.
Proof.
  intros Hh env db. induction mws as [|m rest IH]; intros req; cbn [run_route].
  - apply Hh.
  - destruct (m req); [reflexivity|apply IH|reflexivity].
Qed.

(** X18. The handlers that only read, the login among them, leave the store
    as it is on every request, and so does every route that ends in one
    of them, whatever middlewares stand before it. *)
Theorem reading_handlers_never_write :
  forall h, In h reading_handlers ->
  forall mws env db req,
    snd (h env db req) = db /\ snd (run_route mws h env db req) = db.
Proof.
  intros h Hin mws env db req. split.
  - now apply readers_keep_store.
  - apply run_route_reads. intros. now apply readers_keep_store.
Qed.

(** X19. A handler changes the store only when it answers 200 or 201: every
    answer of failure (400, 404, 500) leaves the store as it was. *)
Theorem store_changes_only_on_success :
  forall h, In h all_handlers ->
  forall env db req,
    snd (h env db req) = db \/
    status (fst (h env db req)) = 200%Z \/
    status (fst (h env db req)) = 201%Z.
Proof.
  intros h Hin env db req.
  unfold all_handlers in Hin. cbn [In] in Hin.
  destruct Hin as [<-|[<-|[<-|[<-|[<-|[<-|[<-|[<-|[<-|[<-|[<-|[]]]]]]]]]]]].
  - unfold registerUser. handler_cases.
  - unfold loginUser. handler_cases.
  - unfold createJournal. handler_cases.
  - unfold getAllJournals. handler_cases.
  - unfold getJournalById. handler_cases.
  - unfold updateJournal. handler_cases.
  - unfold publishJournal. handler_cases.
  - unfold deleteJournal. handler_cases.
  - unfold getTeacherFeed. handler_cases.
  - unfold getStudentFeed. handler_cases.
  - unfold feed. handler_cases.
Qed.

Lemma guarded_route_writes mws h env db req0 :
  snd (run_route (authenticate :: mws) h env db req0) <> db ->
  exists req, authenticate req0 = Next req /\
              snd (run_route mws h env db req) <> db.
Proof.
  cbn [run_route]. destruct (authenticate req0) as [res|req|e]; cbn [snd]; intros H.
  - now elim H.
  - now exists req.
  - now elim H.
Qed.

Lemma teacher_guard_passes req0 req req' :
  authenticate req0 = Next req ->
  restrictTo ["teacher"] req = Next req' ->
  req' = req /\
  exists u r, user req = Some u /\ get_field "role" u = JStr r /\
              toUpperCase r = "TEACHER".
Proof.
  intros Hauth Hguard.
  destruct (authenticated_role req0 req Hauth) as (u & Hu & [Hr|(r & Hr)]).
  - rewrite (restrictTo_undefined _ _ _ Hu Hr) in Hguard. discriminate.
  - rewrite (restrictTo_string _ _ _ _ Hu Hr) in Hguard.
    destruct (role_permitted ["teacher"] (JStr (toUpperCase r))) eqn:Hp;
      [|discriminate].
    split; [congruence|]. exists u, (toUpperCase r).
    split; [exact Hu|]. split; [exact Hr|].
    unfold role_permitted in Hp. cbn [existsb] in Hp.
    rewrite Bool.orb_false_r in Hp.
    apply String.eqb_eq in Hp. rewrite <- Hp. reflexivity.
Qed.

Lemma restricted_route_writes mws h env db req0 req :
  authenticate req0 = Next req ->
  snd (run_route (restrictTo ["teacher"] :: mws) h env db req) <> db ->
  exists u r, user req = Some u /\ get_field "role" u = JStr r /\
              toUpperCase r = "TEACHER".
Proof.
  intros Hauth. cbn [run_route].
  destruct (restrictTo ["teacher"] req) as [res|req'|e] eqn:Hg; cbn [snd]; intros H.
  - now elim H.
  - now destruct (teacher_guard_passes req0 req req' Hauth Hg).
  - now elim H.
Qed.

(** X20. Behind the route table, only a verified token whose role reads
    TEACHER can change the store: a request without a valid token, or
    with the token of a student or an administrator, leaves the store as
    it was on every protected route, whatever the upload middlewares do.
    The role claim is upper-cased by [authenticate] and again by the
    guard before it is compared: what the guard finds equal to TEACHER
    is the upper case of the upper-cased claim, which is the upper-cased
    claim itself for an ASCII claim, and for every claim by the
    stability of upper-casing. *)
Theorem only_teacher_tokens_write :
  forall uploadMiddleware uploadToCloudinary r,
    In r (protected_routes uploadMiddleware uploadToCloudinary) ->
    forall env db req0,
      snd (r env db req0) <> db ->
      exists token decoded role,
        presented_token req0 = Some token /\
        jwt_verify token JWT_SECRET = Some decoded /\
        get_field "role" decoded = JStr role /\
        toUpperCase (toUpperCase role) = "TEACHER" /\
        (toUpperCase_stable -> toUpperCase role = "TEACHER") /\
        (is_ascii role = true -> toUpperCase role = "TEACHER").
Proof.
  intros um uc r Hin env db req0 Hw.
  assert (Hteacher : exists req u attached,
    authenticate req0 = Next req /\ user req = Some u /\
    get_field "role" u = JStr attached /\ toUpperCase attached = "TEACHER").
  { assert (Hread : forall h mws, In h reading_handlers ->
      snd (run_route mws h env db req0) <> db -> False).
    { intros h mws Hh Hne. apply Hne. apply run_route_reads.
      intros. now apply readers_keep_store. }
    assert (Hguarded : forall h mws,
      snd (run_route (authenticate :: restrictTo ["teacher"] :: mws) h env db req0)
      <> db ->
      exists req u attached,
        authenticate req0 = Next req /\ user req = Some u /\
        get_field "role" u = JStr attached /\ toUpperCase attached = "TEACHER").
    { intros h mws Hne. apply guarded_route_writes in Hne.
      destruct Hne as (req & Hauth & Hne).
      destruct (restricted_route_writes _ _ _ _ _ _ Hauth Hne) as (u & a & Hu & Hr & Ha).
      now exists req, u, a. }
    unfold protected_routes in Hin. cbn [In] in Hin.
    unfold reading_handlers in Hread.
    destruct Hin as [<-|[<-|[<-|[<-|[<-|[<-|[<-|[<-|[<-|[]]]]]]]]]].
    - elim (Hread feed [authenticate]); [cbn [In]; auto 10|exact Hw].
    - elim (Hread getTeacherFeed [authenticate; restrictTo ["teacher"]]);
        [cbn [In]; auto 10|exact Hw].
    - elim (Hread getStudentFeed [authenticate; restrictTo ["student"]]);
        [cbn [In]; auto 10|exact Hw].
    - exact (Hguarded _ _ Hw).
    - elim (Hread getAllJournals [authenticate]); [cbn [In]; auto 10|exact Hw].
    - elim (Hread getJournalById [authenticate]); [cbn [In]; auto 10|exact Hw].
    - exact (Hguarded _ _ Hw).
    - exact (Hguarded _ _ Hw).
    - exact (Hguarded _ _ Hw). }
  destruct Hteacher as (req & u & attached & Hauth & Hu & Hrole & Hupper).
  destruct (authenticate_next req0 req Hauth) as (token & decoded & r' & Ht & Hv & Hup & Hreq).
  exists token, decoded.
  rewrite Hreq in Hu. cbn [user] in Hu. injection Hu as <-.
  rewrite get_field_set_field_same in Hrole. subst r'.
  unfold opt_toUpperCase in Hup.
  destruct (get_field "role" decoded) as [| | | |role| |] eqn:Hd; try discriminate.
  injection Hup as Hup. subst attached.
  exists role. split; [exact Ht|]. split; [exact Hv|]. split; [reflexivity|].
  split; [exact Hupper|]. split.
  - intros Hstable. now rewrite <- (Hstable role).
  - intros Hascii. now rewrite <- (toUpperCase_ascii_stable role Hascii).
Qed.

(** X21. The teacher routes do not look at whose journal it is: with the
    token of any teacher, DELETE removes a stored journal, and PUT, when
    no file is uploaded, updates it, whoever its [teacherId] names. *)
Theorem teacher_routes_ignore_ownership :
  forall env db req0 req u j,
    authenticate req0 = Next req ->
    user req = Some u -> get_field "role" u = JStr "TEACHER" ->
    find_journal db (params_id req0) = Some j ->
    route_journal_delete env db req0
    = (mkResponse 200 (JObj [("success", JBool true);
                             ("message", JStr "Journal deleted successfully")]),
       mkStore (users db)
         (filter (fun x => negb (String.eqb (Journal.id x) (params_id req0)))
            (journals db))) /\
    (forall uploadMiddleware ids,
       uploadMiddleware req = Next req ->
       get_field "taggedStudents" (body req0) = JArr (map JStr ids) ->
       (forall i, In i ids -> find_user_by_id db i <> None) ->
       (forall k, In k ["title"; "content"] ->
          get_field k (body req0) = JUndefined \/
          exists s, get_field k (body req0) = JStr s) ->
       get_field "media" (body req0) = JUndefined ->
       get_field "mediaType" (body req0) = JUndefined ->
       let answer := route_journal_put uploadMiddleware (uploadToCloudinary None)
                       env db req0 in
       status (fst answer) = 200%Z /\
       exists j',
         find_journal (snd answer) (params_id req0) = Some j' /\
         (forall i, In i (Journal.taggedStudents j') <-> In i ids)).
Proof.
  intros env db req0 req u j Hauth Hu Hrole Hj.
  assert (Hguard : restrictTo ["teacher"] req = Next req).
  { rewrite (restrictTo_string _ _ _ _ Hu Hrole). reflexivity. }
  destruct (authenticate_next req0 req Hauth) as (tk & dec & r' & _ & _ & _ & Hreq).
  assert (Hid : params_id req = params_id req0) by now rewrite Hreq.
  assert (Hbody : body req = body req0) by now rewrite Hreq.
  split.
  - unfold route_journal_delete. cbn [run_route]. rewrite Hauth, Hguard.
    unfold deleteJournal, journal_delete. cbn [as_string bind].
    rewrite Hid, Hj. reflexivity.
  - intros um ids Hum Htags Hids Hstr Hmedia Hmt answer.
    assert (Hput : answer = updateJournal env db req).
    { unfold answer, route_journal_put. cbn [run_route uploadToCloudinary].
      now rewrite Hauth, Hguard, Hum. }
    rewrite Hput. rewrite <- Hid, <- Hbody in *.
    assert (H200 := updateJournal_succeeds env db req j ids Hj Htags Hids Hstr
                      Hmedia Hmt).
    split; [exact H200|].
    destruct (updateJournal_ok env db req H200) as (items & j' & Hitems & Hf & Hin & _).
    exists j'. split; [exact Hf|].
    intros i. rewrite Hin. rewrite Htags in Hitems. injection Hitems as <-.
    rewrite in_map_iff. split.
    + intros (x & [= ->] & Hx). exact Hx.
    + intros Hi. now exists i.
Qed.

(* ------------------------------------------------------------------ *)
(** ** Uploads *)

Lemma ends_with_spec (suffix : string) : forall s,
  ends_with s suffix = true <-> exists stem, s = (stem ++ suffix)%string.
Proof.
  induction s as [|c r IH]; cbn [ends_with].
  - rewrite Bool.orb_false_r, String.eqb_eq. split.
    + intros ->. now exists EmptyString.
    + intros ([|c stem] & H); [exact H|discriminate].
  - rewrite Bool.orb_true_iff, String.eqb_eq, IH. split.
    + intros [->|(stem & ->)]; [now exists EmptyString|].
      now exists (String c stem).
    + intros ([|c' stem] & H); [now left|].
      right. exists stem. cbn [String.append] in H. congruence.
Qed.

(** X22. The file filter accepts exactly the names that end in a dot and one
    of the six extensions, in lower case; every other name fails the
    upload with the message of the filter. *)
Theorem fileFilter_accepts :
  forall file,
    (fileFilter file = Normal true <->
     exists stem ext,
       In ext upload_extensions /\
       originalname file = (stem ++ String "." ext)%string) /\
    (fileFilter file = Normal true \/
     fileFilter file = Throw "Only image and video files are allowed!").
Proof.
  intros file. unfold fileFilter.
  destruct (existsb _ upload_extensions) eqn:E.
  - split; [|now left]. split; [intros _|reflexivity].
    apply existsb_exists in E. destruct E as (ext & Hin & He).
    apply ends_with_spec in He. destruct He as (stem & He).
    now exists stem, ext.
  - split; [|now right]. split; [discriminate|].
    intros (stem & ext & Hin & He).
    assert (E' : existsb (fun ext => ends_with (originalname file) (String "." ext))
                   upload_extensions = true).
    { apply existsb_exists. exists ext. split; [exact Hin|].
      apply ends_with_spec. now exists stem. }
    congruence.
Qed.

(** A create or an update whose [media] is a non-empty string is refused
    by the store, whatever else the request holds. *)
Lemma createJournal_media_string env db req url :
  get_field "media" (body req) = JStr url -> url <> EmptyString ->
  exists e,
    createJournal env db req
    = (mkResponse 500 (JObj [("success", JBool false);
                             ("message", JStr "Journal creation failed");
                             ("error", JStr e)]), db).
Proof.
  intros Hm Hurl. unfold createJournal, destructure_user.
  destruct (user req) as [u|]; [|eexists; reflexivity]. cbn [bind].
  destruct (match get_field "taggedStudents" (body req) with
            | JStr s => JSON_parse s
            | _ => Normal (get_field "taggedStudents" (body req))
            end) as [v|]; [|eexists; reflexivity]. cbn [bind].
  destruct (opt_toUpperCase (get_field "mediaType" (body req))) as [mt|];
    [|eexists; reflexivity]. cbn [bind].
  destruct (array_items v) as [items|]; [|eexists; reflexivity]. cbn [bind].
  rewrite Hm. unfold journal_create, js_or, truthy.
  destruct (String.eqb url EmptyString) eqn:E;
    [apply String.eqb_eq in E; now elim Hurl|]. cbn [negb].
  destruct (as_string "title" (get_field "title" (body req)));
    [|eexists; reflexivity]. cbn [bind].
  destruct (as_string "content" (get_field "content" (body req)));
    [|eexists; reflexivity]. cbn [bind media_arg].
  eexists. reflexivity.
Qed.

Lemma updateJournal_media_string env db req url :
  get_field "media" (body req) = JStr url -> url <> EmptyString ->
  exists e,
    updateJournal env db req
    = (mkResponse 500 (JObj [("success", JBool false);
                             ("message", JStr "Failed to update journal");
                             ("error", JStr e)]), db).
Proof.
  intros Hm Hurl. unfold updateJournal.
  destruct (opt_toUpperCase (get_field "mediaType" (body req))) as [mt|];
    [|eexists; reflexivity]. cbn [bind].
  destruct (array_items (get_field "taggedStudents" (body req))) as [items|];
    [|eexists; reflexivity]. cbn [bind].
  rewrite Hm. unfold journal_update, js_or, truthy.
  destruct (String.eqb url EmptyString) eqn:E;
    [apply String.eqb_eq in E; now elim Hurl|].
  cbn [negb as_string bind media_arg].
  eexists. reflexivity.
Qed.

(** X23. The upload middleware writes the location and the kind of the
    uploaded file over the [media] and [mediaType] of the body and
    leaves every other field, the header and the claims alone; without a
    file the request passes unchanged. The location is one string, and
    the [media] column is a list: the create or the update that follows
    the upload of a file is refused by the store and answered 500,
    whatever else the request holds, and nothing is stored. *)
Theorem upload_breaks_create_and_update :
  forall f req,
    uploadToCloudinary None req = Next req /\
    exists req',
      uploadToCloudinary (Some f) req = Next req' /\
      get_field "media" (body req') = path f /\
      get_field "mediaType" (body req') = resource_type f /\
      (forall k, k <> "media" -> k <> "mediaType" ->
         get_field k (body req') = get_field k (body req)) /\
      user req' = user req /\ params_id req' = params_id req /\
      headers_authorization req' = headers_authorization req /\
      (forall env db url,
         path f = JStr url -> url <> EmptyString ->
         (status (fst (createJournal env db req')) = 500%Z /\
          field "message" (json (fst (createJournal env db req')))
          = JStr "Journal creation failed" /\
          snd (createJournal env db req') = db) /\
         (status (fst (updateJournal env db req')) = 500%Z /\
          field "message" (json (fst (updateJournal env db req')))
          = JStr "Failed to update journal" /\
          snd (updateJournal env db req') = db)).
Proof.
  intros f req. split; [reflexivity|].
  eexists. split; [reflexivity|]. cbn [body user params_id headers_authorization].
  assert (Hmedia : get_field "media"
            (set_field "mediaType" (resource_type f)
               (set_field "media" (path f) (body req))) = path f).
  { rewrite get_field_set_field_other by discriminate.
    apply get_field_set_field_same. }
  assert (Hkind : get_field "mediaType"
            (set_field "mediaType" (resource_type f)
               (set_field "media" (path f) (body req))) = resource_type f)
    by apply get_field_set_field_same.
  split; [exact Hmedia|]. split; [exact Hkind|]. split.
  { intros k H1 H2. now rewrite !get_field_set_field_other. }
  split; [reflexivity|]. split; [reflexivity|]. split; [reflexivity|].
  intros env db url Hpath Hurl.
  set (req' := mkRequest (headers_authorization req) (params_id req)
                 (set_field "mediaType" (resource_type f)
                    (set_field "media" (path f) (body req))) (user req)).
  assert (Hm : get_field "media" (body req') = JStr url)
    by (unfold req'; cbn [body]; now rewrite Hmedia).
  destruct (createJournal_media_string env db req' url Hm Hurl) as [e1 H1].
  destruct (updateJournal_media_string env db req' url Hm Hurl) as [e2 H2].
  rewrite H1, H2. repeat split.
Qed.

(* ------------------------------------------------------------------ *)
(** ** Integrity of the store *)

Lemma find_user_by_id_app db u js i :
  find_user_by_id db i <> None ->
  find_user_by_id (mkStore (users db ++ [u]) js) i <> None.
Proof.
  unfold find_user_by_id. cbn [users]. intros H.
  destruct (find (fun x => String.eqb (User.id x) i) (users db)) as [x|] eqn:F;
    [|now elim H].
  apply find_some in F. destruct F as [Hin He].
  destruct (find _ (users db ++ [u])) eqn:F'; [discriminate|].
  assert (Hf := find_none _ _ F' x (in_or_app _ _ _ (or_introl Hin))).
  cbv beta in Hf. congruence.
Qed.

Lemma journal_ok_users db db' j :
  (forall i, find_user_by_id db i <> None -> find_user_by_id db' i <> None) ->
  journal_ok db j -> journal_ok db' j.
Proof.
  intros Hu (Ht & Hn & Hs). split; [now apply Hu|]. split; [exact Hn|].
  eapply Forall_impl; [|exact Hs]. intros i. apply Hu.
Qed.

Lemma journal_ok_same_users db db' j :
  users db' = users db -> journal_ok db j -> journal_ok db' j.
Proof.
  intros Hu. apply journal_ok_users. intros i.
  unfold find_user_by_id. now rewrite Hu.
Qed.

Lemma related_ids_stored db vs : forall ids,
  related_ids db vs = Normal ids ->
  Forall (fun i => find_user_by_id db i <> None) ids.
Proof.
  induction vs as [|v r IH]; cbn [related_ids]; intros ids H.
  - injection H as <-. constructor.
  - destruct v as [| |?|?|i|?|?]; cbn [as_string bind] in H; try discriminate.
    destruct (find_user_by_id db i) eqn:F; [|discriminate].
    destruct (related_ids db r) as [ids'|]; cbn [bind] in H; [|discriminate].
    injection H as <-. specialize (IH ids' eq_refl).
    destruct (existsb (String.eqb i) ids'); [exact IH|].
    constructor; [congruence|exact IH].
Qed.

Lemma not_in_map_find {A} (key : A -> string) (l : list A) (k : string) :
  find (fun x => String.eqb (key x) k) l = None -> ~ In k (map key l).
Proof.
  intros F Hin. apply in_map_iff in Hin. destruct Hin as (x & Hk & Hx).
  assert (Hf := find_none _ _ F x Hx). cbv beta in Hf.
  rewrite Hk, String.eqb_refl in Hf. discriminate.
Qed.

Lemma NoDup_snoc {A} (l : list A) (a : A) :
  NoDup l -> ~ In a l -> NoDup (l ++ [a]).
Proof.
  intros Hn Ha. apply NoDup_app; [exact Hn|repeat constructor; intros []|].
  intros x Hx [<-|[]]. now apply Ha.
Qed.

(** Dropping rows keeps the identifiers of a table distinct. *)
Lemma filter_keeps_ids_distinct (keep : Journal.t -> bool) (js : list Journal.t) :
  NoDup (map Journal.id js) -> NoDup (map Journal.id (filter keep js)).
Proof.
  induction js as [|j r IH]; cbn [map filter]; intros H; [constructor|].
  apply NoDup_cons_iff in H. destruct H as [Hn Hr].
  destruct (keep j); [|now apply IH]. cbn [map].
  apply NoDup_cons_iff. split; [|now apply IH].
  intros Hin. apply Hn. apply in_map_iff in Hin.
  destruct Hin as (x & Hx & Hf). apply filter_In in Hf.
  apply in_map_iff. exists x. split; [exact Hx|apply Hf].
Qed.

Lemma user_create_ok env db name email password role u db' :
  store_ok db ->
  user_create env db name email password role = Normal (u, db') ->
  store_ok db'.
Proof.
  intros (He & Hi & Hj & Hok). unfold user_create.
  destruct (as_opt_string "name" name) as [n|]; cbn [bind]; [|discriminate].
  destruct email as [| |?|?|e|?|?]; cbn [as_string bind]; try discriminate.
  destruct password as [| |?|?|p|?|?]; cbn [as_string bind]; try discriminate.
  destruct (as_Role role) as [r|]; cbn [bind]; [|discriminate].
  destruct (find_user_by_email db e) eqn:Fe; [discriminate|].
  destruct (find_user_by_id db (uuid env)) eqn:Fi; [discriminate|].
  intros [= <- <-]. unfold store_ok. cbn [users journals].
  rewrite !map_app. cbn [map User.email User.id].
  split; [apply NoDup_snoc; [exact He|now apply not_in_map_find]|].
  split; [apply NoDup_snoc; [exact Hi|now apply not_in_map_find]|].
  split; [exact Hj|].
  eapply Forall_impl; [|exact Hok]. intros j. apply journal_ok_users.
  intros i. apply find_user_by_id_app.
Qed.

Lemma journal_create_ok env db title content media mediaType teacherId connect j db' :
  store_ok db ->
  journal_create env db title content media mediaType teacherId connect
  = Normal (j, db') ->
  store_ok db'.
Proof.
  intros (He & Hi & Hj & Hok) C. apply journal_create_inv in C.
  destruct C as (t & c & m & mt & tid & _ & _ & _ & _ & _ & Ht & Hfresh & Hrel & Hjeq & ->).
  unfold store_ok. cbn [users journals].
  split; [exact He|]. split; [exact Hi|]. split.
  - rewrite map_app. cbn [map]. apply NoDup_snoc; [exact Hj|].
    rewrite Hjeq. cbn [Journal.id]. now apply not_in_map_find.
  - apply Forall_app. split.
    + eapply Forall_impl; [|exact Hok]. intros x.
      now apply journal_ok_same_users.
    + constructor; [|constructor].
      apply journal_ok_same_users with (db := db); [reflexivity|].
      split; [rewrite Hjeq; exact Ht|].
      split; [now apply related_ids_spec in Hrel|].
      now apply related_ids_stored in Hrel.
Qed.

Lemma replace_journal_ok db j j' :
  store_ok db -> In j (journals db) ->
  Journal.id j' = Journal.id j ->
  journal_ok db j' ->
  store_ok (mkStore (users db) (replace_journal j' (journals db))).
Proof.
  intros (He & Hi & Hj & Hok) Hin Hid Hj'.
  unfold store_ok. cbn [users journals].
  split; [exact He|]. split; [exact Hi|]. split.
  - now rewrite replace_journal_ids.
  - unfold replace_journal. apply Forall_forall. intros x Hx.
    apply in_map_iff in Hx. destruct Hx as (y & Hy & Hyin).
    apply journal_ok_same_users with (db := db); [reflexivity|].
    destruct (String.eqb (Journal.id y) (Journal.id j')); subst x; [exact Hj'|].
    now apply (proj1 (Forall_forall _ _) Hok).
Qed.

Lemma journal_update_ok env db i title content media mediaType set j' db' :
  store_ok db ->
  journal_update env db (JStr i) title content media mediaType set = Normal (j', db') ->
  store_ok db'.
Proof.
  intros Hok U.
  assert (U' := U). apply journal_update_inv in U'.
  destruct U' as (j0 & _ & Hrel & _ & _).
  apply journal_update_full in U.
  destruct U as (j & m & t & c & mt & Hf & _ & _ & _ & _ & Hj' & ->).
  apply replace_journal_ok with (j := j); [exact Hok|now apply find_journal_In in Hf| |].
  - rewrite Hj'. reflexivity.
  - destruct Hok as (_ & _ & _ & Hall).
    assert (Hjok := proj1 (Forall_forall _ _) Hall j (find_journal_In _ _ _ Hf)).
    split; [rewrite Hj'; apply Hjok|].
    split; [now apply related_ids_spec in Hrel|].
    now apply related_ids_stored in Hrel.
Qed.

Lemma journal_update_publish_at_ok env db i t j' db' :
  store_ok db ->
  journal_update_publish_at env db i t = Normal (j', db') ->
  store_ok db'.
Proof. intros _. discriminate. Qed.

Lemma journal_delete_ok db i j db' :
  store_ok db ->
  journal_delete db (JStr i) = Normal (j, db') ->
  store_ok db'.
Proof.
  intros (He & Hi & Hj & Hok). unfold journal_delete. cbn [as_string bind].
  destruct (find_journal db i); [|discriminate].
  intros [= _ <-]. unfold store_ok. cbn [users journals].
  split; [exact He|]. split; [exact Hi|].
  split; [now apply filter_keeps_ids_distinct|].
  apply Forall_forall. intros x Hx. apply filter_In in Hx.
  apply journal_ok_same_users with (db := db); [reflexivity|].
  now apply (proj1 (Forall_forall _ _) Hok).
Qed.

Ltac keeps_store_ok :=
  cbv zeta;
  repeat first
    [ assumption
    | eapply user_create_ok; eassumption
    | eapply journal_create_ok; eassumption
    | eapply journal_update_ok; eassumption
    | eapply journal_update_publish_at_ok; eassumption
    | eapply journal_delete_ok; eassumption
    | handler_step ].

Lemma handler_keeps_store_ok h :
  In h all_handlers ->
  forall env db req, store_ok db -> store_ok (snd (h env db req)).
Proof.
  intros Hin env db req Hok.
  unfold all_handlers in Hin. cbn [In] in Hin.
  destruct Hin as [<-|[<-|[<-|[<-|[<-|[<-|[<-|[<-|[<-|[<-|[<-|[]]]]]]]]]]]].
  - unfold registerUser. keeps_store_ok.
  - unfold loginUser. keeps_store_ok.
  - unfold createJournal. keeps_store_ok.
  - unfold getAllJournals. keeps_store_ok.
  - unfold getJournalById. keeps_store_ok.
  - unfold updateJournal. keeps_store_ok.
  - unfold publishJournal. keeps_store_ok.
  - unfold deleteJournal. keeps_store_ok.
  - unfold getTeacherFeed. keeps_store_ok.
  - unfold getStudentFeed. keeps_store_ok.
  - unfold feed. keeps_store_ok.
Qed.

(** X24. The constraints of the schema are an invariant of the application:
    from a store with unique emails and identifiers, whose journals name
    stored users as teacher and tagged students, each student once,
    every handler, and every route that ends in one, gives such a store
    again, on every request. *)
Theorem handlers_keep_store_ok :
  forall h, In h all_handlers ->
  forall mws env db req,
    store_ok db ->
    store_ok (snd (h env db req)) /\
    store_ok (snd (run_route mws h env db req)).
Proof.
  intros h Hin mws env db req Hok. split; [now apply handler_keeps_store_ok|].
  revert req. induction mws as [|m rest IH]; intros req; cbn [run_route].
  - now apply handler_keeps_store_ok.
  - destruct (m req); [exact Hok|apply IH|exact Hok].
Qed.

(* ------------------------------------------------------------------ *)
(** ** From login to the feeds *)

Lemma authenticate_bearer req token decoded r :
  headers_authorization req = Some ("Bearer " ++ token)%string ->
  has_char " " token = false ->
  jwt_verify token JWT_SECRET = Some decoded ->
  opt_toUpperCase (get_field "role" decoded) = Normal r ->
  authenticate req
  = Next (mkRequest (headers_authorization req) (params_id req) (body req)
            (Some (set_field "role" r decoded))).
Proof.
  intros Hh Htok Hv Hr. unfold authenticate. rewrite Hh.
  change (String.eqb ("Bearer " ++ token) EmptyString) with false.
  rewrite starts_with_bearer. cbn [orb negb].
  rewrite split_bearer. cbn [nth_error].
  rewrite (split_acc_single " " token EmptyString Htok).
  change (EmptyString ++ token)%string with token.
  rewrite Hv, Hr. reflexivity.
Qed.

Lemma find_user_by_id_In db u :
  NoDup (map User.id (users db)) -> In u (users db) ->
  find_user_by_id db (User.id u) = Some u.
Proof.
  unfold find_user_by_id. induction (users db) as [|x r IH]; cbn [map find In].
  - intros _ [].
  - intros Hn [->|Hin].
    + now rewrite String.eqb_refl.
    + inversion Hn as [|? ? Hx Hr]; subst.
      destruct (String.eqb (User.id x) (User.id u)) eqn:E; [|now apply IH].
      apply String.eqb_eq in E. elim Hx. rewrite E. now apply in_map.
Qed.

(** X25. The token of a login is bound to the user who logged in. When
    the verification of the issued token gives back the [userId] and the
    role that were signed, a request that presents it as [Bearer] is
    served by the role of that user: a teacher gets the own journals on
    /teacher and, newest first, on /feed, and 403 on /student; a student
    gets 403 on /teacher, and 500 on /student and on /feed, where the
    query is refused; an administrator gets 403 on both and 400 on
    /feed. *)
Theorem login_then_feeds :
  forall env db req email password u decoded,
    store_ok db ->
    get_field "email" (body req) = JStr email ->
    get_field "password" (body req) = JStr password ->
    find_user_by_email db email = Some u ->
    bcrypt_compare password (User.password u) = true ->
    let token := jwt_sign (clock env) (token_payload u) JWT_SECRET in
    has_char " " token = false ->
    jwt_verify token JWT_SECRET = Some decoded ->
    get_field "userId" decoded = JStr (User.id u) ->
    get_field "role" decoded = JStr (Role_name (User.role u)) ->
    field "token" (json (fst (loginUser env db req))) = JStr token /\
    forall env' req1,
      headers_authorization req1 = Some ("Bearer " ++ token)%string ->
      match User.role u with
      | TEACHER =>
          route_user_teacher env' db req1
          = (mkResponse 200
               (JObj [("success", JBool true);
                      ("message", JStr "Teacher feed fetched successfully");
                      ("journals",
                       JArr (map (journal_json db)
                               (filter (owned_by (User.id u)) (journals db))))]),
             db) /\
          route_user_feed env' db req1
          = (mkResponse 200
               (JObj [("success", JBool true);
                      ("message", JStr "Teacher feed fetched successfully");
                      ("journals",
                       JArr (map (journal_json db)
                               (orderBy_created_at_desc
                                  (filter (owned_by (User.id u)) (journals db)))))]),
             db) /\
          status (fst (route_user_student env' db req1)) = 403%Z
      | STUDENT =>
          status (fst (route_user_teacher env' db req1)) = 403%Z /\
          status (fst (route_user_student env' db req1)) = 500%Z /\
          status (fst (route_user_feed env' db req1)) = 500%Z
      | ADMIN =>
          status (fst (route_user_teacher env' db req1)) = 403%Z /\
          status (fst (route_user_student env' db req1)) = 403%Z /\
          status (fst (route_user_feed env' db req1)) = 400%Z
      end.
Proof.
  intros env db req email password u decoded Hok He Hp Hf Hc token Htok Hv Hid Hrole.
  split.
  - rewrite (login_accepts env db req email password u He Hp Hf Hc).
    unfold token, login_success, jwt_sign, token_payload.
    destruct (User.name u); reflexivity.
  - intros env' req1 Hh.
    assert (Hup : opt_toUpperCase (get_field "role" decoded)
                  = Normal (JStr (Role_name (User.role u)))).
    { rewrite Hrole. cbn [opt_toUpperCase]. now rewrite Role_name_upper. }
    assert (Hauth := authenticate_bearer req1 token decoded _ Hh Htok Hv Hup).
    set (req' := mkRequest (headers_authorization req1) (params_id req1) (body req1)
                   (Some (set_field "role" (JStr (Role_name (User.role u))) decoded)))
      in Hauth.
    assert (Hu : user req'
                 = Some (set_field "role" (JStr (Role_name (User.role u))) decoded))
      by reflexivity.
    assert (Hid' : get_field "userId"
                     (set_field "role" (JStr (Role_name (User.role u))) decoded)
                   = JStr (User.id u)).
    { rewrite get_field_set_field_other by discriminate. exact Hid. }
    assert (Hrole' : get_field "role"
                       (set_field "role" (JStr (Role_name (User.role u))) decoded)
                     = JStr (Role_name (User.role u)))
      by apply get_field_set_field_same.
    assert (Hstored : find_user_by_id db (User.id u) = Some u).
    { apply find_user_by_id_In; [apply Hok|].
      now apply find_user_by_email_some in Hf. }
    assert (Hfeed : route_user_feed env' db req1 = feed env' db req').
    { unfold route_user_feed. cbn [run_route]. now rewrite Hauth. }
    assert (Hcases := feed_cases env' db req' _ (User.id u) Hu Hid').
    rewrite Hstored in Hcases. rewrite <- Hfeed in Hcases.
    assert (Hteacher : route_user_teacher env' db req1
      = if role_permitted ["teacher"] (JStr (Role_name (User.role u)))
        then getTeacherFeed env' db req'
        else (forbidden ["teacher"] (JStr (toUpperCase (Role_name (User.role u)))), db)).
    { unfold route_user_teacher. cbn [run_route]. rewrite Hauth.
      rewrite (restrictTo_string _ _ _ _ Hu Hrole').
      destruct (role_permitted ["teacher"] (JStr (Role_name (User.role u)))); reflexivity. }
    assert (Hstudent : route_user_student env' db req1
      = if role_permitted ["student"] (JStr (Role_name (User.role u)))
        then getStudentFeed env' db req'
        else (forbidden ["student"] (JStr (toUpperCase (Role_name (User.role u)))), db)).
    { unfold route_user_student. cbn [run_route]. rewrite Hauth.
      rewrite (restrictTo_string _ _ _ _ Hu Hrole').
      destruct (role_permitted ["student"] (JStr (Role_name (User.role u)))); reflexivity. }
    rewrite Hteacher, Hstudent.
    destruct (User.role u) eqn:Er.
    + change (role_permitted ["student"] (JStr (Role_name STUDENT))) with true.
      change (role_permitted ["teacher"] (JStr (Role_name STUDENT))) with false.
      cbv iota. split; [reflexivity|]. split; [|apply Hcases].
      apply getStudentFeed_fails.
    + change (role_permitted ["student"] (JStr (Role_name TEACHER))) with false.
      change (role_permitted ["teacher"] (JStr (Role_name TEACHER))) with true.
      cbv iota. split; [|split; [exact Hcases|reflexivity]].
      unfold getTeacherFeed, destructure_user. rewrite Hu. cbn [bind].
      rewrite Hid', findMany_teacher_feed. reflexivity.
    + change (role_permitted ["student"] (JStr (Role_name ADMIN))) with false.
      change (role_permitted ["teacher"] (JStr (Role_name ADMIN))) with false.
      cbv iota. split; [reflexivity|]. split; [reflexivity|].
      now rewrite Hcases.
Qed.
End Backend.

(* ------------------------------------------------------------------ *)
(** ** The properties on the sample school *)

Import Sample.

(** A request with Basic credentials is answered 401 before anything
    else on the route runs. *)
Lemma authenticate_rejects_witness :
  rejected secret verify basic_auth /\
  exists message,
    message = "Unauthorized - No token provided" /\
    forall rest h,
      run_route (authenticate secret verify upper_other :: rest) h env db basic_auth
      = (mkResponse 401 (failure message), db).
Proof.
  assert (H : rejected secret verify basic_auth) by (left; reflexivity).
  split; [exact H|].
  destruct (authenticate_rejects_before_handlers secret verify upper_other parse
              parse_other of_object basic_auth H) as (message & Hm & _ & _ & Hr & _).
  exists message. split.
  - apply Hm. reflexivity.
  - intros rest h. apply Hr.
Defined.

(** A student who asks to delete a journal is let through by
    [authenticate] and answered 403 by the guard. *)
Lemma restrictTo_guard_witness :
  authenticate secret verify upper_other student_deletes
  = Next (authenticated "token-of-s1" "s1" "STUDENT" "j1" []) /\
  restrictTo upper_other ["teacher"] (authenticated "token-of-s1" "s1" "STUDENT" "j1" [])
  = Respond (forbidden ["teacher"] (JStr "STUDENT")) /\
  status (fst (route_journal_delete secret verify upper_other env db student_deletes))
  = 403%Z.
Proof.
  assert (Ha : authenticate secret verify upper_other student_deletes
               = Next (authenticated "token-of-s1" "s1" "STUDENT" "j1" []))
    by reflexivity.
  split; [exact Ha|].
  destruct (restrictTo_guard secret verify upper_other ["teacher"]) as (_ & H2 & H3).
  split.
  - destruct (H2 _ _ Ha) as (u & Hu & Hno & _).
    injection Hu as <-.
    destruct (Hno eq_refl) as (userRole & Hup & Hr & _).
    injection Hup as <-. exact Hr.
  - unfold route_journal_delete.
    rewrite (H3 _ _ _ Ha eq_refl eq_refl). reflexivity.
Defined.

(** C1, on the sample school. Student s1 is tagged on the journal j1,
    published at 1000, and asks for the student feed at 2000: the claim
    has j1 in the feed; the handler answers 500 and lists nothing,
    because its query filters on [publish_at], which the Journal model
    of the schema does not declare. *)
Example student_feed_answers_500 :
  In published (journals db) /\
  in_student_feed "s1" (clock env) published /\
  authenticate secret verify upper_other student_reads_feed
  = Next (authenticated "token-of-s1" "s1" "STUDENT" EmptyString []) /\
  status (fst (route_user_student secret verify upper_other env db student_reads_feed))
  = 500%Z /\
  field "message"
    (json (fst (route_user_student secret verify upper_other env db student_reads_feed)))
  = JStr "Failed to get student feed" /\
  field "journals"
    (json (fst (route_user_student secret verify upper_other env db student_reads_feed)))
  = JUndefined /\
  status (fst (getStudentFeed env db
                 (authenticated "token-of-s1" "s1" "STUDENT" EmptyString [])))
  = 500%Z.
Proof.
  split; [left; reflexivity|]. split.
  - split; [left; reflexivity|].
    right. exists 1000%Z. split; [reflexivity|]. vm_compute. discriminate.
  - repeat split.
Qed.

(** C8, on the sample school. The store holds s1 as STUDENT: GET /feed
    with the token of s1 is answered 500, where the claim has the student
    feed; the query of the student branch filters on [publish_at] like
    the student feed handler. The other branches answer as the claim
    says: the teacher gets the own journals newest first, a token for no
    stored user 404, and the administrator, whose token says STUDENT,
    400 with the stored role. *)
Example feed_of_stored_student_500 :
  find_user_by_id db "s1" = Some student1 /\
  User.role student1 = STUDENT /\
  status (fst (route_user_feed secret verify upper_other env db student_reads_feed))
  = 500%Z /\
  field "message"
    (json (fst (route_user_feed secret verify upper_other env db student_reads_feed)))
  = JStr "Failed to get feed" /\
  field "journals"
    (json (fst (route_user_feed secret verify upper_other env db student_reads_feed)))
  = JUndefined /\
  route_user_feed secret verify upper_other env db
    (request (bearer "token-of-t1") EmptyString [])
  = (mkResponse 200
       (JObj [("success", JBool true);
              ("message", JStr "Teacher feed fetched successfully");
              ("journals", JArr (map (journal_json db)
                                   [undated; scheduled; published]))]), db) /\
  status (fst (route_user_feed secret verify upper_other env db
                 (request (bearer "token-of-gone") EmptyString []))) = 404%Z /\
  route_user_feed secret verify upper_other env db
    (request (bearer "token-of-a1") EmptyString [])
  = (mkResponse 400
       (JObj [("success", JBool false);
              ("message", JStr "Invalid user role. Must be either 'teacher' or 'student'");
              ("userRole", JStr "ADMIN")]), db).
Proof. repeat split. Qed.

(** The claim C6 as stated fails on the login of Sam: the claims the
    token encodes are five, the issue time among them, not the four of
    the user alone. *)
Lemma login_token_carries_iat :
  field "token" (json (fst (loginUser secret encode_names compare env db login_sam)))
  = JStr "userId,name,email,role,iat" /\
  jwt_sign encode_names (clock env) (token_payload student1) secret
  = encode_names [("userId", JStr "s1"); ("name", JStr "Sam");
                  ("email", JStr "sam@school.org"); ("role", JStr "STUDENT");
                  ("iat", JNum 2)] secret /\
  map fst [("userId", JStr "s1"); ("name", JStr "Sam");
           ("email", JStr "sam@school.org"); ("role", JStr "STUDENT");
           ("iat", JNum 2)]
  <> ["userId"; "name"; "email"; "role"].
Proof.
  split; [reflexivity|]. split; [reflexivity|]. discriminate.
Qed.

(** Sam logs in and gets the token of his four claims and the issue
    time. *)
Lemma login_token_witness :
  status (fst (loginUser secret encode compare env db login_sam)) = 200%Z /\
  json (fst (loginUser secret encode compare env db login_sam))
  = JObj [("success", JBool true);
          ("message", JStr "User logged in successfully");
          ("user", JObj [("id", JStr "s1"); ("name", JStr "Sam");
                         ("email", JStr "sam@school.org");
                         ("role", JStr "STUDENT")]);
          ("token", JStr (encode [("userId", JStr "s1"); ("name", JStr "Sam");
                                  ("email", JStr "sam@school.org");
                                  ("role", JStr "STUDENT"); ("iat", JNum 2)]
                            secret))].
Proof.
  assert (H : status (fst (loginUser secret encode compare env db login_sam)) = 200%Z)
    by reflexivity.
  split; [exact H|].
  destruct (login_token_amended secret encode upper_other compare env db login_sam)
    as [Hok _].
  rewrite (Hok "sam@school.org" "pw-1" student1 eq_refl eq_refl eq_refl eq_refl).
  reflexivity.
Defined.

(** The claim C5 as stated fails on two inputs with a new email: with the
    role "principal" no user is persisted and the answer is 500; with
    the empty role the persisted role is STUDENT, which is not the
    upper-cased input. *)
Lemma register_unknown_or_empty_role :
  find_user_by_email db "nia@school.org" = None /\
  status (fst (registerUser upper_other hash env db (register_nia (JStr "principal"))))
  = 500%Z /\
  snd (registerUser upper_other hash env db (register_nia (JStr "principal"))) = db /\
  get_field "role" (body (register_nia (JStr EmptyString))) = JStr EmptyString /\
  field "role" (field "user"
    (json (fst (registerUser upper_other hash env db (register_nia (JStr EmptyString))))))
  = JStr "STUDENT" /\
  toUpperCase upper_other EmptyString <> "STUDENT".
Proof.
  repeat split; try reflexivity. discriminate.
Qed.

(** Nia registers as "teacher" and is stored as TEACHER, and the answer
    is the same with another password; the email of Sam is taken; a role
    that is a number is answered 500. *)
Lemma register_user_witness :
  registerUser upper_other hash env db (register_nia (JStr "teacher"))
  = (mkResponse 201
       (JObj [("success", JBool true);
              ("message", JStr "User registered successfully");
              ("user", JObj [("id", JStr "new-id"); ("name", JStr "Nia");
                             ("email", JStr "nia@school.org");
                             ("role", JStr "TEACHER")])]),
     mkStore (users db ++
                [User.mk "new-id" (Some "Nia") "nia@school.org" "salt0$pw-n"
                   TEACHER 2001 2001])
       (journals db)) /\
  registerUser upper_other hash env db (mkRequest None EmptyString (body login_sam) None)
  = (mkResponse 400 (failure "User already exists"), db) /\
  status (fst (registerUser upper_other hash env db (register_nia (JNum 7)))) = 500%Z.
Proof.
  split; [|split].
  - destruct (register_user_amended upper_other hash env db
                (register_nia (JStr "teacher")) "nia@school.org" eq_refl)
      as (_ & H & _).
    exact (proj1 (H eq_refl "pw-n" (Some "Nia") TEACHER eq_refl eq_refl eq_refl eq_refl)).
  - destruct (register_user_amended upper_other hash env db
                (mkRequest None EmptyString (body login_sam) None)
                "sam@school.org" eq_refl) as (H & _).
    exact (H student1 eq_refl).
  - destruct (register_user_amended upper_other hash env db (register_nia (JNum 7))
                "nia@school.org" eq_refl) as (_ & _ & H & _).
    exact (proj1 (H eq_refl "pw-n" eq_refl eq_refl)).
Defined.

(** The claim C2 as stated fails when the supplied [publish_at] is the
    empty string: the string is not the serialization of its parse, and
    the call is not answered 400. *)
Lemma publish_empty_string_not_rejected :
  get_field "publish_at" (body (publish_scheduled (JStr EmptyString))) = JStr EmptyString /\
  ~ round_trips parse_other of_object (JStr EmptyString) /\
  find_journal db "j2" = Some scheduled /\
  status (fst (publishJournal parse_other of_object env db
                 (publish_scheduled (JStr EmptyString)))) <> 400%Z.
Proof.
  split; [reflexivity|]. split.
  - intros (s & t & [= <-] & Hd & _). discriminate Hd.
  - split; [reflexivity|discriminate].
Qed.

(** Publishing the scheduled journal with a date in words is answered
    400; with the serialization of the start of 2024, or with the empty
    string, it is not. *)
Lemma publish_round_trip_witness :
  publishJournal parse_other of_object env db (publish_scheduled (JStr "next tuesday"))
  = (mkResponse 400
       (JObj [("success", JBool false);
              ("message", JStr "Invalid publish_at date format. Must be ISO 8601")]),
     db) /\
  round_trips parse_other of_object (JStr "2024-01-01T00:00:00.000Z") /\
  status (fst (publishJournal parse_other of_object env db
                 (publish_scheduled (JStr "2024-01-01T00:00:00.000Z")))) <> 400%Z /\
  status (fst (publishJournal parse_other of_object env db
                 (publish_scheduled (JStr EmptyString)))) <> 400%Z.
Proof.
  destruct (publish_round_trip_amended parse_other of_object env db
              (publish_scheduled (JStr "next tuesday"))) as (_ & Hbad & _).
  destruct (publish_round_trip_amended parse_other of_object env db
              (publish_scheduled (JStr "2024-01-01T00:00:00.000Z")))
    as (Hcanon & _ & _ & Hvalid & _).
  destruct (publish_round_trip_amended parse_other of_object env db
              (publish_scheduled (JStr EmptyString))) as (_ & _ & _ & _ & Hfalsy).
  assert (Hr : round_trips parse_other of_object (JStr "2024-01-01T00:00:00.000Z")).
  { apply Hcanon. exists 1704067200000%Z.
    split; [unfold JSDate.maxTime; lia|reflexivity]. }
  split; [|split; [exact Hr|split]].
  - apply Hbad; [reflexivity|].
    intros (s & t & [= <-] & Hd & _). discriminate Hd.
  - exact (Hvalid Hr).
  - exact (Hfalsy eq_refl).
Defined.

(** The claim C10 as stated fails when [publish_at] is the number 5: the
    value is truthy and not a string, and the 400 branch is taken. *)
Lemma publish_number_bad_request :
  truthy (JNum 5) = true /\
  (forall s, JNum 5 <> JStr s) /\
  publishJournal parse_other of_object env db (publish_scheduled (JNum 5))
  = (publish_bad_request, db).
Proof.
  split; [reflexivity|]. split; [discriminate|reflexivity].
Qed.

(** Publishing with the empty string or with null is handled as with no
    date; publishing with [true] is answered 400. *)
Lemma publish_falsy_witness :
  publishJournal parse_other of_object env db (publish_scheduled (JStr EmptyString))
  = publishJournal parse_other of_object env db
      (without_body (publish_scheduled (JStr EmptyString))) /\
  status (fst (publishJournal parse_other of_object env db
                 (publish_scheduled JNull))) <> 400%Z /\
  publishJournal parse_other of_object env db (publish_scheduled (JBool true))
  = (mkResponse 400
       (JObj [("success", JBool false);
              ("message", JStr "Invalid publish_at date format. Must be ISO 8601")]),
     db).
Proof.
  destruct (publish_falsy_amended parse_other of_object env db
              (publish_scheduled (JStr EmptyString))) as (H1 & _).
  destruct (publish_falsy_amended parse_other of_object env db
              (publish_scheduled JNull)) as (H2 & _).
  destruct (publish_falsy_amended parse_other of_object env db
              (publish_scheduled (JBool true))) as (_ & _ & H3).
  split; [exact (proj1 (H1 eq_refl))|]. split.
  - exact (proj2 (H2 eq_refl)).
  - apply H3; [reflexivity|discriminate].
Defined.

(** The claim C7 as stated fails on create: with no [taggedStudents] the
    create handler answers 500 and stores nothing, as update does. *)
Lemma create_without_tags_fails :
  get_field "taggedStudents" (body create_without_tags) = JUndefined /\
  createJournal upper_other parse env db create_without_tags
  = (mkResponse 500
       (JObj [("success", JBool false);
              ("message", JStr "Journal creation failed");
              ("error", JStr "Cannot read properties of undefined (reading 'map')")]),
     db).
Proof. split; reflexivity. Qed.

(** Retagging the undated journal with s2 alone drops s1; an update and
    a create with no tag list are answered 500. *)
Lemma update_replaces_tags_witness :
  status (fst (updateJournal upper_other env db retag_undated)) = 200%Z /\
  (exists j', find_journal (snd (updateJournal upper_other env db retag_undated)) "j3"
              = Some j' /\
              Journal.taggedStudents j' = ["s2"]) /\
  status (fst (updateJournal upper_other env db update_without_tags)) = 500%Z /\
  status (fst (createJournal upper_other parse env db create_without_tags)) = 500%Z.
Proof.
  destruct (update_replaces_tags_amended upper_other parse env db retag_undated)
    as (Hok & Hsuff & _).
  assert (H200 : status (fst (updateJournal upper_other env db retag_undated)) = 200%Z).
  { apply (Hsuff undated ["s2"]); try reflexivity.
    - intros i [<-|[]]. discriminate.
    - intros k [<-|[<-|[]]]; [right; eexists; reflexivity|left; reflexivity]. }
  destruct (Hok H200) as (items & j' & _ & _ & _ & _).
  destruct (update_replaces_tags_amended upper_other parse env db update_without_tags)
    as (_ & _ & Hno).
  destruct (update_replaces_tags_amended upper_other parse env db create_without_tags)
    as (_ & _ & Hno').
  split; [exact H200|]. split.
  - eexists. split; reflexivity.
  - split; [exact (proj1 (Hno eq_refl))|].
    exact (proj1 (proj2 (proj2 (Hno' eq_refl)))).
Defined.

(** C9, at a journal that is not stored: PUT and DELETE by the teacher
    answer 500 where the claim, the route documentation and GET say
    404. *)
Example missing_journal_put_delete_500 :
  find_journal db "j9" = None /\
  status (fst (route_journal_delete secret verify upper_other env db
                 teacher_deletes_missing))
  = 500%Z /\
  status (fst (route_journal_put secret verify upper_other no_upload no_upload env db
                 teacher_updates_missing)) = 500%Z /\
  status (fst (route_journal_get secret verify upper_other env db
                 teacher_deletes_missing))
  = 404%Z /\
  snd (route_journal_delete secret verify upper_other env db teacher_deletes_missing)
  = db /\
  snd (route_journal_put secret verify upper_other no_upload no_upload env db
         teacher_updates_missing) = db.
Proof. repeat split; reflexivity. Qed.

(* ------------------------------------------------------------------ *)
(** ** Further properties on the sample school *)

Lemma sample_store_ok : store_ok db.
Proof.
  unfold store_ok, journal_ok.
  repeat split; repeat constructor; cbn; intuition discriminate.
Qed.

(** The upper-casing of the sample school is stable. *)
Lemma sample_upper_stable : toUpperCase_stable upper_other.
Proof.
  intros s. destruct (is_ascii s) eqn:E.
  - now apply toUpperCase_ascii_stable.
  - unfold toUpperCase, upper_other. now rewrite !E.
Qed.

(** Midnight of the first of January 2024, as a Date serializes it,
    passes the format check. *)
Lemma isValidISODate_serializations_witness :
  isValidISODate parse_other of_object (JStr "2024-01-01T00:00:00.000Z") = true.
Proof.
  apply (proj2 (isValidISODate_serializations parse_other of_object
                  (JStr "2024-01-01T00:00:00.000Z"))).
  exists 1704067200000%Z. split; [vm_compute; discriminate|reflexivity].
Defined.

(** What follows the token in the header is not part of it. *)
Lemma presented_token_first_word_witness :
  has_char " " "token-of-s1" = false /\
  presented_token (with_authorization "Bearer token-of-s1 and more" basic_auth)
  = Some "token-of-s1".
Proof.
  destruct (presented_token_first_word secret verify upper_other) as [H1 H2].
  destruct (H2 basic_auth "token-of-s1" "and more" eq_refl) as (_ & Hb & _).
  split; [exact (H1 _ _ Hb)|exact Hb].
Defined.

(** The lower-case role of the token of s2 is attached in upper case. *)
Lemma authenticate_attaches_claims_witness :
  authenticate secret verify upper_other (request (bearer "token-of-s2") "j1" [])
  = Next (with_user (set_field "role" (JStr "STUDENT") (claims "s2" "student"))
            (request (bearer "token-of-s2") "j1" [])).
Proof.
  exact (proj1 (authenticate_attaches_claims secret verify upper_other
                  (request (bearer "token-of-s2") "j1" [])
                  "Bearer token-of-s2" "token-of-s2" (claims "s2" "student")
                  eq_refl eq_refl eq_refl eq_refl)).
Defined.

(** The teacher passes the guard of the teacher routes. *)
Lemma restrictTo_passes_only_witness :
  restrictTo upper_other ["teacher"] (authenticated "token-of-t1" "t1" "TEACHER" "j1" [])
  = Next (authenticated "token-of-t1" "t1" "TEACHER" "j1" []) /\
  exists u r,
    user (authenticated "token-of-t1" "t1" "TEACHER" "j1" []) = Some u /\
    get_field "role" u = JStr r /\
    role_permitted upper_other ["teacher"] (JStr r) = true.
Proof.
  split; [reflexivity|].
  destruct (restrictTo_passes_only upper_other ["teacher"]
              (authenticated "token-of-t1" "t1" "TEACHER" "j1" [])) as [H _].
  destruct (H _ eq_refl) as (_ & _ & Hex). exact Hex.
Defined.

(** Sam with the password of Sue is answered 400. *)
Lemma login_refusals_witness :
  loginUser secret encode compare env db login_sam_wrong_password
  = (mkResponse 400 (failure "Invalid password"), db).
Proof.
  destruct (login_refusals secret encode compare env db login_sam_wrong_password)
    as (_ & _ & H & _).
  exact (H "sam@school.org" "pw-2" student1 eq_refl eq_refl eq_refl eq_refl).
Defined.

(** Nia registers and logs in with the same password. *)
Lemma register_then_login_witness :
  status (fst (loginUser secret encode compare env
                 (snd (registerUser upper_other hash env db
                         (register_nia (JStr "teacher"))))
                 login_nia)) = 200%Z.
Proof.
  destruct (register_then_login secret encode upper_other hash compare env db
              (register_nia (JStr "teacher")) "nia@school.org" "pw-n"
              (Some "Nia") TEACHER eq_refl eq_refl eq_refl eq_refl eq_refl eq_refl)
    as [_ H].
  rewrite (H env login_nia "pw-n" eq_refl eq_refl). reflexivity.
Defined.

(** The teacher creates the journal of week 4 for both students. *)
Lemma create_journal_result_witness :
  status (fst (createJournal upper_other parse env db
                 (create_week4 (JArr (map JStr ["s1"; "s2"]))))) = 201%Z.
Proof.
  assert (Hteacher : find_user_by_id db "t1" <> None) by discriminate.
  assert (Hids : forall i, In i ["s1"; "s2"] -> find_user_by_id db i <> None)
    by (intros i [<-|[<-|[]]]; discriminate).
  destruct (create_journal_result upper_other parse env db
              (create_week4 (JArr (map JStr ["s1"; "s2"])))
              (claims "t1" "TEACHER") "t1" "Week 4" "Percentages" ["s1"; "s2"]
              eq_refl eq_refl Hteacher eq_refl eq_refl eq_refl eq_refl eq_refl
              Hids eq_refl) as (tagged & _ & _ & H).
  rewrite H. reflexivity.
Defined.

(** The tag list as JSON text gives the same create as the list. *)
Lemma create_decodes_tag_string_witness :
  createJournal upper_other parse_tags env db (create_week4 (JStr tags_text))
  = createJournal upper_other parse_tags env db (create_week4 (JArr [JStr "s1"])).
Proof.
  assert (Hsame : forall k, k <> "taggedStudents" ->
    get_field k (body (create_week4 (JArr [JStr "s1"])))
    = get_field k (body (create_week4 (JStr tags_text)))).
  { intros k Hk. cbn [create_week4 authenticated body get_field].
    destruct (String.eqb k "title"); [reflexivity|].
    destruct (String.eqb k "content"); [reflexivity|].
    destruct (String.eqb k "taggedStudents") eqn:E; [|reflexivity].
    apply String.eqb_eq in E. now elim Hk. }
  destruct (create_decodes_tag_string upper_other parse_tags env db
              (create_week4 (JStr tags_text)) (create_week4 (JArr [JStr "s1"]))
              tags_text eq_refl Hsame eq_refl) as [H _].
  apply (H (JArr [JStr "s1"])); [reflexivity|discriminate|reflexivity].
Defined.

(** The journal of week 4 is stored under the drawn identifier, and a
    read of that identifier finds it. *)
Lemma create_then_read_back_witness :
  exists j,
    Journal.id j = "new-id" /\
    status (fst (getJournalById env
                   (snd (createJournal upper_other parse env db
                           (create_week4 (JArr [JStr "s1"; JStr "s2"]))))
                   (request None "new-id" []))) = 200%Z.
Proof.
  destruct (create_then_read_back upper_other parse env db
              (create_week4 (JArr [JStr "s1"; JStr "s2"])) eq_refl)
    as (j & _ & Hid & Hget & _).
  exists j. split; [exact Hid|].
  rewrite (Hget env (request None "new-id" []) eq_refl). reflexivity.
Defined.

(** Retagging the undated journal keeps its teacher and publish time. *)
Lemma update_effect_witness :
  exists j j',
    find_journal db "j3" = Some j /\
    Journal.teacherId j' = Journal.teacherId j /\
    Journal.publish_at j' = Journal.publish_at j /\
    snd (updateJournal upper_other env db retag_undated)
    = mkStore (users db) (replace_journal j' (journals db)).
Proof.
  destruct (update_effect upper_other env db retag_undated eq_refl)
    as (j & j' & H1 & H2 & _ & H4 & H5 & _).
  exists j, j'. repeat split; assumption.
Defined.

(** Publishing a journal the store does not hold is answered 500. *)
Lemma publish_missing_journal_witness :
  status (fst (publishJournal parse_other of_object env db
                 (request None "j9" []))) = 500%Z.
Proof.
  destruct (publish_missing_journal parse_other of_object env db
              (request None "j9" []) eq_refl) as (_ & _ & H).
  exact (proj1 (H (or_introl eq_refl))).
Defined.

(** Publishing the scheduled journal, which is stored, at the start of
    2024 is answered 500 and changes nothing. *)
Lemma publish_never_goes_through_witness :
  find_journal db "j2" = Some scheduled /\
  status (fst (publishJournal parse_other of_object env db
                 (publish_scheduled (JStr "2024-01-01T00:00:00.000Z")))) = 500%Z /\
  snd (publishJournal parse_other of_object env db
         (publish_scheduled (JStr "2024-01-01T00:00:00.000Z"))) = db.
Proof.
  destruct (publish_never_goes_through parse_other of_object env db
              (publish_scheduled (JStr "2024-01-01T00:00:00.000Z")))
    as (Hdb & _ & _ & _ & H).
  assert (Hrange : (Z.abs 1704067200000 <= JSDate.maxTime)%Z)
    by (unfold JSDate.maxTime; lia).
  split; [reflexivity|]. split; [|exact Hdb].
  exact (H scheduled 1704067200000%Z eq_refl Hrange eq_refl).
Defined.

(** After its deletion the published journal is not found. *)
Lemma delete_effect_witness :
  find_journal (snd (deleteJournal env db (request None "j1" []))) "j1" = None.
Proof.
  exact (proj1 (proj2 (proj2
           (delete_effect env db (request None "j1" []) published eq_refl)))).
Defined.

(** The teacher feed of t1 lists the three journals, the scheduled one
    among them. *)
Lemma teacher_feed_exact_witness :
  listed_ids (fst (getTeacherFeed env db
                     (authenticated "token-of-t1" "t1" "TEACHER" EmptyString [])))
  = [JStr "j1"; JStr "j2"; JStr "j3"].
Proof.
  destruct (proj1 (teacher_feed_exact env db
                     (authenticated "token-of-t1" "t1" "TEACHER" EmptyString []))
              (claims "t1" "TEACHER") "t1" eq_refl eq_refl)
    as (_ & _ & _ & Hids & _).
  rewrite Hids. reflexivity.
Defined.

(** For the teacher GET /feed lists the three journals newest first. *)
Lemma feed_agrees_with_role_feeds_witness :
  listed_ids (fst (feed env db
                     (authenticated "token-of-t1" "t1" "TEACHER" EmptyString [])))
  = [JStr "j3"; JStr "j2"; JStr "j1"].
Proof.
  destruct (feed_agrees_with_role_feeds env db
              (authenticated "token-of-t1" "t1" "TEACHER" EmptyString [])
              (claims "t1" "TEACHER") "t1" teacher eq_refl eq_refl eq_refl eq_refl)
    as (_ & _ & Hids & _).
  rewrite Hids. reflexivity.
Defined.

(** Student s1 is given the list of all journals, the scheduled one
    among them. *)
Lemma list_shows_every_journal_witness :
  listed_ids (fst (route_journal_list secret verify upper_other env db
                     student_reads_feed))
  = [JStr "j1"; JStr "j2"; JStr "j3"].
Proof.
  destruct (list_shows_every_journal secret verify upper_other env db
              student_reads_feed
              (authenticated "token-of-s1" "s1" "STUDENT" EmptyString []) eq_refl)
    as (_ & _ & _ & Hids & _).
  rewrite Hids. reflexivity.
Defined.

(** The answer for the journal j1 shows the password hash of Tess. *)
Lemma journal_answers_carry_password_hashes_witness :
  field "password" (field "teacher" (field "journal"
    (json (fst (getJournalById env db (request None "j1" []))))))
  = JStr "salt0$pw-t".
Proof.
  exact (proj1 (proj1 (journal_answers_carry_password_hashes env db
                         (request None "j1" []) published eq_refl)
                 teacher eq_refl)).
Defined.

(** Listing the journals leaves the store as it is. *)
Lemma reading_handlers_never_write_witness :
  snd (getAllJournals env db student_reads_feed) = db.
Proof.
  assert (Hin : In getAllJournals (reading_handlers secret encode compare))
    by (right; left; reflexivity).
  exact (proj1 (reading_handlers_never_write secret encode compare
                  getAllJournals Hin [] env db student_reads_feed)).
Defined.

(** A delete either leaves the store or answers 200. *)
Lemma store_changes_only_on_success_witness :
  snd (deleteJournal env db teacher_deletes_missing) = db \/
  status (fst (deleteJournal env db teacher_deletes_missing)) = 200%Z \/
  status (fst (deleteJournal env db teacher_deletes_missing)) = 201%Z.
Proof.
  assert (Hin : In deleteJournal
                  (all_handlers secret encode upper_other hash compare parse
                     parse_other of_object))
    by (do 7 right; left; reflexivity).
  exact (store_changes_only_on_success secret encode upper_other hash compare parse
           parse_other of_object deleteJournal Hin env db teacher_deletes_missing).
Defined.

(** The delete that removes j1 came with the token of a teacher. *)
Lemma only_teacher_tokens_write_witness :
  exists token decoded role,
    presented_token (request (bearer "token-of-t1") "j1" []) = Some token /\
    verify token secret = Some decoded /\
    get_field "role" decoded = JStr role /\
    toUpperCase upper_other role = "TEACHER".
Proof.
  assert (Hin : In (route_journal_delete secret verify upper_other)
                  (protected_routes secret verify upper_other parse parse_other
                     of_object no_upload no_upload))
    by (do 7 right; left; reflexivity).
  assert (Hw : snd (route_journal_delete secret verify upper_other env db
                      (request (bearer "token-of-t1") "j1" [])) <> db).
  { intros H. apply (f_equal (fun s => List.length (journals s))) in H.
    vm_compute in H. discriminate. }
  destruct (only_teacher_tokens_write secret encode verify upper_other compare parse
              parse_other of_object no_upload no_upload
              (route_journal_delete secret verify upper_other) Hin env db
              (request (bearer "token-of-t1") "j1" []) Hw)
    as (token & decoded & role & Ht & Hv & Hr & _ & Hstable & _).
  exists token, decoded, role.
  split; [exact Ht|]. split; [exact Hv|]. split; [exact Hr|].
  exact (Hstable sample_upper_stable).
Defined.

(** A second teacher deletes the journal of the first. *)
Lemma teacher_routes_ignore_ownership_witness :
  Journal.teacherId published = "t1" /\
  get_field "userId" (claims "t2" "teacher") = JStr "t2" /\
  status (fst (route_journal_delete secret verify_staff upper_other env db
                 other_teacher_deletes))
  = 200%Z.
Proof.
  split; [reflexivity|]. split; [reflexivity|].
  destruct (teacher_routes_ignore_ownership secret verify_staff upper_other
              env db other_teacher_deletes
              (mkRequest (bearer "token-of-t2") "j1" []
                 (Some (set_field "role" (JStr "TEACHER") (claims "t2" "teacher"))))
              (set_field "role" (JStr "TEACHER") (claims "t2" "teacher"))
              published eq_refl eq_refl eq_refl eq_refl) as [H _].
  rewrite H. reflexivity.
Defined.

(** A photograph in PNG passes the file filter. *)
Lemma fileFilter_accepts_witness :
  fileFilter lesson_photo = Normal true.
Proof.
  apply (proj2 (proj1 (fileFilter_accepts lesson_photo))).
  exists "lesson", "png". split; [|reflexivity].
  right; right; left; reflexivity.
Defined.

(** The create that follows the upload of the photograph is answered
    500, though the same create without a file goes through. *)
Lemma upload_breaks_create_and_update_witness :
  status (fst (createJournal upper_other parse env db
                 (create_week4 (JArr [JStr "s1"])))) = 201%Z /\
  exists req',
    uploadToCloudinary (Some lesson_photo) (create_week4 (JArr [JStr "s1"]))
    = Next req' /\
    status (fst (createJournal upper_other parse env db req')) = 500%Z /\
    snd (createJournal upper_other parse env db req') = db.
Proof.
  split; [reflexivity|].
  destruct (proj2 (upload_breaks_create_and_update upper_other parse lesson_photo
                     (create_week4 (JArr [JStr "s1"]))))
    as (req' & Hup & _ & _ & _ & _ & _ & _ & Hfail).
  assert (Hurl : "https://res.cloudinary.com/demo/lesson.png" <> EmptyString)
    by discriminate.
  destruct (Hfail env db "https://res.cloudinary.com/demo/lesson.png" eq_refl Hurl)
    as ((H500 & _ & Hdb) & _).
  exists req'. split; [exact Hup|]. split; [exact H500|exact Hdb].
Defined.

(** The sample store is well formed, and stays so when Nia registers. *)
Lemma handlers_keep_store_ok_witness :
  store_ok db /\
  store_ok (snd (registerUser upper_other hash env db (register_nia (JStr "teacher")))).
Proof.
  assert (Hin : In (registerUser upper_other hash)
                  (all_handlers secret encode upper_other hash compare parse
                     parse_other of_object))
    by (left; reflexivity).
  split; [exact sample_store_ok|].
  exact (proj1 (handlers_keep_store_ok secret encode upper_other hash compare parse
                  parse_other of_object (registerUser upper_other hash) Hin [] env db
                  (register_nia (JStr "teacher")) sample_store_ok)).
Defined.

(** Tess logs in, and the token she is given opens her teacher feed and
    not the student feed. *)
Lemma login_then_feeds_witness :
  field "token" (json (fst (loginUser secret encode compare env db login_tess)))
  = JStr "token-of-t1" /\
  listed_ids (fst (route_user_teacher secret verify upper_other env db
                     (request (bearer "token-of-t1") EmptyString [])))
  = [JStr "j1"; JStr "j2"; JStr "j3"] /\
  status (fst (route_user_student secret verify upper_other env db
                 (request (bearer "token-of-t1") EmptyString []))) = 403%Z.
Proof.
  destruct (login_then_feeds secret encode verify upper_other compare env db login_tess
              "tess@school.org" "pw-t" teacher (claims "t1" "TEACHER")
              sample_store_ok eq_refl eq_refl eq_refl eq_refl eq_refl eq_refl
              eq_refl eq_refl) as [Htoken Hfeeds].
  split; [exact Htoken|].
  destruct (Hfeeds env (request (bearer "token-of-t1") EmptyString []) eq_refl)
    as (Hteacher & _ & Hstudent).
  split; [|exact Hstudent].
  rewrite Hteacher. reflexivity.
Defined.
